(** * DemandSense AI: the inventory / forecast analytics core

    A shallow embedding of the numeric core of the repository:
    - [server/inventory-calculator.js]  (class [InventoryCalculator]),
    - [server/seasonality-utils.js]     (class [SeasonalityUtils]),
    - [routes/api/scenarios.js]         (the what-if scenario handlers).

    JavaScript numbers are modelled by exact arithmetic: rationals [Q]
    where the source only uses [+ - * /], comparisons and [Math.round], and
    the reals [R] where it calls [Math.sqrt] or [Math.exp].  Rounding error,
    overflow and the sign of zero are outside the model; the one place where
    the source divides without a guard ([classifyABC]) is modelled with the
    IEEE results of a division by zero ([Infinity], [-Infinity], [NaN]). *)

From Stdlib Require Import String.
From stdpp Require Import gmap list.
From Stdlib Require Import QArith Qround Qminmax Qabs.
From Stdlib Require Import Reals Psatz.
From Stdlib Require Import Sorting.Permutation Sorting.Sorted.
Import ListNotations.

Local Open Scope Q_scope.

(** ** JavaScript number helpers *)
Module JS.

(** [Math.round(x)]: the integer nearest to [x], ties towards [+Infinity],
    that is [floor(x + 0.5)]. *)
Definition Math_round (x : Q) : Z := Qfloor (x + (1 # 2)).

(** [Math.round(x * 100) / 100], the two-decimal rounding idiom. *)
Definition round2 (x : Q) : Q := inject_Z (Math_round (x * 100)) / 100.

(** The value of a JavaScript division whose operands are finite. *)
Inductive number : Type :=
| Finite (q : Q)
| PosInfinity
| NegInfinity
| NaN.

(** [a / b] on finite operands: [x / 0] is [NaN] for [x = 0] and a signed
    infinity otherwise. *)
Definition div (a b : Q) : number :=
  if Qeq_bool b 0 then
    if Qeq_bool a 0 then NaN
    else if Qle_bool 0 a then PosInfinity else NegInfinity
  else Finite (a / b).

(** [x <= c] for a finite constant [c]: every comparison with [NaN] is
    false. *)
Definition le (x : number) (c : Q) : bool :=
  match x with
  | Finite q => Qle_bool q c
  | PosInfinity => false
  | NegInfinity => true
  | NaN => false
  end.

(** JavaScript truthiness of a finite number: [0] is falsy. *)
Definition truthy (x : Q) : bool := negb (Qeq_bool x 0).

(** [a < b] on finite numbers. *)
Definition lt (a b : Q) : bool := negb (Qle_bool b a).

(** [Array.prototype.sort(cmp)] for a comparator with finite results.
    The language fixes the result: the sort is stable, and [a] is placed
    after [b] exactly when [cmp(a, b) > 0].  It is written here as an
    insertion sort from the right, which yields that result. *)
Fixpoint insert {A : Type} (cmp : A -> A -> Q) (x : A) (l : list A) : list A :=
  match l with
  | [] => [x]
  | y :: r => if lt 0 (cmp x y) then y :: insert cmp x r else x :: y :: r
  end.

Definition Array_sort {A : Type} (cmp : A -> A -> Q) (l : list A) : list A :=
  fold_right (insert cmp) [] l.

(** [arr.reduce((sum, x) => sum + f(x), 0)] *)
Definition reduce_sum {A : Type} (f : A -> Q) (l : list A) : Q :=
  fold_left (fun sum x => sum + f x) l 0.

End JS.

(** ** Records shared by the modules *)

(** A point of a forecast series.  [scenario_impact] and [promotion_lift]
    are the optional labels the scenario handlers add; each holds the
    multiplier that the source prints into the template strings
    [`${multiplier}x demand`] and [`${lift}x`]. *)
Record ForecastPoint : Type := mkPoint {
  date : string;
  predicted : Q;
  upper_bound : Q;
  lower_bound : Q;
  scenario_impact : option Q;
  promotion_lift : option Q
}.

(** ** server/inventory-calculator.js, rational part *)
Module InventoryCalculator.

(** [calculateFillRate(unitsShipped, unitsOrdered)] *)
Definition calculateFillRate (unitsShipped unitsOrdered : Q) : Q :=
  if negb (JS.truthy unitsOrdered) || Qeq_bool unitsOrdered 0 then 1
  else unitsShipped / unitsOrdered.

(** The object returned by [calculateOptimalOrder]. *)
Record OptimalOrder : Type := mkOrder {
  recommended : Z;
  adjusted : Z;
  final : Z;
  urgent : bool;
  critical : bool
}.

(** [calculateOptimalOrder(forecast, currentStock, reorderPoint, maxStock)] *)
Definition calculateOptimalOrder (forecast : list ForecastPoint)
    (currentStock reorderPoint maxStock : Q) : OptimalOrder :=
  let recommendedOrder := Qmax 0 (reorderPoint - currentStock) in
  let forecastedDemand := JS.reduce_sum predicted (firstn 7 forecast) in
  let adjustedOrder := Qmax recommendedOrder (forecastedDemand * (12 # 10)) in
  let finalOrder := Qmin adjustedOrder (maxStock - currentStock) in
  {| recommended := JS.Math_round recommendedOrder;
     adjusted := JS.Math_round adjustedOrder;
     final := Z.max 0 (JS.Math_round finalOrder);
     urgent := JS.lt currentStock (reorderPoint * (5 # 10));
     critical := JS.lt currentStock (reorderPoint * (25 # 100)) |}.

(** The three classes of the ABC analysis. *)
Inductive abc : Type := A | B | C.

(** An item handed to [classifyABC]: an identifier, the value read through
    [valueKey] (default ['annualValue']) and the [class] property, absent
    until the classifier sets it.  Every position of the input list is an
    object of its own, as in the callers, which build the items with
    [products.map(p => ({...p, annualValue: ...}))]. *)
Record Item : Type := mkItem {
  id : string;
  annualValue : Q;
  class : option abc
}.

Definition set_class (item : Item) (c : abc) : Item :=
  {| id := id item; annualValue := annualValue item; class := Some c |}.

(** The branch on [percentage] inside the loop. *)
Definition class_of (percentage : JS.number) : abc :=
  if JS.le percentage (8 # 10) then A
  else if JS.le percentage (95 # 100) then B
  else C.

(** The [for (const item of sorted)] loop, with [cumulative] threaded. *)
Fixpoint classify_loop (totalValue cumulative : Q) (sorted : list Item)
    : list Item :=
  match sorted with
  | [] => []
  | item :: rest =>
      let cumulative' := cumulative + annualValue item in
      let percentage := JS.div cumulative' totalValue in
      set_class item (class_of percentage)
        :: classify_loop totalValue cumulative' rest
  end.

(** [classifyABC(items, valueKey = 'annualValue')] *)
Definition classifyABC (items : list Item) : list Item :=
  let sorted :=
    JS.Array_sort (fun a b => annualValue b - annualValue a) items in
  let totalValue := JS.reduce_sum annualValue sorted in
  classify_loop totalValue 0 sorted.

(** The test's [classified.filter(i => i.class === c).length]. *)
Definition has_class (c : abc) (item : Item) : bool :=
  match class item, c with
  | Some A, A | Some B, B | Some C, C => true
  | _, _ => false
  end.

Definition count_class (c : abc) (items : list Item) : nat :=
  length (List.filter (has_class c) items).

(** [calculateTurnover(costOfGoodsSold, averageInventory)] *)
Definition calculateTurnover (costOfGoodsSold averageInventory : Q) : Q :=
  if negb (JS.truthy averageInventory) || Qeq_bool averageInventory 0 then 0
  else costOfGoodsSold / averageInventory.

(** [calculateDIO(averageInventory, costOfGoodsSold, days = 365)]; [days]
    is [None] when the caller leaves it out. *)
Definition calculateDIO (averageInventory costOfGoodsSold : Q)
    (days : option Q) : Q :=
  let days := default 365 days in
  if negb (JS.truthy costOfGoodsSold) || Qeq_bool costOfGoodsSold 0 then 0
  else (averageInventory / costOfGoodsSold) * days.

(** A row of sales data as the calculator reads it: the date under [date]
    or [Date], the amount under [sales] or [quantity], each possibly
    absent. *)
Record SaleRow : Type := mkSaleRow {
  sale_date : option string;
  sale_Date : option string;
  sale_sales : option Q;
  sale_quantity : option Q
}.

(** [x || y] on optional strings: the empty string is falsy. *)
Definition string_or (x y : option string) : option string :=
  match x with
  | Some s => if String.eqb s "" then y else Some s
  | None => y
  end.

(** [x || otherwise] on an optional number. *)
Definition num_or (x : option Q) (otherwise : Q) : Q :=
  match x with
  | Some v => if JS.truthy v then v else otherwise
  | None => otherwise
  end.

(** [sale.sales || sale.quantity || 0] *)
Definition sale_value (sale : SaleRow) : Q :=
  num_or (sale_sales sale) (num_or (sale_quantity sale) 0).

(** [!date] for the result of [sale.date || sale.Date]. *)
Definition no_date (date : option string) : bool :=
  match date with
  | Some s => String.eqb s ""
  | None => true
  end.

(** [forecast.find(f => f.date === date)] for the looked-up [date], which
    is [undefined] when the row has none. *)
Definition find_forecast (wanted : option string)
    (forecast : list ForecastPoint) : option ForecastPoint :=
  List.find (fun f => match wanted with
                      | Some d => String.eqb (date f) d
                      | None => false
                      end) forecast.

(** One round of the [actual.forEach] of [calculateForecastAccuracy], on
    the pair [(totalError, count)]. *)
Definition accuracy_step (forecast : list ForecastPoint)
    (state : Q * nat) (a : SaleRow) : Q * nat :=
  let '(totalError, count) := state in
  match find_forecast (string_or (sale_date a) (sale_Date a)) forecast with
  | Some forecastItem =>
      let actualValue := sale_value a in
      let forecastValue := num_or (Some (predicted forecastItem)) 0 in
      if JS.lt 0 actualValue then
        (totalError + Qabs ((actualValue - forecastValue) / actualValue),
         S count)
      else (totalError, count)
  | None => (totalError, count)
  end.

(** [calculateForecastAccuracy(actual, forecast)]; [None] is [null]. *)
Definition calculateForecastAccuracy (actual : list SaleRow)
    (forecast : list ForecastPoint) : option Q :=
  if (length actual =? 0)%nat || (length forecast =? 0)%nat then None
  else
    let '(totalError, count) :=
      fold_left (accuracy_step forecast) actual (0, 0%nat) in
    if (count =? 0)%nat then None
    else
      let mape := totalError / inject_Z (Z.of_nat count) in
      Some (Qmax 0 (1 - mape)).

(** A JavaScript [Map] from day keys to numbers, in insertion order. *)
Fixpoint Map_get (key : string) (m : list (string * Q)) : option Q :=
  match m with
  | [] => None
  | (k, v) :: rest => if String.eqb k key then Some v else Map_get key rest
  end.

(** [m.set(key, value)]: an existing key keeps its place. *)
Fixpoint Map_set (key : string) (value : Q) (m : list (string * Q))
    : list (string * Q) :=
  match m with
  | [] => [(key, value)]
  | (k, v) :: rest =>
      if String.eqb k key then (k, value) :: rest
      else (k, v) :: Map_set key value rest
  end.

(** One round of the [salesData.forEach] of [calculateDailyDemand].
    [toISODate] is [new Date(date).toISOString().split('T')[0]], which
    throws a [RangeError] ([None]) on a string that is not a date. *)
Definition dailyDemand_step (toISODate : string -> option string)
    (byDate : option (list (string * Q))) (sale : SaleRow)
    : option (list (string * Q)) :=
  match byDate with
  | None => None
  | Some m =>
      let date := string_or (sale_date sale) (sale_Date sale) in
      if no_date date then Some m
      else
        match toISODate (default ""%string date) with
        | None => None
        | Some key =>
            let value := sale_value sale in
            Some (Map_set key (num_or (Map_get key m) 0 + value) m)
        end
  end.

(** [calculateDailyDemand(salesData)]; the outer [None] is the
    [RangeError].  The final division is unguarded. *)
Definition calculateDailyDemand (toISODate : string -> option string)
    (salesData : list SaleRow) : option JS.number :=
  if (length salesData =? 0)%nat then Some (JS.Finite 0)
  else
    match fold_left (dailyDemand_step toISODate) salesData (Some []) with
    | None => None
    | Some byDate =>
        let total := JS.reduce_sum snd byDate in
        Some (JS.div total (inject_Z (Z.of_nat (length byDate))))
    end.

(** Whether a row has a date, [sale.date || sale.Date] being truthy. *)
Definition has_date (sale : SaleRow) : bool :=
  negb (no_date (string_or (sale_date sale) (sale_Date sale))).

(** The day key a dated row is filed under, if its date parses. *)
Definition day_key (toISODate : string -> option string) (sale : SaleRow)
    : option string :=
  if has_date sale
  then toISODate (default ""%string (string_or (sale_date sale) (sale_Date sale)))
  else None.

End InventoryCalculator.

(** ** server/inventory-calculator.js, the functions that call
       [Math.sqrt] and [Math.exp], over the reals *)
Module InventoryCalculatorR.
Local Open Scope R_scope.

(** [Math.round(x)] on a real: [floor(x + 0.5)]. *)
Definition Math_round (x : R) : Z := Zfloor (x + / 2).

(** [Math.round(x * 100) / 100] *)
Definition round2 (x : R) : R := IZR (Math_round (x * 100)) / 100.

(** [!x] for a number: true exactly at [0]. *)
Definition falsy (x : R) : bool := if Req_dec_T x 0 then true else false.

(** [calculateEOQ(annualDemand, orderingCost, holdingCost)]; [None] is the
    source's [null].  The radicand is taken non-negative: [Math.sqrt] of a
    negative number is [NaN], which the model does not represent. *)
Definition calculateEOQ (annualDemand orderingCost holdingCost : R)
    : option R :=
  if falsy annualDemand || falsy orderingCost || falsy holdingCost
     || falsy holdingCost
  then None
  else
    let eoq := sqrt ((2 * annualDemand * orderingCost) / holdingCost) in
    Some (round2 eoq).

(** [calculateReorderPoint(averageDailyDemand, leadTimeDays, safetyStock)] *)
Definition calculateReorderPoint
    (averageDailyDemand leadTimeDays safetyStock : R) : R :=
  (averageDailyDemand * leadTimeDays) + safetyStock.

(** The lookup [zScores[serviceLevel] || 1.65] in the table
    [{0.90: 1.28, 0.95: 1.65, 0.99: 2.33}]. *)
Definition zScores (serviceLevel : R) : R :=
  if Req_dec_T serviceLevel (90 / 100) then 128 / 100
  else if Req_dec_T serviceLevel (95 / 100) then 165 / 100
  else if Req_dec_T serviceLevel (99 / 100) then 233 / 100
  else 165 / 100.

(** [calculateSafetyStock(averageDailyDemand, leadTimeDays, serviceLevel,
    demandStdDev)] *)
Definition calculateSafetyStock
    (averageDailyDemand leadTimeDays serviceLevel demandStdDev : R) : R :=
  let z := zScores serviceLevel in
  let safetyStock := z * demandStdDev * sqrt leadTimeDays in
  round2 safetyStock.

(** [calculateStockoutProbability(averageDemand, safetyStock,
    demandStdDev)] *)
Definition calculateStockoutProbability
    (averageDemand safetyStock demandStdDev : R) : R :=
  if falsy demandStdDev || falsy demandStdDev then 0
  else
    let z := safetyStock / demandStdDev in
    let probability := exp (- (717 / 1000) * z - (416 / 1000) * z * z) in
    Rmin 1 (Rmax 0 probability).

(** The chain inside [calculateHealthMetrics] (the two calls that compute
    [safetyStock] and [reorderPoint] for one product), from the product's
    daily demand, demand deviation and lead time: the reorder point is
    computed from the value [calculateSafetyStock] returned. *)
Definition healthMetrics_reorderPoint
    (dailyDemand demandStdDev lead_time_days : R) : R :=
  let safetyStock :=
    calculateSafetyStock dailyDemand lead_time_days (95 / 100) demandStdDev in
  calculateReorderPoint dailyDemand lead_time_days safetyStock.


End InventoryCalculatorR.

(** ** routes/api/scenarios.js *)
Module Scenarios.

(** The [index < duration] test of the [map] callbacks: the loop index
    against the numeric [duration] of the request. *)
Definition index_lt (index : nat) (duration : Q) : bool :=
  JS.lt (inject_Z (Z.of_nat index)) duration.

(** The object literal of the demand-shock callback:
    [{...item, predicted: item.predicted * multiplier, ...,
      scenario_impact: `${multiplier}x demand`}]. *)
Definition shocked (multiplier : Q) (item : ForecastPoint) : ForecastPoint :=
  {| date := date item;
     predicted := predicted item * multiplier;
     upper_bound := upper_bound item * multiplier;
     lower_bound := lower_bound item * multiplier;
     scenario_impact := Some multiplier;
     promotion_lift := promotion_lift item |}.

(** The object literal of the promotion callback, with
    [promotion_lift: `${lift}x`]. *)
Definition promoted (lift : Q) (item : ForecastPoint) : ForecastPoint :=
  {| date := date item;
     predicted := predicted item * lift;
     upper_bound := upper_bound item * lift;
     lower_bound := lower_bound item * lift;
     scenario_impact := scenario_impact item;
     promotion_lift := Some lift |}.

(** [impactedForecast] of [router.post('/demand-shock')], as a value. *)
Definition impactedForecast (forecast : list ForecastPoint)
    (multiplier duration : Q) : list ForecastPoint :=
  imap (fun index item =>
          if index_lt index duration then shocked multiplier item else item)
       forecast.

(** [promotionImpact] of [router.post('/promotion')], as a value. *)
Definition promotionImpact (forecast : list ForecastPoint)
    (lift duration : Q) : list ForecastPoint :=
  imap (fun index item =>
          if index_lt index duration then promoted lift item else item)
       forecast.

(** The request body of the demand-shock endpoint: [baseForecast] may be
    missing, [multiplier] and [duration] have defaults. *)
Record ShockBody : Type := mkShockBody {
  sb_baseForecast : option (list ForecastPoint);
  sb_multiplier : option Q;
  sb_duration : option Q
}.

Inductive ShockResponse : Type :=
| Status400
| Json (impacted : list ForecastPoint).

(** [router.post('/demand-shock')], the forecast part of the response. *)
Definition post_demand_shock (body : ShockBody) : ShockResponse :=
  let multiplier := default (15 # 10) (sb_multiplier body) in
  let duration := default 7 (sb_duration body) in
  match sb_baseForecast body with
  | None => Status400
  | Some forecast => Json (impactedForecast forecast multiplier duration)
  end.

(** *** The impact helpers *)

Record Parameters : Type := mkParameters {
  multiplier : option Q;
  duration : option Q
}.

(** A scenario object; [parameters] may be absent, in which case reading
    [scenario.parameters.multiplier] throws. *)
Record Scenario : Type := mkScenario {
  type : string;
  parameters : option Parameters
}.

Inductive Level : Type := high | medium | low.

Record Impact : Type := mkImpact {
  totalDemandImpact : Z;
  percentageChange : Z;
  productsAffected : nat;
  severity : Level
}.

(** The outcome of a helper: a value, or a [TypeError] thrown. *)
Inductive outcome (T : Type) : Type :=
| Returned (v : T)
| TypeError.
Arguments Returned {T} v.
Arguments TypeError {T}.

(** [x || d] on an optional number. *)
Definition or_default (x : option Q) (d : Q) : Q :=
  match x with
  | Some v => if JS.truthy v then v else d
  | None => d
  end.

(** [scenario.parameters.multiplier || d] *)
Definition read_multiplier (scenario : Scenario) (d : Q) : outcome Q :=
  match parameters scenario with
  | None => TypeError
  | Some p => Returned (or_default (multiplier p) d)
  end.

(** [calculateScenarioImpact(baseForecast, scenario, products)];
    [forecast] is [baseForecast.forecast] and [products] the number of
    products, both possibly absent. *)
Definition calculateScenarioImpact (forecast : option (list ForecastPoint))
    (scenario : Scenario) (products : option nat) : outcome Impact :=
  let totalDemand :=
    match forecast with
    | Some fs =>
        fold_left (fun sum f =>
                     sum + (if JS.truthy (predicted f) then predicted f else 0))
                  fs 0
    | None => 0
    end in
  let impactMultiplier :=
    if String.eqb (type scenario) "demand_shock" then
      read_multiplier scenario (15 # 10)
    else if String.eqb (type scenario) "promotion" then
      read_multiplier scenario 2
    else Returned 1 in
  match impactMultiplier with
  | TypeError => TypeError
  | Returned impactMultiplier =>
      Returned
        {| totalDemandImpact :=
             JS.Math_round (totalDemand * (impactMultiplier - 1));
           percentageChange := JS.Math_round ((impactMultiplier - 1) * 100);
           productsAffected := default 0%nat products;
           severity :=
             if JS.lt (15 # 10) impactMultiplier then high
             else if JS.lt (12 # 10) impactMultiplier then medium
             else low |}
  end.

(** [calculateRiskLevel(scenario)] *)
Definition calculateRiskLevel (scenario : Scenario) : outcome Level :=
  if String.eqb (type scenario) "supply_disruption" then Returned high
  else if String.eqb (type scenario) "demand_shock" then
    match parameters scenario with
    | None => TypeError
    | Some p =>
        match multiplier p with
        | Some m => if JS.lt 2 m then Returned high else Returned low
        | None => Returned low
        end
    end
  else if String.eqb (type scenario) "promotion" then Returned medium
  else Returned low.

(** *** The stock side of the quick scenarios *)

(** A product of the request body, with the fields the handlers read. *)
Record Product : Type := mkProduct {
  p_id : string;
  p_name : string;
  current_stock : option Q;
  daily_demand : option Q;
  lead_time_days : option Q
}.

(** The [recommendation] strings, with the number they print. *)
Inductive Recommendation : Type :=
| OrderImmediately (units : Z)
| SufficientStock
| OrderUnits (units : Z)
| StockAdequate.

(** An element of [stockImpact] in [router.post('/supply-disruption')]. *)
Record SupplyImpact : Type := mkSupplyImpact {
  si_product_id : string;
  si_product_name : string;
  si_current_stock : Q;
  demand_during_disruption : Z;
  stockout_risk : Z;
  risk_level : Level;
  si_recommendation : Recommendation
}.

(** The callback of [products?.map] in the supply-disruption handler. *)
Definition supply_impact (delayDays : Q) (product : Product) : SupplyImpact :=
  let currentStock := or_default (current_stock product) 0 in
  let dailyDemand := or_default (daily_demand product) 10 in
  let leadTime := or_default (lead_time_days product) 7 in
  let totalDemandDuringDisruption := dailyDemand * (delayDays + leadTime) in
  let stockoutRisk := Qmax 0 (totalDemandDuringDisruption - currentStock) in
  {| si_product_id := p_id product;
     si_product_name := p_name product;
     si_current_stock := currentStock;
     demand_during_disruption := JS.Math_round totalDemandDuringDisruption;
     stockout_risk := JS.Math_round stockoutRisk;
     risk_level := if JS.lt 0 stockoutRisk then high else low;
     si_recommendation :=
       if JS.lt 0 stockoutRisk
       then OrderImmediately (JS.Math_round (stockoutRisk * (12 # 10)))
       else SufficientStock |}.

Record SupplySummary : Type := mkSupplySummary {
  ss_delayDays : Q;
  ss_capacityReduction : Z;
  productsAtRisk : nat;
  totalUnitsNeeded : Z
}.

Record SupplyBody : Type := mkSupplyBody {
  su_baseForecast : option (list ForecastPoint);
  su_delayDays : option Q;
  su_capacityReduction : option Q;
  su_products : option (list Product)
}.

Inductive SupplyResponse : Type :=
| SupplyStatus400
| SupplyJson (stockImpact : option (list SupplyImpact))
             (summary : SupplySummary).

Definition is_high (l : Level) : bool :=
  match l with high => true | _ => false end.

(** [router.post('/supply-disruption')] *)
Definition post_supply_disruption (body : SupplyBody) : SupplyResponse :=
  let delayDays := default 14 (su_delayDays body) in
  let capacityReduction := default (3 # 10) (su_capacityReduction body) in
  match su_baseForecast body with
  | None => SupplyStatus400
  | Some _ =>
      let stockImpact := option_map (map (supply_impact delayDays))
                                    (su_products body) in
      SupplyJson stockImpact
        {| ss_delayDays := delayDays;
           ss_capacityReduction := JS.Math_round (capacityReduction * 100);
           productsAtRisk :=
             match stockImpact with
             | Some impacts =>
                 length (List.filter (fun p => is_high (risk_level p)) impacts)
             | None => 0%nat
             end;
           totalUnitsNeeded :=
             match stockImpact with
             | Some impacts =>
                 fold_left (fun sum p => (sum + stockout_risk p)%Z) impacts 0%Z
             | None => 0%Z
             end |}
  end.

(** An element of [stockNeeded] in [router.post('/promotion')]. *)
Record PromoStock : Type := mkPromoStock {
  ps_product_id : string;
  ps_product_name : string;
  ps_current_stock : Q;
  expected_demand_during_promo : Z;
  extra_units_needed : Z;
  stock_after_promo : Z;
  ps_recommendation : Recommendation
}.

(** The callback of [products?.map] in the promotion handler. *)
Definition promo_stock (lift duration : Q) (product : Product) : PromoStock :=
  let dailyDemand := or_default (daily_demand product) 10 in
  let currentStock := or_default (current_stock product) 0 in
  let extraDemand := dailyDemand * (lift - 1) * duration in
  let stockAfterPromo := currentStock - (dailyDemand * lift * duration) in
  {| ps_product_id := p_id product;
     ps_product_name := p_name product;
     ps_current_stock := currentStock;
     expected_demand_during_promo :=
       JS.Math_round (dailyDemand * lift * duration);
     extra_units_needed := JS.Math_round extraDemand;
     stock_after_promo := JS.Math_round stockAfterPromo;
     ps_recommendation :=
       if JS.lt stockAfterPromo 0
       then OrderUnits (JS.Math_round (- stockAfterPromo * (12 # 10)))
       else StockAdequate |}.

Record PromoSummary : Type := mkPromoSummary {
  lift_percent : Z;
  promo_duration : Q;
  totalExtraUnits : Z;
  productsNeedingReorder : nat
}.

Record PromoBody : Type := mkPromoBody {
  pr_baseForecast : option (list ForecastPoint);
  pr_lift : option Q;
  pr_duration : option Q;
  pr_products : option (list Product)
}.

Inductive PromoResponse : Type :=
| PromoStatus400
| PromoJson (promotionImpact : list ForecastPoint)
            (stockNeeded : option (list PromoStock))
            (summary : PromoSummary).

(** [router.post('/promotion')] *)
Definition post_promotion (body : PromoBody) : PromoResponse :=
  let lift := default 2 (pr_lift body) in
  let duration := default 3 (pr_duration body) in
  match pr_baseForecast body with
  | None => PromoStatus400
  | Some forecast =>
      let stockNeeded := option_map (map (promo_stock lift duration))
                                    (pr_products body) in
      PromoJson (promotionImpact forecast lift duration) stockNeeded
        {| lift_percent := JS.Math_round ((lift - 1) * 100);
           promo_duration := duration;
           totalExtraUnits :=
             match stockNeeded with
             | Some needed =>
                 fold_left (fun sum p => (sum + extra_units_needed p)%Z)
                           needed 0%Z
             | None => 0%Z
             end;
           productsNeedingReorder :=
             match stockNeeded with
             | Some needed =>
                 length (List.filter (fun p => (stock_after_promo p <? 0)%Z)
                                     needed)
             | None => 0%nat
             end |}
  end.

(** *** The stock side of the demand shock *)






End Scenarios.

(** ** routes/api/scenarios.js on a store of objects

    The same two [map] calls with JavaScript's object identity made
    explicit: a forecast is an array object whose elements are references to
    point objects, the callbacks return either a freshly allocated object
    (the object literal) or the reference they were given ([return item]),
    and [map] allocates the array it returns. *)
Module ScenarioHeap.

Definition loc : Type := positive.

Inductive object : Type :=
| Point (p : ForecastPoint)
| Array (elems : list loc).

(** Allocation of a new object at an unused location. *)
Definition alloc (h : gmap loc object) (o : object) : loc * gmap loc object :=
  let l := fresh (dom h) in (l, <[l := o]> h).

(** The loop of [Array.prototype.map]: the callback gets the index and the
    element, may allocate, and may throw ([None]). *)
Fixpoint map_from
    (f : nat -> loc -> gmap loc object -> option (loc * gmap loc object))
    (index : nat) (elems : list loc) (h : gmap loc object)
    : option (list loc * gmap loc object) :=
  match elems with
  | [] => Some ([], h)
  | item :: rest =>
      match f index item h with
      | None => None
      | Some (r, h1) =>
          match map_from f (S index) rest h1 with
          | None => None
          | Some (rs, h2) => Some (r :: rs, h2)
          end
      end
  end.

(** [arr.map(f)] for the array object at [a]. *)
Definition Array_map
    (f : nat -> loc -> gmap loc object -> option (loc * gmap loc object))
    (a : loc) (h : gmap loc object) : option (loc * gmap loc object) :=
  match h !! a with
  | Some (Array elems) =>
      match map_from f 0 elems h with
      | Some (out, h1) => Some (alloc h1 (Array out))
      | None => None
      end
  | _ => None
  end.

(** The callback of the demand-shock handler. *)
Definition shock_callback (multiplier duration : Q)
    (index : nat) (item : loc) (h : gmap loc object)
    : option (loc * gmap loc object) :=
  if Scenarios.index_lt index duration then
    match h !! item with
    | Some (Point p) => Some (alloc h (Point (Scenarios.shocked multiplier p)))
    | _ => None
    end
  else Some (item, h).

(** The callback of the promotion handler. *)
Definition promotion_callback (lift duration : Q)
    (index : nat) (item : loc) (h : gmap loc object)
    : option (loc * gmap loc object) :=
  if Scenarios.index_lt index duration then
    match h !! item with
    | Some (Point p) => Some (alloc h (Point (Scenarios.promoted lift p)))
    | _ => None
    end
  else Some (item, h).

(** [baseForecast.forecast.map(...)] of the two handlers. *)
Definition impactedForecast (forecast : loc) (multiplier duration : Q)
    (h : gmap loc object) : option (loc * gmap loc object) :=
  Array_map (shock_callback multiplier duration) forecast h.

Definition promotionImpact (forecast : loc) (lift duration : Q)
    (h : gmap loc object) : option (loc * gmap loc object) :=
  Array_map (promotion_callback lift duration) forecast h.

(** The points an array of references denotes in a store. *)
Fixpoint read_points (h : gmap loc object) (elems : list loc)
    : option (list ForecastPoint) :=
  match elems with
  | [] => Some []
  | l :: rest =>
      match h !! l, read_points h rest with
      | Some (Point p), Some ps => Some (p :: ps)
      | _, _ => None
      end
  end.

Definition read_forecast (h : gmap loc object) (a : loc)
    : option (list ForecastPoint) :=
  match h !! a with
  | Some (Array elems) => read_points h elems
  | _ => None
  end.

End ScenarioHeap.

(** ** server/seasonality-utils.js *)
Module SeasonalityUtils.

(** A row of sales data: the time value of [new Date(d[dateField])] in
    milliseconds, and the result of [parseFloat(d[valueField])], [None]
    when it is [NaN]. *)
Record SalesRecord : Type := mkSale {
  date_time : Z;
  sales : option Q
}.

(** [parseFloat(d[valueField]) || 0] *)
Definition value_of (d : SalesRecord) : Q :=
  match sales d with
  | Some v => if JS.truthy v then v else 0
  | None => 0
  end.

(** [date.getDay()], with the server clock on UTC: day 0 of the epoch was
    a Thursday. *)
Definition getDay (d : SalesRecord) : nat :=
  Z.to_nat ((date_time d / 86400000 + 4) mod 7).

(** [checkPeriodicity(values, lag)] *)
Definition checkPeriodicity (values : list Q) (lag : nat) : Q :=
  if (length values <=? lag)%nat then 0
  else
    let mean := JS.reduce_sum (fun v => v) values
                / inject_Z (Z.of_nat (length values)) in
    let at_ i := nth i values 0 in
    let numerator :=
      fold_left (fun acc i => acc + (at_ i - mean) * (at_ (i + lag)%nat - mean))
                (seq 0 (length values - lag)) 0 in
    let denominator :=
      fold_left (fun acc i => acc + (at_ i - mean) ^ 2)
                (seq 0 (length values)) 0 in
    if Qeq_bool denominator 0 then 0
    else Qabs (numerator / denominator).

Record DayAverage : Type := mkDayAverage {
  day : string;
  average : Q;
  index : nat
}.

Definition days : list string :=
  ["Sunday"; "Monday"; "Tuesday"; "Wednesday"; "Thursday"; "Friday";
   "Saturday"]%string.

(** [calculateWeekendEffect(averages)] *)
Definition calculateWeekendEffect (averages : list DayAverage) : Q :=
  let average_at i := default 0 (average <$> averages !! i) in
  let weekdays := map average (firstn 5 (skipn 1 averages)) in
  let weekend := [average_at 0%nat; average_at 6%nat] in
  let avgWeekday := JS.reduce_sum (fun v => v) weekdays
                    / inject_Z (Z.of_nat (length weekdays)) in
  let avgWeekend := JS.reduce_sum (fun v => v) weekend
                    / inject_Z (Z.of_nat (length weekend)) in
  if Qeq_bool avgWeekday 0 then 0
  else (avgWeekend - avgWeekday) / avgWeekday.

Record DayOfWeekPattern : Type := mkDayOfWeekPattern {
  averages : list DayAverage;
  peakDay : string;
  lowDay : string;
  weekendEffect : Q
}.

(** [calculateDayOfWeekAverages(data, valueField)] *)
Definition calculateDayOfWeekAverages (data : list SalesRecord)
    : DayOfWeekPattern :=
  let sums :=
    fold_left (fun sums item => alter (fun s => s + value_of item) (getDay item) sums)
              data (replicate 7 0) in
  let counts :=
    fold_left (fun counts item => alter S (getDay item) counts)
              data (replicate 7 0%nat) in
  let averages :=
    imap (fun index day =>
            let count := default 0%nat (counts !! index) in
            {| day := day;
               average :=
                 if (0 <? count)%nat
                 then default 0 (sums !! index) / inject_Z (Z.of_nat count)
                 else 0;
               index := index |}) days in
  let sorted := JS.Array_sort (fun a b => average b - average a) averages in
  {| averages := averages;
     peakDay := default ""%string (day <$> sorted !! 0%nat);
     lowDay := default ""%string (day <$> sorted !! 6%nat);
     weekendEffect := calculateWeekendEffect averages |}.

Inductive Pattern : Type := weekly | monthly.

(** [getRecommendation(pattern, strength)] *)
Definition getRecommendation (pattern : option Pattern) (strength : Q)
    : string :=
  match pattern with
  | None =>
      "No strong seasonal pattern detected. Use moving averages for forecasting."
  | Some weekly =>
      if JS.lt (7 # 10) strength then
        "Strong weekly pattern detected. Adjust inventory for day-of-week variations."
      else if JS.lt (4 # 10) strength then
        "Moderate weekly pattern. Consider day-of-week in safety stock calculations."
      else "Weak weekly pattern. Monitor for emerging trends."
  | Some monthly =>
      if JS.lt (5 # 10) strength then
        "Monthly seasonality detected. Plan for month-end peaks."
      else "Slight monthly variation. Review monthly targets."
  end%string.

(** The two shapes of the object [detectSeasonality] returns. *)
Inductive SeasonalityResult : Type :=
| Insufficient (reason : string)
| Analysed (detected : bool) (pattern : option Pattern) (strength : Q)
           (dayOfWeekPattern : option DayOfWeekPattern)
           (recommendation : string).

(** [detectSeasonality(data, dateField = 'date', valueField = 'sales')] *)
Definition detectSeasonality (data : list SalesRecord) : SeasonalityResult :=
  if (length data <? 30)%nat then
    Insufficient "Insufficient data (need at least 30 points)"
  else
    let sorted :=
      JS.Array_sort (fun a b => inject_Z (date_time a - date_time b)) data in
    let values := map value_of sorted in
    let weeklyStrength := checkPeriodicity values 7 in
    let monthlyStrength := checkPeriodicity values 30 in
    let '(pattern, strength) :=
      if JS.lt (3 # 10) weeklyStrength then (Some weekly, weeklyStrength)
      else if JS.lt (2 # 10) monthlyStrength then (Some monthly, monthlyStrength)
      else (None, 0) in
    let dayOfWeekPattern :=
      match pattern with
      | Some weekly => Some (calculateDayOfWeekAverages sorted)
      | _ => None
      end in
    Analysed (match pattern with Some _ => true | None => false end)
             pattern (JS.round2 strength) dayOfWeekPattern
             (getRecommendation pattern strength).

(** The [pattern] property of a result; absent on the short form. *)
Definition pattern_of (r : SeasonalityResult) : option Pattern :=
  match r with
  | Insufficient _ => None
  | Analysed _ pattern _ _ _ => pattern
  end.

(** A forecast point as [applySeasonality] returns it: the point, and the
    [seasonal_factor] property when the point was adjusted. *)
Record AdjustedPoint : Type := mkAdjusted {
  adjusted_point : ForecastPoint;
  seasonal_factor : option Q
}.

(** The factor of one forecast item.  [weekday] is
    [new Date(item.date).getDay()], [None] when the date does not parse
    (the index is then [NaN] and the lookup finds nothing). *)
Definition seasonal_factor_of (weekday : string -> option nat)
    (averages : list DayAverage) (item : ForecastPoint) : Q :=
  let found :=
    match weekday (date item) with
    | Some dayOfWeek => average <$> averages !! dayOfWeek
    | None => None
    end in
  let dayAverage :=
    match found with
    | Some a => if JS.truthy a then a else 1
    | None => 1
    end in
  let overallAvg := JS.reduce_sum average averages / 7 in
  if JS.lt 0 overallAvg then dayAverage / overallAvg else 1.

(** [applySeasonality(forecast, seasonality)]; [seasonality] may be
    [null]. *)
Definition applySeasonality (weekday : string -> option nat)
    (forecast : list ForecastPoint) (seasonality : option SeasonalityResult)
    : list AdjustedPoint :=
  let unchanged := map (fun item => mkAdjusted item None) forecast in
  match seasonality with
  | Some (Analysed true _ _ (Some dayOfWeekPattern) _) =>
      map (fun item =>
             let factor :=
               seasonal_factor_of weekday (averages dayOfWeekPattern) item in
             mkAdjusted
               {| date := date item;
                  predicted := predicted item * factor;
                  upper_bound := upper_bound item * factor;
                  lower_bound := lower_bound item * factor;
                  scenario_impact := scenario_impact item;
                  promotion_lift := promotion_lift item |}
               (Some (JS.round2 factor)))
          forecast
  | _ => unchanged
  end.

End SeasonalityUtils.

(** ** routes/api/inventory.js, the stockout-risk endpoint *)
Module InventoryRoutes.

(** A product of the request body, with the fields the endpoint reads. *)
Record Product : Type := mkProduct {
  id : string;
  name : string;
  daily_demand : option Q;
  current_stock : option Q;
  lead_time_days : option Q;
  safety_stock : option Q
}.

(** An entry of [forecast.forecast]. *)
Record ProductForecast : Type := mkProductForecast {
  product_id : string;
  forecast_predicted : option Q
}.

Record Risk : Type := mkRisk {
  risk_product_id : string;
  risk_product_name : string;
  risk_current_stock : Q;
  risk_daily_demand : Q;
  days_until_stockout : Q;
  stockout_probability : Q;
  risk_level : Scenarios.Level;
  forecast_demand_7day : Q;
  needs_attention : bool
}.

(** The callback of [products.map] in [router.post('/stockout-risk')];
    [forecast] is [forecast?.forecast], possibly absent. *)
Definition stockout_risk (forecast : option (list ProductForecast))
    (product : Product) : Risk :=
  let dailyDemand := Scenarios.or_default (daily_demand product) 10 in
  let currentStock := Scenarios.or_default (current_stock product) 0 in
  let leadTime := Scenarios.or_default (lead_time_days product) 7 in
  let safetyStock := Scenarios.or_default (safety_stock product) 20 in
  let daysUntilStockout := currentStock / dailyDemand in
  let demandDuringLeadTime := dailyDemand * leadTime in
  let stockoutProbability :=
    Qmax 0 ((demandDuringLeadTime - currentStock + safetyStock)
            / demandDuringLeadTime) in
  let productForecast :=
    match forecast with
    | Some fs => List.filter (fun f => String.eqb (product_id f) (id product)) fs
    | None => []
    end in
  {| risk_product_id := id product;
     risk_product_name := name product;
     risk_current_stock := currentStock;
     risk_daily_demand := dailyDemand;
     days_until_stockout :=
       inject_Z (JS.Math_round (daysUntilStockout * 10)) / 10;
     stockout_probability :=
       Qmin 1 (Qmax 0 (JS.round2 stockoutProbability));
     risk_level :=
       if JS.lt (7 # 10) stockoutProbability then Scenarios.high
       else if JS.lt (3 # 10) stockoutProbability then Scenarios.medium
       else Scenarios.low;
     forecast_demand_7day :=
       JS.reduce_sum (fun f => Scenarios.or_default (forecast_predicted f) 0)
                     (firstn 7 productForecast);
     needs_attention := JS.lt (5 # 10) stockoutProbability |}.

Record RiskSummary : Type := mkRiskSummary {
  high_risk : nat;
  medium_risk : nat;
  low_risk : nat;
  needs_attention_count : nat
}.

Inductive RiskResponse : Type :=
| RiskStatus400
| RiskJson (risks : list Risk) (summary : RiskSummary).

Definition level_is (wanted : Scenarios.Level) (r : Risk) : bool :=
  match risk_level r, wanted with
  | Scenarios.high, Scenarios.high
  | Scenarios.medium, Scenarios.medium
  | Scenarios.low, Scenarios.low => true
  | _, _ => false
  end.

(** [router.post('/stockout-risk')]; [products] is [None] when the body
    has no array of products. *)
Definition post_stockout_risk (products : option (list Product))
    (forecast : option (list ProductForecast)) : RiskResponse :=
  match products with
  | None => RiskStatus400
  | Some products =>
      let risks := map (stockout_risk forecast) products in
      RiskJson risks
        {| high_risk := length (List.filter (level_is Scenarios.high) risks);
           medium_risk := length (List.filter (level_is Scenarios.medium) risks);
           low_risk := length (List.filter (level_is Scenarios.low) risks);
           needs_attention_count := length (List.filter needs_attention risks) |}
  end.

End InventoryRoutes.

(** ** routes/api/inventory.js, the reorder endpoint, over the reals *)
Module ReorderRoute.
Local Open Scope R_scope.

Record Product : Type := mkProduct {
  id : string;
  name : string;
  daily_demand : option R;
  weekly_demand : option R;
  lead_time_days : option R;
  safety_stock : option R;
  current_stock : option R
}.

(** [x || otherwise] on an optional number. *)
Definition or_else (x : option R) (otherwise : R) : R :=
  match x with
  | Some v => if InventoryCalculatorR.falsy v then otherwise else v
  | None => otherwise
  end.

Definition leb (a b : R) : bool := if Rle_dec a b then true else false.

Record Recommendation : Type := mkRecommendation {
  rec_product_id : string;
  rec_product_name : string;
  rec_current_stock : R;
  reorder_point : Z;
  rec_safety_stock : Z;
  days_until_reorder : R;
  should_reorder : bool;
  recommended_order : Z;
  urgent : bool
}.

(** The callback of [products.map] in [router.post('/reorder')]. *)
Definition recommendation (product : Product) : Recommendation :=
  let dailyDemand :=
    or_else (daily_demand product)
            (match weekly_demand product with
             | Some w => if InventoryCalculatorR.falsy w then 10 else w / 7
             | None => 10
             end) in
  let leadTime := or_else (lead_time_days product) 7 in
  let safetyStock :=
    or_else (safety_stock product)
            (InventoryCalculatorR.calculateSafetyStock
               dailyDemand leadTime (95 / 100) 5) in
  let reorderPoint :=
    InventoryCalculatorR.calculateReorderPoint dailyDemand leadTime safetyStock in
  let currentStock := or_else (current_stock product) 0 in
  let daysUntilReorder := Rmax 0 ((currentStock - reorderPoint) / dailyDemand) in
  {| rec_product_id := id product;
     rec_product_name := name product;
     rec_current_stock := currentStock;
     reorder_point := InventoryCalculatorR.Math_round reorderPoint;
     rec_safety_stock := InventoryCalculatorR.Math_round safetyStock;
     days_until_reorder :=
       IZR (InventoryCalculatorR.Math_round (daysUntilReorder * 10)) / 10;
     should_reorder := leb currentStock reorderPoint;
     recommended_order :=
       Z.max 0 (InventoryCalculatorR.Math_round
                  (reorderPoint - currentStock + safetyStock));
     urgent := leb currentStock (reorderPoint * (5 / 10)) |}.

End ReorderRoute.

(** ** server/forecast-logic.js, the chart data *)
Module ForecastLogic.
Import InventoryCalculator.

(** A row of historical data with the fields [aggregateHistoricalData]
    reads.  The sales fields hold numbers, on which [parseFloat] is the
    identity. *)
Record HistoryRow : Type := mkRow {
  row_date : option string;
  row_Date : option string;
  row_timestamp : option string;
  row_sales : option Q;
  row_Sales : option Q;
  row_quantity : option Q
}.

(** [row.date || row.Date || row.timestamp] *)
Definition row_day (row : HistoryRow) : option string :=
  string_or (string_or (row_date row) (row_Date row)) (row_timestamp row).

(** [parseFloat(row.sales || row.Sales || row.quantity || 0)] *)
Definition row_value (row : HistoryRow) : Q :=
  num_or (row_sales row) (num_or (row_Sales row) (num_or (row_quantity row) 0)).

(** One round of the [data.forEach] of [aggregateHistoricalData].
    [toISODate] is [new Date(date).toISOString().split('T')[0]], which
    throws a [RangeError] ([None]) on a string that is not a date. *)
Definition aggregate_step (toISODate : string -> option string)
    (aggregated : option (list (string * Q))) (row : HistoryRow)
    : option (list (string * Q)) :=
  match aggregated with
  | None => None
  | Some m =>
      let date := row_day row in
      if no_date date then Some m
      else
        let sales := row_value row in
        match toISODate (default ""%string date) with
        | None => None
        | Some key =>
            match Map_get key m with
            | Some sofar => Some (Map_set key (sofar + sales) m)
            | None => Some (Map_set key sales m)
            end
        end
  end.

(** An entry [{ date, sales }] of the aggregated history. *)
Record DayTotal : Type := mkDayTotal {
  day_date : string;
  day_sales : Q
}.

(** [aggregateHistoricalData(data)].  [dateTime key] is the time value of
    [new Date(key)] for a day key, which is an ISO date and so always
    parses; the outer [None] is the [RangeError]. *)
Definition aggregateHistoricalData (toISODate : string -> option string)
    (dateTime : string -> Z) (data : list HistoryRow)
    : option (list DayTotal) :=
  match fold_left (aggregate_step toISODate) data (Some []) with
  | None => None
  | Some aggregated =>
      Some (JS.Array_sort
              (fun a b => inject_Z (dateTime (day_date a) - dateTime (day_date b)))
              (map (fun entry => mkDayTotal (fst entry) (snd entry)) aggregated))
  end.

(** Whether a row has a date, and the day key it is filed under. *)
Definition row_dated (row : HistoryRow) : bool := negb (no_date (row_day row)).

Definition row_key (toISODate : string -> option string) (row : HistoryRow)
    : option string :=
  if row_dated row then toISODate (default ""%string (row_day row)) else None.

(** The rows filed under [key]. *)
Definition filed_under (toISODate : string -> option string) (key : string)
    (row : HistoryRow) : bool :=
  match row_key toISODate row with
  | Some k => String.eqb k key
  | None => false
  end.

(** A forecast item as [prepareChartData] reads it: the two bounds may be
    missing. *)
Record ForecastItem : Type := mkForecastItem {
  item_date : string;
  item_predicted : Q;
  item_upper_bound : option Q;
  item_lower_bound : option Q
}.

(** The arrays of the object returned by [prepareChartData]: [labels] and
    the [data] of the four datasets, where [None] is [null]. *)
Record ChartData : Type := mkChart {
  labels : list string;
  historical_sales : list Q;
  forecast_line : list (option Q);
  interval_upper : list (option Q);
  interval_lower : list (option Q)
}.

(** [item.upper_bound || item.predicted * 1.1] and
    [item.lower_bound || item.predicted * 0.9] *)
Definition plotted_upper (item : ForecastItem) : Q :=
  num_or (item_upper_bound item) (item_predicted item * (11 # 10)).

Definition plotted_lower (item : ForecastItem) : Q :=
  num_or (item_lower_bound item) (item_predicted item * (9 # 10)).

(** [prepareChartData(forecastData, historicalData)], where [forecast] is
    [forecastData.forecast], [None] when the field is missing. *)
Definition prepareChartData (toISODate : string -> option string)
    (dateTime : string -> Z) (forecast : option (list ForecastItem))
    (historicalData : list HistoryRow) : option ChartData :=
  match aggregateHistoricalData toISODate dateTime historicalData with
  | None => None
  | Some historical =>
      let forecast := default [] forecast in
      let nulls := replicate (length historical) (@None Q) in
      Some {| labels := map day_date historical ++ map item_date forecast;
              historical_sales := map day_sales historical;
              forecast_line :=
                nulls ++ map (fun item => Some (item_predicted item)) forecast;
              interval_upper :=
                nulls ++ map (fun item => Some (plotted_upper item)) forecast;
              interval_lower :=
                nulls ++ map (fun item => Some (plotted_lower item)) forecast |}
  end.

End ForecastLogic.

(** ** routes/api/scenarios.js, reading the text of a response

    A text is a string of code units below 256, so that a character of
    [string] is one code unit of the JavaScript string. *)
Module ResponseText.
Import Ascii.
Local Open Scope string_scope.

(** The white space of [\s] and of [trim] among those code units: tab,
    line feed, vertical tab, form feed, carriage return, space and
    no-break space. *)
Definition is_space (c : ascii) : bool :=
  let n := N_of_ascii c in
  ((9 <=? n) && (n <=? 13) || (n =? 32) || (n =? 160))%N.

(** [\d] *)
Definition is_digit (c : ascii) : bool :=
  let n := N_of_ascii c in ((48 <=? n) && (n <=? 57))%N.

(** The lower case of a code unit: the letters A to Z and the capital
    letters from U+00C0 to U+00DE, the sign U+00D7 apart, move up by 32. *)
Definition lower (c : ascii) : ascii :=
  let n := N_of_ascii c in
  if ((65 <=? n) && (n <=? 90) || (192 <=? n) && (n <=? 222) && negb (n =? 215))%N
  then ascii_of_N (n + 32) else c.

Fixpoint toLowerCase (s : string) : string :=
  match s with
  | EmptyString => EmptyString
  | String c rest => String (lower c) (toLowerCase rest)
  end.

(** [s.includes(part)] *)
Fixpoint includes (part s : string) : bool :=
  String.prefix part s ||
  match s with
  | EmptyString => false
  | String _ rest => includes part rest
  end.

(** [s.split('\n')] *)
Fixpoint split (s : string) : list string :=
  match s with
  | EmptyString => [EmptyString]
  | String c rest =>
      if Ascii.eqb c "010" then EmptyString :: split rest
      else
        match split rest with
        | first :: others => String c first :: others
        | [] => [String c EmptyString]
        end
  end.

(** The rest of [s] after its longest prefix of characters in [class]:
    [s.replace(/^[class]*/, '')]. *)
Fixpoint skip (class : ascii -> bool) (s : string) : string :=
  match s with
  | EmptyString => EmptyString
  | String c rest => if class c then skip class rest else s
  end.

Fixpoint trimEnd (s : string) : string :=
  match s with
  | EmptyString => EmptyString
  | String c rest =>
      match trimEnd rest with
      | EmptyString => if is_space c then EmptyString else String c EmptyString
      | kept => String c kept
      end
  end.

(** [s.trim()] *)
Definition trim (s : string) : string := trimEnd (skip is_space s).

(** [line.startsWith('-') || line.match(/^\d+\./)] as a condition. *)
Definition is_listed (line : string) : bool :=
  String.prefix "-" line ||
  match line with
  | String c _ =>
      is_digit c &&
      match skip is_digit line with
      | String "." _ => true
      | _ => false
      end
  | EmptyString => false
  end.

(** [line.replace(/^[-\d.\s]*/, '').trim()] *)
Definition recommendation_of (line : string) : string :=
  trim (skip (fun c => Ascii.eqb c "-" || is_digit c || Ascii.eqb c "."
                       || is_space c) line).

(** [text && text.length > 10] *)
Definition long_enough (text : string) : bool := (10 <? String.length text)%nat.

(** The loop of [extractRecommendations] over the remaining lines, with
    its [continue] and its [break]. *)
Fixpoint recommendations_loop (lines : list string) (inRecs : bool)
    (recommendations : list string) : list string :=
  match lines with
  | [] => recommendations
  | line :: rest =>
      if includes "recommend" (toLowerCase line)
      then recommendations_loop rest true recommendations
      else
        let recommendations :=
          if inRecs && is_listed line then
            let rec := recommendation_of line in
            if long_enough rec then (recommendations ++ [rec])%list
            else recommendations
          else recommendations in
        if (3 <=? length recommendations)%nat then recommendations
        else recommendations_loop rest inRecs recommendations
  end.

Definition default_recommendations : list string :=
  ["Monitor inventory levels"; "Review safety stock";
   "Prepare contingency plan"].

(** [extractRecommendations(response)] *)
Definition extractRecommendations (response : string) : list string :=
  let recommendations := recommendations_loop (split response) false [] in
  if (0 <? length recommendations)%nat then recommendations
  else default_recommendations.

(** [line.replace(/^-\s*/, '').trim()] *)
Definition insight_of (line : string) : string :=
  trim (match line with
        | String "-" rest => skip is_space rest
        | _ => line
        end).

(** The loop of [parseScenarioResponse]; its flag [inInsights] is written
    and never read. *)
Fixpoint insights_loop (lines : list string) (insights : list string)
    : list string :=
  match lines with
  | [] => insights
  | line :: rest =>
      let insights :=
        if includes "insight" (toLowerCase line) || includes "-" line then
          let cleanLine := insight_of line in
          if long_enough cleanLine then (insights ++ [cleanLine])%list else insights
        else insights in
      if (5 <=? length insights)%nat then insights
      else insights_loop rest insights
  end.

(** The object returned by [parseScenarioResponse]. *)
Record ScenarioReading : Type := mkReading {
  summary : string;
  insights : list string;
  riskLevel : Scenarios.Level
}.

(** [parseScenarioResponse(response, baseForecast, scenario)]; the base
    forecast is not read.  The [TypeError] is that of
    [calculateRiskLevel]. *)
Definition parseScenarioResponse (response : string)
    (scenario : Scenarios.Scenario) : Scenarios.outcome ScenarioReading :=
  let lines := split response in
  let insights := insights_loop lines [] in
  match Scenarios.calculateRiskLevel scenario with
  | Scenarios.TypeError => Scenarios.TypeError
  | Scenarios.Returned level =>
      Scenarios.Returned
        {| summary := substring 0 200 (String.concat " " (firstn 3 lines));
           insights :=
             if (0 <? length insights)%nat then insights
             else ["Scenario analyzed successfully"];
           riskLevel := level |}
  end.

(** *** The two loops as pipelines, for comparison with the loops above *)

(** The lines after the first one that [found] holds of. *)
Fixpoint after_first (found : string -> bool) (lines : list string)
    : list string :=
  match lines with
  | [] => []
  | line :: rest => if found line then rest else after_first found rest
  end.

Definition mentions_recommend (line : string) : bool :=
  includes "recommend" (toLowerCase line).

(** The listed lines after the first mention of a recommendation that do
    not mention one themselves, cleaned, the short ones dropped. *)
Definition listed_recommendations (lines : list string) : list string :=
  List.filter long_enough
    (map recommendation_of
       (List.filter (fun line => is_listed line && negb (mentions_recommend line))
          (after_first mentions_recommend lines))).

(** The lines that mention an insight or hold a hyphen, cleaned, the short
    ones dropped. *)
Definition marked_insights (lines : list string) : list string :=
  List.filter long_enough
    (map insight_of
       (List.filter (fun line => includes "insight" (toLowerCase line)
                                 || includes "-" line) lines)).

End ResponseText.

(** The items of the ABC test in [tests/forecast.test.js]. *)
Definition test_items : list InventoryCalculator.Item :=
  [InventoryCalculator.mkItem "1" 50000 None;
   InventoryCalculator.mkItem "2" 30000 None;
   InventoryCalculator.mkItem "3" 15000 None;
   InventoryCalculator.mkItem "4" 5000 None;
   InventoryCalculator.mkItem "5" 1000 None].

(** A 31-day series with a unit sale on the first and on the last day. *)
Definition spike_series : list SeasonalityUtils.SalesRecord :=
  map (fun i : nat =>
         SeasonalityUtils.mkSale (Z.of_nat i * 86400000)
           (Some (if bool_decide (i = 0 \/ i = 30)%nat then 1 else 0)))
      (seq 0 31).

(** * Properties *)

(** ** Rounding *)
Section Rounding.

Lemma Math_round_nearest (x : Q) :
  x - (1 # 2) < inject_Z (JS.Math_round x) /\
  inject_Z (JS.Math_round x) <= x + (1 # 2).
Proof.
  unfold JS.Math_round.
  pose proof (Qfloor_le (x + (1 # 2))) as Hle.
  pose proof (Qlt_floor (x + (1 # 2))) as Hlt.
  rewrite inject_Z_plus in Hlt. change (inject_Z 1) with 1 in Hlt.
  split; [lra | exact Hle].
Qed.

Lemma Math_round_mono (x y : Q) :
  x <= y -> (JS.Math_round x <= JS.Math_round y)%Z.
Proof.
  intros Hxy. unfold JS.Math_round. apply Qfloor_resp_le. lra.
Qed.

Lemma Math_round_eq (x y : Q) : x == y -> JS.Math_round x = JS.Math_round y.
Proof.
  intros Hxy. unfold JS.Math_round. apply Qfloor_comp. rewrite Hxy. reflexivity.
Qed.

Lemma Math_round_zero (x : Q) : x == 0 -> JS.Math_round x = 0%Z.
Proof. intros Hx. rewrite (Math_round_eq x 0 Hx). reflexivity. Qed.

Lemma Math_round_nonneg (x : Q) : 0 <= x -> (0 <= JS.Math_round x)%Z.
Proof.
  intros Hx. apply (Math_round_mono 0 x Hx).
Qed.

Lemma Math_round_nonpos (x : Q) : x <= 0 -> (JS.Math_round x <= 0)%Z.
Proof.
  intros Hx. apply (Math_round_mono x 0 Hx).
Qed.

Lemma lt_spec (a b : Q) : JS.lt a b = true <-> a < b.
Proof.
  unfold JS.lt. rewrite negb_true_iff. split.
  - intros Hb. apply Qnot_le_lt. intros Hle.
    apply Qle_bool_iff in Hle. congruence.
  - intros Hlt. destruct (Qle_bool b a) eqn:E; [|reflexivity].
    apply Qle_bool_iff in E. lra.
Qed.

Lemma lt_false (a b : Q) : JS.lt a b = false <-> b <= a.
Proof.
  unfold JS.lt. rewrite negb_false_iff. apply Qle_bool_iff.
Qed.

Lemma Qle_bool_false (a b : Q) : Qle_bool a b = false <-> b < a.
Proof.
  rewrite <- (lt_spec b a). unfold JS.lt. now rewrite negb_true_iff.
Qed.

End Rounding.

(** ** Fill rate *)

(** C8. [calculateFillRate] returns [unitsShipped / unitsOrdered] when
    [unitsOrdered] is not zero and [1] when it is zero; in particular
    [fillRate(950, 1000) = 0.95] and [fillRate(0, 0) = 1]. *)
Theorem calculateFillRate_convention (unitsShipped unitsOrdered : Q) :
  (~ unitsOrdered == 0 ->
   InventoryCalculator.calculateFillRate unitsShipped unitsOrdered
   = unitsShipped / unitsOrdered) /\
  (unitsOrdered == 0 ->
   InventoryCalculator.calculateFillRate unitsShipped unitsOrdered = 1) /\
  InventoryCalculator.calculateFillRate 950 1000 == 95 # 100 /\
  InventoryCalculator.calculateFillRate 0 0 == 1.
Proof.
  unfold InventoryCalculator.calculateFillRate, JS.truthy.
  repeat split; try reflexivity.
  - intros Hnz. destruct (Qeq_bool unitsOrdered 0) eqn:E; [|reflexivity].
    apply Qeq_bool_iff in E. contradiction.
  - intros Hz. apply Qeq_bool_iff in Hz. now rewrite Hz.
Qed.

Lemma calculateFillRate_convention_witness :
  InventoryCalculator.calculateFillRate 3 4 = 3 / 4 /\
  InventoryCalculator.calculateFillRate 3 0 = 1.
Proof.
  split.
  - apply (calculateFillRate_convention 3 4). vm_compute. discriminate.
  - apply (calculateFillRate_convention 3 0). reflexivity.
Defined.

(** ** Optimal order *)
Section OptimalOrder.
Import InventoryCalculator.

Variable forecast : list ForecastPoint.
Variables currentStock reorderPoint maxStock : Q.

(** The quantities of the specification, before any rounding. *)
Let recommended_exact : Q := Qmax 0 (reorderPoint - currentStock).
Let forecastedDemand7d : Q := JS.reduce_sum predicted (firstn 7 forecast).
Let adjusted_exact : Q := Qmax recommended_exact (forecastedDemand7d * (12 # 10)).
Let final_exact : Q := Qmax 0 (Qmin adjusted_exact (maxStock - currentStock)).

Let order : OptimalOrder :=
  calculateOptimalOrder forecast currentStock reorderPoint maxStock.

Lemma final_is_rounded_exact :
  final order = JS.Math_round final_exact.
Proof.
  unfold order, calculateOptimalOrder, final_exact, adjusted_exact,
    recommended_exact, forecastedDemand7d. cbn [final].
  set (m := Qmin _ _).
  destruct (Qlt_le_dec m 0) as [Hneg | Hpos].
  - rewrite (Math_round_eq (Qmax 0 m) 0).
    + pose proof (Math_round_nonpos m ltac:(lra)). change (JS.Math_round 0) with 0%Z. lia.
    + apply Q.max_l. lra.
  - rewrite (Math_round_eq (Qmax 0 m) m).
    + pose proof (Math_round_nonneg m Hpos). lia.
    + apply Q.max_r. exact Hpos.
Qed.

(** C3, as the code has it: [recommended], [adjusted] and [final] are the
    specified quantities rounded to the nearest integer by [Math.round]
    (the formulas for [adjusted] and [final] take the unrounded
    intermediate values), so each lies within one half of the specified
    quantity; [final] is never negative and exceeds
    [max(0, maxStock - currentStock)] by at most one half; [urgent] and
    [critical] are the two threshold tests; with [currentStock = 0],
    [reorderPoint = 50], [maxStock = 200] and an empty or all-zero
    forecast the order is 50 / 50 / 50, urgent and critical. *)
Theorem calculateOptimalOrder_rounded :
  recommended order = JS.Math_round recommended_exact /\
  adjusted order = JS.Math_round adjusted_exact /\
  final order
  = Z.max 0 (JS.Math_round (Qmin adjusted_exact (maxStock - currentStock))) /\
  final order = JS.Math_round final_exact /\
  (recommended_exact - (1 # 2) < inject_Z (recommended order)
     /\ inject_Z (recommended order) <= recommended_exact + (1 # 2)) /\
  (adjusted_exact - (1 # 2) < inject_Z (adjusted order)
     /\ inject_Z (adjusted order) <= adjusted_exact + (1 # 2)) /\
  (final_exact - (1 # 2) < inject_Z (final order)
     /\ inject_Z (final order) <= final_exact + (1 # 2)) /\
  (0 <= final order)%Z /\
  inject_Z (final order) <= Qmax 0 (maxStock - currentStock) + (1 # 2) /\
  (urgent order = true <-> currentStock < reorderPoint * (5 # 10)) /\
  (critical order = true <-> currentStock < reorderPoint * (25 # 100)) /\
  (forall f, f = [] \/ f = replicate 7 (mkPoint "" 0 0 0 None None) ->
     calculateOptimalOrder f 0 50 200
     = {| recommended := 50; adjusted := 50; final := 50;
          urgent := true; critical := true |}).
Proof.
  pose proof final_is_rounded_exact as Hfinal.
  split; [reflexivity|]. split; [reflexivity|]. split; [reflexivity|].
  split; [exact Hfinal|].
  split; [apply Math_round_nearest|]. split; [apply Math_round_nearest|].
  split; [rewrite Hfinal; apply Math_round_nearest|].
  split; [unfold order, calculateOptimalOrder; cbn [final]; lia|].
  split.
  - rewrite Hfinal.
    pose proof (Math_round_nearest final_exact) as [_ Hup].
    assert (final_exact <= Qmax 0 (maxStock - currentStock)) as Hcap.
    { unfold final_exact. apply Q.max_le_compat_l. apply Q.le_min_r. }
    lra.
  - split; [apply lt_spec|]. split; [apply lt_spec|].
    intros f [-> | ->]; reflexivity.
Qed.

End OptimalOrder.

Lemma calculateOptimalOrder_rounded_witness :
  InventoryCalculator.calculateOptimalOrder [] 0 50 200
  = InventoryCalculator.mkOrder 50 50 50 true true.
Proof.
  apply (calculateOptimalOrder_rounded [] 0 0 0). left. reflexivity.
Defined.

(** C3 as stated fails on the code.  With a one-point forecast of 1 unit,
    no stock, reorder point 0 and capacity 10, the specified [adjusted] and
    [final] are both 1.2, and the code returns 1 for each.  With
    [currentStock = 300] above [maxStock = 200] the code returns
    [final = 0], which exceeds [maxStock - currentStock = -100]. *)
Lemma calculateOptimalOrder_exact_counterexample :
  let order :=
    InventoryCalculator.calculateOptimalOrder
      [mkPoint "2024-01-01" 1 1 1 None None] 0 0 10 in
  let recommended_exact := Qmax 0 (0 - 0) in
  let adjusted_exact := Qmax recommended_exact ((12 # 10) * 1) in
  let final_exact := Qmax 0 (Qmin adjusted_exact (10 - 0)) in
  ~ inject_Z (InventoryCalculator.adjusted order) == adjusted_exact /\
  ~ inject_Z (InventoryCalculator.final order) == final_exact /\
  ~ inject_Z (InventoryCalculator.final
                (InventoryCalculator.calculateOptimalOrder [] 300 50 200))
    <= 200 - 300.
Proof.
  cbv zeta. split; [|split].
  - intros H. vm_compute in H. discriminate H.
  - intros H. vm_compute in H. discriminate H.
  - intros H. vm_compute in H. apply H. reflexivity.
Qed.

(** ** The scenario handlers, as values *)
Section ScenarioValues.
Import Scenarios.

Lemma index_lt_nat (i d : nat) :
  index_lt i (inject_Z (Z.of_nat d)) = bool_decide (i < d)%nat.
Proof.
  unfold index_lt. case_bool_decide as Hid.
  - apply lt_spec. rewrite <- Zlt_Qlt. lia.
  - apply lt_false. rewrite <- Zle_Qle. lia.
Qed.

(** A [map] whose callback changes only the indices below [d]. *)
Lemma imap_prefix {T : Type} (g : T -> T) (d : nat) (l : list T) (k : nat) :
  imap (fun i x => if bool_decide (k + i < k + d)%nat then g x else x) l
  = (g <$> take d l) ++ drop d l.
Proof.
  revert d k. induction l as [|x l IH]; intros d k.
  - now rewrite take_nil, drop_nil.
  - destruct d as [|d]; cbn [imap take drop fmap list_fmap app].
    + rewrite bool_decide_eq_false_2 by lia. f_equal.
      rewrite <- (imap_ext (fun _ x => x)).
      * clear. induction l as [|y l IHl]; [reflexivity|].
        cbn [imap]. f_equal. exact IHl.
      * intros i y _. cbn. now rewrite bool_decide_eq_false_2 by lia.
    + rewrite bool_decide_eq_true_2 by lia. f_equal.
      rewrite <- (IH d (S k)). apply imap_ext. intros i y _. cbn.
      repeat case_bool_decide; first [reflexivity | lia].
Qed.

Lemma impactedForecast_prefix (forecast : list ForecastPoint)
    (m : Q) (d : nat) :
  impactedForecast forecast m (inject_Z (Z.of_nat d))
  = (shocked m <$> take d forecast) ++ drop d forecast.
Proof.
  unfold impactedForecast. rewrite <- (imap_prefix (shocked m) d forecast 0).
  apply imap_ext. intros i x _. cbn. now rewrite index_lt_nat.
Qed.

Lemma promotionImpact_prefix (forecast : list ForecastPoint)
    (m : Q) (d : nat) :
  promotionImpact forecast m (inject_Z (Z.of_nat d))
  = (promoted m <$> take d forecast) ++ drop d forecast.
Proof.
  unfold promotionImpact. rewrite <- (imap_prefix (promoted m) d forecast 0).
  apply imap_ext. intros i x _. cbn. now rewrite index_lt_nat.
Qed.

End ScenarioValues.

(** C2. A demand shock with parameters [multiplier] and [duration]
    multiplies [predicted], [upper_bound] and [lower_bound] by [multiplier]
    for exactly the first [duration] points and leaves every point at an
    index [>= duration] as it was; with [multiplier = 1.5] and
    [duration = 7] on a 30-point forecast whose [predicted] is 100
    throughout, the first 7 points get [predicted = 150] and points 8 to 30
    keep 100. *)
Theorem demand_shock_first_duration_points
    (forecast : list ForecastPoint) (multiplier : Q) (duration : nat) :
  let impacted :=
    Scenarios.impactedForecast forecast multiplier
      (inject_Z (Z.of_nat duration)) in
  length impacted = length forecast /\
  (forall i item, forecast !! i = Some item -> (i < duration)%nat ->
     exists item', impacted !! i = Some item' /\
       predicted item' = predicted item * multiplier /\
       upper_bound item' = upper_bound item * multiplier /\
       lower_bound item' = lower_bound item * multiplier /\
       date item' = date item) /\
  (forall i item, forecast !! i = Some item -> (duration <= i)%nat ->
     impacted !! i = Some item) /\
  (forall flat : list ForecastPoint,
     length flat = 30%nat ->
     (forall p, p ∈ flat -> predicted p == 100) ->
     exists impacted30,
       Scenarios.post_demand_shock
         (Scenarios.mkShockBody (Some flat) (Some (15 # 10)) (Some 7))
       = Scenarios.Json impacted30 /\
       length impacted30 = 30%nat /\
       forall i p', impacted30 !! i = Some p' ->
         predicted p' == (if bool_decide (i < 7)%nat then 150 else 100)).
Proof.
  cbv zeta.
  assert (forall (fc : list ForecastPoint) m d i item,
            fc !! i = Some item ->
            Scenarios.impactedForecast fc m (inject_Z (Z.of_nat d)) !! i
            = Some (if bool_decide (i < d)%nat
                    then Scenarios.shocked m item else item)) as Hat.
  { intros fc m d i item Hi. unfold Scenarios.impactedForecast.
    rewrite list_lookup_imap, Hi. cbn. now rewrite index_lt_nat. }
  split; [apply length_imap|]. split; [|split].
  - intros i item Hi Hlt. exists (Scenarios.shocked multiplier item).
    rewrite (Hat _ _ _ _ _ Hi), bool_decide_eq_true_2 by exact Hlt.
    repeat split.
  - intros i item Hi Hge. rewrite (Hat _ _ _ _ _ Hi).
    now rewrite bool_decide_eq_false_2 by lia.
  - intros flat Hlen Hflat. eexists. split; [reflexivity|].
    split; [unfold Scenarios.impactedForecast; rewrite length_imap; exact Hlen|].
    intros i p' Hp'. cbn in Hp'.
    change 7 with (inject_Z (Z.of_nat 7)) in Hp'.
    destruct (flat !! i) as [p|] eqn:Hi.
    + rewrite (Hat _ _ _ _ _ Hi) in Hp'. injection Hp' as <-.
      assert (predicted p == 100) as Hp
        by (apply Hflat; eapply list_elem_of_lookup_2; exact Hi).
      case_bool_decide; cbn; rewrite ?Hp; reflexivity.
    + unfold Scenarios.impactedForecast in Hp'.
      rewrite list_lookup_imap, Hi in Hp'. discriminate Hp'.
Qed.

Lemma demand_shock_first_duration_points_witness :
  exists impacted30,
    Scenarios.post_demand_shock
      (Scenarios.mkShockBody
         (Some (replicate 30 (mkPoint "2024-01-01" 100 120 80 None None)))
         (Some (15 # 10)) (Some 7))
    = Scenarios.Json impacted30 /\
    length impacted30 = 30%nat /\
    forall i p', impacted30 !! i = Some p' ->
      predicted p' == (if bool_decide (i < 7)%nat then 150 else 100).
Proof.
  apply (demand_shock_first_duration_points [] 1 0).
  - reflexivity.
  - intros p Hp. apply elem_of_replicate in Hp as [-> _]. reflexivity.
Defined.

(** C6. For a scenario whose type is none of [demand_shock],
    [supply_disruption], [promotion], [custom], the impact helper throws
    nothing and reports no impact: [totalDemandImpact = 0],
    [percentageChange = 0], [severity = low] (and the risk level is
    [low]), whatever the forecast, the parameters and the products. *)
Theorem unknown_scenario_type_zero_impact
    (forecast : option (list ForecastPoint)) (scenario : Scenarios.Scenario)
    (products : option nat) :
  Scenarios.type scenario <> "demand_shock"%string ->
  Scenarios.type scenario <> "supply_disruption"%string ->
  Scenarios.type scenario <> "promotion"%string ->
  Scenarios.type scenario <> "custom"%string ->
  (exists impact,
     Scenarios.calculateScenarioImpact forecast scenario products
     = Scenarios.Returned impact /\
     Scenarios.totalDemandImpact impact = 0%Z /\
     Scenarios.percentageChange impact = 0%Z /\
     Scenarios.severity impact = Scenarios.low) /\
  Scenarios.calculateRiskLevel scenario = Scenarios.Returned Scenarios.low.
Proof.
  intros Hshock Hsupply Hpromo _.
  apply String.eqb_neq in Hshock, Hsupply, Hpromo.
  unfold Scenarios.calculateScenarioImpact, Scenarios.calculateRiskLevel.
  rewrite Hshock, Hsupply, Hpromo. split; [|reflexivity].
  eexists. split; [reflexivity|].
  cbn [Scenarios.totalDemandImpact Scenarios.percentageChange Scenarios.severity].
  split; [|split; reflexivity].
  apply Math_round_zero. ring.
Qed.

Lemma unknown_scenario_type_zero_impact_witness :
  (exists impact,
     Scenarios.calculateScenarioImpact
       (Some [mkPoint "2024-01-01" 100 120 80 None None])
       (Scenarios.mkScenario "weather" None) (Some 3%nat)
     = Scenarios.Returned impact /\
     Scenarios.totalDemandImpact impact = 0%Z /\
     Scenarios.percentageChange impact = 0%Z /\
     Scenarios.severity impact = Scenarios.low) /\
  Scenarios.calculateRiskLevel (Scenarios.mkScenario "weather" None)
  = Scenarios.Returned Scenarios.low.
Proof.
  apply unknown_scenario_type_zero_impact; cbn; discriminate.
Defined.

(** ** The scenario handlers on the store *)
Section ScenarioStore.
Import ScenarioHeap.

(** The common shape of the two callbacks. *)
Let callback (g : ForecastPoint -> ForecastPoint) (duration : Q)
    (index : nat) (item : loc) (h : gmap loc object)
    : option (loc * gmap loc object) :=
  if Scenarios.index_lt index duration then
    match h !! item with
    | Some (Point p) => Some (alloc h (Point (g p)))
    | _ => None
    end
  else Some (item, h).

Lemma alloc_fresh (h : gmap loc object) (o : object) :
  h !! (alloc h o).1 = None.
Proof. apply not_elem_of_dom, is_fresh. Qed.

Lemma alloc_extends (h : gmap loc object) (o : object) :
  h ⊆ (alloc h o).2.
Proof. apply insert_subseteq, (alloc_fresh h o). Qed.

Lemma alloc_lookup (h : gmap loc object) (o : object) :
  (alloc h o).2 !! (alloc h o).1 = Some o.
Proof. apply lookup_insert_eq. Qed.

Lemma read_points_weaken (h h' : gmap loc object) (elems : list loc)
    (ps : list ForecastPoint) :
  h ⊆ h' -> read_points h elems = Some ps -> read_points h' elems = Some ps.
Proof.
  intros Hsub. revert ps. induction elems as [|l elems IH]; intros ps Hread.
  - exact Hread.
  - cbn in Hread |- *.
    destruct (h !! l) as [[p|?]|] eqn:Hl; try discriminate Hread.
    destruct (read_points h elems) as [qs|] eqn:Hrest; try discriminate Hread.
    rewrite (lookup_weaken _ _ _ _ Hl Hsub), (IH qs eq_refl). exact Hread.
Qed.

(** The loop of [map] with either callback: it terminates without an
    exception on an array of points, only extends the store, and its
    result denotes the points the value-level [map] computes. *)
Lemma map_from_callback (g : ForecastPoint -> ForecastPoint) (duration : Q)
    (elems : list loc) :
  forall (index : nat) (h : gmap loc object) (ps : list ForecastPoint),
    read_points h elems = Some ps ->
    exists out h',
      map_from (callback g duration) index elems h = Some (out, h') /\
      h ⊆ h' /\
      read_points h' out
      = Some (imap (fun i item =>
                      if Scenarios.index_lt (index + i) duration
                      then g item else item) ps).
Proof.
  induction elems as [|l elems IH]; intros index h ps Hread.
  - injection Hread as <-. exists [], h. repeat split; reflexivity.
  - cbn in Hread.
    destruct (h !! l) as [[p|?]|] eqn:Hl; try discriminate Hread.
    destruct (read_points h elems) as [qs|] eqn:Hrest; try discriminate Hread.
    injection Hread as <-.
    cbn [map_from imap]. unfold callback at 1.
    rewrite Nat.add_0_r.
    destruct (Scenarios.index_lt index duration) eqn:Hidx.
    + rewrite Hl.
      pose proof (alloc_extends h (Point (g p))) as Hext.
      pose proof (alloc_lookup h (Point (g p))) as Hnew.
      destruct (alloc h (Point (g p))) as [r h1]. cbn in Hext, Hnew.
      destruct (IH (S index) h1 qs (read_points_weaken _ _ _ _ Hext Hrest))
        as (out & h2 & Hrun & Hsub & Hout).
      rewrite Hrun. exists (r :: out), h2.
      split; [reflexivity|]. split; [etrans; eassumption|].
      cbn. rewrite (lookup_weaken _ _ _ _ Hnew Hsub), Hout.
      do 2 f_equal. apply imap_ext. intros i x _. cbn.
      now rewrite Nat.add_succ_r.
    + destruct (IH (S index) h qs Hrest) as (out & h2 & Hrun & Hsub & Hout).
      rewrite Hrun. exists (l :: out), h2.
      split; [reflexivity|]. split; [exact Hsub|].
      cbn. rewrite (lookup_weaken _ _ _ _ Hl Hsub), Hout.
      do 2 f_equal. apply imap_ext. intros i x _. cbn.
      now rewrite Nat.add_succ_r.
Qed.

(** [arr.map(callback)] on a well-formed forecast array. *)
Lemma Array_map_callback (g : ForecastPoint -> ForecastPoint) (duration : Q)
    (h : gmap loc object) (a : loc) (base : list ForecastPoint) :
  read_forecast h a = Some base ->
  exists a' h',
    Array_map (callback g duration) a h = Some (a', h') /\
    h !! a' = None /\
    h ⊆ h' /\
    read_forecast h' a = Some base /\
    read_forecast h' a'
    = Some (imap (fun i item =>
                    if Scenarios.index_lt i duration then g item else item)
                 base).
Proof.
  unfold read_forecast, Array_map. intros Hbase.
  destruct (h !! a) as [[?|elems]|] eqn:Ha; try discriminate Hbase.
  destruct (map_from_callback g duration elems 0 h base Hbase)
    as (out & h1 & Hrun & Hsub & Hout).
  rewrite Hrun.
  pose proof (alloc_fresh h1 (Array out)) as Hfresh.
  pose proof (alloc_extends h1 (Array out)) as Hext.
  pose proof (alloc_lookup h1 (Array out)) as Hnew.
  destruct (alloc h1 (Array out)) as [a' h']. cbn in Hfresh, Hext, Hnew.
  assert (h ⊆ h') as Hall by (etrans; eassumption).
  exists a', h'. split; [reflexivity|]. split; [|split; [exact Hall|split]].
  - destruct (h !! a') as [o|] eqn:Hold; [|reflexivity].
    rewrite (lookup_weaken _ _ _ _ Hold Hsub) in Hfresh. discriminate Hfresh.
  - rewrite (lookup_weaken _ _ _ _ Ha Hall).
    now apply (read_points_weaken h h').
  - rewrite Hnew. now apply (read_points_weaken h1 h').
Qed.

(** C7. Neither scenario application mutates the base forecast.  On a
    store where [forecast] is an array of points denoting [base], each of
    the two handlers returns (no exception) a reference to a new array,
    one the store did not hold before; every object of the old store,
    the base array and each of its points among them, is still there
    unchanged, so the base forecast reads [base] as before; and the new
    array denotes the perturbed sequence. *)
Theorem scenario_leaves_base_forecast
    (h : gmap loc object) (forecast : loc) (base : list ForecastPoint)
    (multiplier duration : Q) :
  read_forecast h forecast = Some base ->
  (exists impacted h',
     impactedForecast forecast multiplier duration h = Some (impacted, h') /\
     h !! impacted = None /\
     (forall l o, h !! l = Some o -> h' !! l = Some o) /\
     read_forecast h' forecast = Some base /\
     read_forecast h' impacted
     = Some (Scenarios.impactedForecast base multiplier duration)) /\
  (exists impacted h',
     promotionImpact forecast multiplier duration h = Some (impacted, h') /\
     h !! impacted = None /\
     (forall l o, h !! l = Some o -> h' !! l = Some o) /\
     read_forecast h' forecast = Some base /\
     read_forecast h' impacted
     = Some (Scenarios.promotionImpact base multiplier duration)).
Proof.
  intros Hbase. split.
  - destruct (Array_map_callback (Scenarios.shocked multiplier) duration
                h forecast base Hbase)
      as (a' & h' & Hrun & Hfresh & Hsub & Hold & Hnew).
    exists a', h'. repeat split; try assumption.
    intros l o Hl. exact (lookup_weaken _ _ _ _ Hl Hsub).
  - destruct (Array_map_callback (Scenarios.promoted multiplier) duration
                h forecast base Hbase)
      as (a' & h' & Hrun & Hfresh & Hsub & Hold & Hnew).
    exists a', h'. repeat split; try assumption.
    intros l o Hl. exact (lookup_weaken _ _ _ _ Hl Hsub).
Qed.

End ScenarioStore.

Lemma scenario_leaves_base_forecast_witness :
  let p1 := mkPoint "2024-01-01" 100 120 80 None None in
  let p2 := mkPoint "2024-01-02" 100 125 85 None None in
  let h : gmap ScenarioHeap.loc ScenarioHeap.object :=
    <[3%positive := ScenarioHeap.Array [1%positive; 2%positive]]>
      (<[2%positive := ScenarioHeap.Point p2]>
         (<[1%positive := ScenarioHeap.Point p1]> ∅)) in
  exists impacted h',
    ScenarioHeap.impactedForecast 3%positive (15 # 10) 1 h
    = Some (impacted, h') /\
    h !! impacted = None /\
    (forall l o, h !! l = Some o -> h' !! l = Some o) /\
    ScenarioHeap.read_forecast h' 3%positive = Some [p1; p2] /\
    ScenarioHeap.read_forecast h' impacted
    = Some (Scenarios.impactedForecast [p1; p2] (15 # 10) 1).
Proof.
  intros p1 p2 h.
  apply (scenario_leaves_base_forecast h 3%positive [p1; p2] (15 # 10) 1).
  vm_compute. reflexivity.
Defined.

(** ** The real-valued formulas *)
Section RealFormulas.
Import InventoryCalculatorR.
Local Open Scope R_scope.

Lemma falsy_true (x : R) : falsy x = true <-> x = 0.
Proof. unfold falsy. destruct (Req_dec_T x 0); split; congruence. Qed.

Lemma falsy_nonzero (x : R) : x <> 0 -> falsy x = false.
Proof. unfold falsy. destruct (Req_dec_T x 0); congruence. Qed.

(** [round2] moves its argument by at most half a hundredth, onto a
    whole number of hundredths. *)
Lemma round2_nearest (x : R) :
  round2 x = IZR (Math_round (x * 100)) / 100 /\
  x - / 200 < round2 x <= x + / 200.
Proof.
  split; [reflexivity|]. unfold round2, Math_round.
  pose proof (Zfloor_bound (x * 100 + / 2)) as [Hlo Hhi]. lra.
Qed.

Lemma sqrt_lower (a x : R) : 0 <= a -> a * a <= x -> a <= sqrt x.
Proof.
  intros Ha Hax. rewrite <- (sqrt_square a Ha). now apply sqrt_le_1_alt.
Qed.

Lemma sqrt_upper (a x : R) : 0 <= a -> 0 <= x < a * a -> sqrt x < a.
Proof.
  intros Ha Hxa. pose proof (sqrt_lt_1_alt x (a * a) Hxa) as Hlt.
  now rewrite (sqrt_square a Ha) in Hlt.
Qed.

Lemma exp_nonpos_le_1 (x : R) : x <= 0 -> exp x <= 1.
Proof.
  intros [Hneg | ->].
  - rewrite <- exp_0. left. now apply exp_increasing.
  - rewrite exp_0. lra.
Qed.

End RealFormulas.

Section StockoutProbability.
Import InventoryCalculatorR.
Local Open Scope R_scope.

(** C4. For non-negative inputs [calculateStockoutProbability] returns a
    value in [[0, 1]]: [0] when [demandStdDev] is [0], and otherwise
    [exp(-0.717 z - 0.416 z^2)] with [z = safetyStock / demandStdDev],
    clamped to [[0, 1]] (on these inputs the clamp changes nothing). *)
Theorem calculateStockoutProbability_unit_interval
    (averageDemand safetyStock demandStdDev : R) :
  0 <= averageDemand -> 0 <= safetyStock -> 0 <= demandStdDev ->
  let p := calculateStockoutProbability averageDemand safetyStock demandStdDev in
  let z := safetyStock / demandStdDev in
  0 <= p <= 1 /\
  (demandStdDev = 0 -> p = 0) /\
  (demandStdDev <> 0 ->
     p = Rmin 1 (Rmax 0 (exp (- (717 / 1000) * z - (416 / 1000) * z * z)))
     /\ p = exp (- (717 / 1000) * z - (416 / 1000) * z * z)).
Proof.
  intros _ Hss Hsd p z. subst p. unfold calculateStockoutProbability.
  fold z. destruct (Req_dec_T demandStdDev 0) as [Hz | Hnz].
  - rewrite (proj2 (falsy_true _) Hz). cbn [orb].
    split; [lra|]. split; [reflexivity|]. intros Hne. contradiction.
  - rewrite (falsy_nonzero _ Hnz). cbn [orb].
    set (e := exp _).
    assert (0 < e) as Hpos by apply exp_pos.
    assert (e <= 1) as Hle.
    { apply exp_nonpos_le_1.
      assert (0 <= z) as Hz0.
      { unfold z. apply Rmult_le_pos; [exact Hss|].
        left. apply Rinv_0_lt_compat. lra. }
      nra. }
    rewrite (Rmax_right 0 e) by lra. rewrite (Rmin_right 1 e) by exact Hle.
    split; [lra|]. split; [intros Heq; contradiction|].
    intros _. split; reflexivity.
Qed.

Lemma calculateStockoutProbability_unit_interval_witness :
  0 <= calculateStockoutProbability 10 10 5 <= 1.
Proof.
  apply (calculateStockoutProbability_unit_interval 10 10 5); lra.
Defined.

End StockoutProbability.

Section TwoDecimalRounding.
Import InventoryCalculatorR.
Local Open Scope R_scope.

(** C5 as stated fails on the code: [calculateEOQ(1000, 50, 2)] is
    223.61, not [sqrt(2 * 1000 * 50 / 2) = sqrt(50000)]. *)
Lemma calculateEOQ_exact_counterexample :
  calculateEOQ 1000 50 2 = Some (22361 / 100) /\
  calculateEOQ 1000 50 2 <> Some (sqrt ((2 * 1000 * 50) / 2)).
Proof.
  assert (calculateEOQ 1000 50 2 = Some (22361 / 100)) as Heoq.
  { unfold calculateEOQ. rewrite !falsy_nonzero by lra. cbn [orb].
    f_equal. unfold round2, Math_round.
    replace ((2 * 1000 * 50) / 2) with 50000 by lra.
    rewrite (Zfloor_eq 22361); [reflexivity|].
    pose proof (sqrt_lower (223605 / 1000) 50000 ltac:(lra) ltac:(lra)).
    pose proof (sqrt_upper (223615 / 1000) 50000 ltac:(lra) ltac:(lra)).
    lra. }
  split; [exact Heoq|]. rewrite Heoq. intros Heq. injection Heq as Heq.
  assert (sqrt ((2 * 1000 * 50) / 2) * sqrt ((2 * 1000 * 50) / 2)
          = (2 * 1000 * 50) / 2) as Hsq by (apply sqrt_sqrt; lra).
  rewrite <- Heq in Hsq. lra.
Qed.

(** C5, as the code has it: [calculateEOQ] and [calculateSafetyStock]
    return their formula rounded to two decimals, a whole number of
    hundredths within 0.005 of [sqrt(2 D S / H)] and of
    [z * demandStdDev * sqrt(leadTimeDays)]; the reorder point chained
    after the safety stock in [calculateHealthMetrics] is computed from
    the rounded value. *)
Theorem calculateEOQ_and_safetyStock_rounded
    (annualDemand orderingCost holdingCost : R)
    (averageDailyDemand leadTimeDays serviceLevel demandStdDev : R) :
  0 < annualDemand -> 0 < orderingCost -> 0 < holdingCost ->
  let eoq := sqrt ((2 * annualDemand * orderingCost) / holdingCost) in
  let stock := zScores serviceLevel * demandStdDev * sqrt leadTimeDays in
  (exists r, calculateEOQ annualDemand orderingCost holdingCost = Some r /\
     r = IZR (Math_round (eoq * 100)) / 100 /\
     eoq - / 200 < r <= eoq + / 200) /\
  (let s := calculateSafetyStock averageDailyDemand leadTimeDays
              serviceLevel demandStdDev in
   s = IZR (Math_round (stock * 100)) / 100 /\
   stock - / 200 < s <= stock + / 200) /\
  healthMetrics_reorderPoint averageDailyDemand demandStdDev leadTimeDays
  = averageDailyDemand * leadTimeDays
    + round2 ((165 / 100) * demandStdDev * sqrt leadTimeDays).
Proof.
  intros HD HS HH eoq stock. split; [|split].
  - exists (round2 eoq). split; [|apply round2_nearest].
    unfold calculateEOQ. now rewrite !falsy_nonzero by lra.
  - cbv zeta. apply round2_nearest.
  - unfold healthMetrics_reorderPoint, calculateReorderPoint,
      calculateSafetyStock, zScores.
    destruct (Req_dec_T (95 / 100) (90 / 100)) as [Habs|_]; [lra|].
    destruct (Req_dec_T (95 / 100) (95 / 100)) as [_|Habs]; [|lra].
    reflexivity.
Qed.

Lemma calculateEOQ_and_safetyStock_rounded_witness :
  exists r, calculateEOQ 1000 50 10 = Some r /\
    r = IZR (Math_round (sqrt ((2 * 1000 * 50) / 10) * 100)) / 100 /\
    sqrt ((2 * 1000 * 50) / 10) - / 200 < r
      <= sqrt ((2 * 1000 * 50) / 10) + / 200.
Proof.
  apply (calculateEOQ_and_safetyStock_rounded 1000 50 10 10 7 (95 / 100) 5);
    lra.
Defined.

End TwoDecimalRounding.


(** ** [Array.prototype.sort] *)
Section Sorting.
Context {T : Type}.

Lemma insert_Permutation (cmp : T -> T -> Q) (x : T) (l : list T) :
  Permutation (JS.insert cmp x l) (x :: l).
Proof.
  induction l as [|y l IH]; cbn; [reflexivity|].
  destruct (JS.lt 0 (cmp x y)); [|reflexivity].
  rewrite IH. apply perm_swap.
Qed.

Lemma Array_sort_Permutation (cmp : T -> T -> Q) (l : list T) :
  Permutation (JS.Array_sort cmp l) l.
Proof.
  induction l as [|x l IH]; cbn; [reflexivity|].
  fold (JS.Array_sort cmp l). rewrite insert_Permutation. now constructor.
Qed.

Lemma Array_sort_length (cmp : T -> T -> Q) (l : list T) :
  length (JS.Array_sort cmp l) = length l.
Proof. apply Permutation_length, Array_sort_Permutation. Qed.

(** The comparator [(a, b) => key(b) - key(a)] orders by descending key. *)
Variable key : T -> Q.
Let by_key_desc (a b : T) : Q := key b - key a.
Let desc (a b : T) : Prop := key b <= key a.

Lemma insert_desc (x : T) (l : list T) :
  StronglySorted desc l -> StronglySorted desc (JS.insert by_key_desc x l).
Proof.
  induction 1 as [|y l Hsorted IH Hall]; cbn.
  - repeat constructor.
  - destruct (JS.lt 0 (by_key_desc x y)) eqn:Hcmp.
    + apply lt_spec in Hcmp. unfold by_key_desc in Hcmp.
      constructor; [exact IH|].
      rewrite (insert_Permutation by_key_desc x l). constructor; [|exact Hall].
      unfold desc. lra.
    + apply lt_false in Hcmp. unfold by_key_desc in Hcmp.
      assert (desc x y) as Hxy by (unfold desc; lra).
      constructor; [now constructor|]. constructor; [exact Hxy|].
      eapply Forall_impl; [exact Hall|]. unfold desc in *. intros z Hz. lra.
Qed.

Lemma Array_sort_desc (l : list T) :
  StronglySorted desc (JS.Array_sort by_key_desc l).
Proof.
  induction l as [|x l IH]; cbn; [constructor|]. now apply insert_desc.
Qed.

(** Sorting is stable, so a list already in descending order stays as it
    is. *)
Lemma Array_sort_sorted_id (l : list T) :
  StronglySorted desc l -> JS.Array_sort by_key_desc l = l.
Proof.
  induction 1 as [|x l Hsorted IH Hall]; [reflexivity|].
  cbn. fold (JS.Array_sort by_key_desc l). rewrite IH.
  destruct l as [|y l]; [reflexivity|]. cbn.
  apply Forall_cons in Hall as [Hxy _].
  assert (JS.lt 0 (by_key_desc x y) = false) as ->; [|reflexivity].
  apply lt_false. unfold by_key_desc, desc in *. lra.
Qed.

End Sorting.

(** ** Seasonality *)
Section Seasonality.
Import SeasonalityUtils.

Lemma checkPeriodicity_short (values : list Q) (lag : nat) :
  (length values <= lag)%nat -> checkPeriodicity values lag = 0.
Proof.
  intros Hshort. unfold checkPeriodicity.
  now rewrite (proj2 (Nat.leb_le _ _) Hshort).
Qed.

(** What [detectSeasonality] can answer when the lag-30 strength is 0. *)
Lemma detectSeasonality_monthly_long (data : list SalesRecord) :
  pattern_of (detectSeasonality data) = Some monthly ->
  (31 <= length data)%nat.
Proof.
  unfold detectSeasonality.
  destruct (length data <? 30)%nat eqn:Hmin; [discriminate|].
  apply Nat.ltb_ge in Hmin.
  set (sorted := JS.Array_sort _ data).
  destruct (JS.lt (3 # 10) (checkPeriodicity (map value_of sorted) 7));
    [discriminate|].
  destruct (JS.lt (2 # 10) (checkPeriodicity (map value_of sorted) 30))
    eqn:Hmonthly; [|discriminate].
  intros _. destruct (Nat.le_gt_cases 31 (length data)) as [Hlong|Hshort];
    [exact Hlong|].
  rewrite checkPeriodicity_short in Hmonthly; [discriminate Hmonthly|].
  rewrite length_map. unfold sorted. rewrite Array_sort_length. lia.
Qed.

End Seasonality.

(** C10. [checkPeriodicity] returns 0 whenever the series is no longer than
    the lag; so for a series of exactly 30 points the monthly (lag 30)
    strength is 0 and [detectSeasonality] never answers [monthly]: a
    [monthly] answer needs at least 31 points, and 31 points can give one. *)
Theorem monthly_needs_31_points :
  (forall (values : list Q) (lag : nat),
     (length values <= lag)%nat ->
     SeasonalityUtils.checkPeriodicity values lag = 0) /\
  (forall data : list SeasonalityUtils.SalesRecord,
     length data = 30%nat ->
     SeasonalityUtils.checkPeriodicity
       (map SeasonalityUtils.value_of
          (JS.Array_sort
             (fun a b => inject_Z (SeasonalityUtils.date_time a
                                   - SeasonalityUtils.date_time b)) data)) 30
     = 0 /\
     SeasonalityUtils.pattern_of (SeasonalityUtils.detectSeasonality data)
     <> Some SeasonalityUtils.monthly) /\
  (forall data : list SeasonalityUtils.SalesRecord,
     SeasonalityUtils.pattern_of (SeasonalityUtils.detectSeasonality data)
     = Some SeasonalityUtils.monthly ->
     (31 <= length data)%nat) /\
  (length spike_series = 31%nat /\
   SeasonalityUtils.pattern_of (SeasonalityUtils.detectSeasonality spike_series)
   = Some SeasonalityUtils.monthly).
Proof.
  split; [exact checkPeriodicity_short|]. split; [|split].
  - intros data Hlen. split.
    + apply checkPeriodicity_short.
      rewrite length_map, Array_sort_length. lia.
    + intros Hmonthly. apply detectSeasonality_monthly_long in Hmonthly. lia.
  - exact detectSeasonality_monthly_long.
  - split; [reflexivity|]. vm_compute. reflexivity.
Qed.

Lemma monthly_needs_31_points_witness :
  SeasonalityUtils.pattern_of
    (SeasonalityUtils.detectSeasonality (firstn 30 spike_series))
  <> Some SeasonalityUtils.monthly.
Proof.
  apply (proj1 (proj2 monthly_needs_31_points) (firstn 30 spike_series)).
  reflexivity.
Defined.

(** ** Running sums of a list in descending order *)
Section RunningSums.
Context {T : Type}.
Variable key : T -> Q.

Local Abbreviation run a l := (fold_left (fun sum x => sum + key x) l a).

Lemma run_acc (a : Q) (l : list T) : run a l == a + run 0 l.
Proof.
  revert a. induction l as [|x l IH]; intros a; cbn.
  - ring.
  - rewrite (IH (a + key x)), (IH (0 + key x)). ring.
Qed.

Lemma run_app_sum (l1 l2 : list T) : run 0 (l1 ++ l2) == run 0 l1 + run 0 l2.
Proof. rewrite fold_left_app. apply run_acc. Qed.

Lemma run_Permutation (l l' : list T) :
  Permutation l l' -> run 0 l == run 0 l'.
Proof.
  induction 1 as [|x l l' _ IH|x y l|l l' l'' _ IH1 _ IH2]; cbn.
  - reflexivity.
  - rewrite (run_acc (0 + key x) l), (run_acc (0 + key x) l'), IH. reflexivity.
  - rewrite (run_acc (0 + key y + key x) l), (run_acc (0 + key x + key y) l).
    ring.
  - now rewrite IH1.
Qed.

Lemma run_negative (l : list T) :
  Forall (fun x => key x < 0) l -> run 0 l <= 0.
Proof.
  induction 1 as [|x l Hx _ IH]; cbn; [lra|].
  rewrite (run_acc (0 + key x) l). lra.
Qed.

(** In a descending list, once a prefix sums below zero every later
    element is negative. *)
Lemma negative_prefix_negative_rest (l : list T) :
  StronglySorted (fun a b => key b <= key a) l ->
  forall k, run 0 (take k l) < 0 -> Forall (fun x => key x < 0) (drop k l).
Proof.
  induction 1 as [|x l Hsorted IH Hall]; intros k Hneg.
  - rewrite take_nil in Hneg. cbn in Hneg. lra.
  - destruct k as [|k]; cbn in Hneg; [lra|]. cbn [drop].
    rewrite (run_acc (0 + key x) (take k l)) in Hneg.
    destruct (Qlt_le_dec (key x) 0) as [Hx | Hx].
    + apply Forall_drop. eapply Forall_impl; [exact Hall|].
      cbn. intros y Hy. lra.
    + apply IH. lra.
Qed.

(** So when the total is zero no prefix sums below zero. *)
Lemma zero_total_prefix_nonneg (l : list T) :
  StronglySorted (fun a b => key b <= key a) l ->
  run 0 l == 0 ->
  forall k, 0 <= run 0 (take k l).
Proof.
  intros Hsorted Hzero k.
  destruct (Qlt_le_dec (run 0 (take k l)) 0) as [Hneg | Hok]; [|exact Hok].
  pose proof (run_negative _ (negative_prefix_negative_rest l Hsorted k Hneg))
    as Hrest.
  pose proof (run_app_sum (take k l) (drop k l)) as Hsplit.
  rewrite take_drop, Hzero in Hsplit. lra.
Qed.

Lemma StronglySorted_by_key (R : Q -> Q -> Prop) (l : list T) :
  StronglySorted R (map key l) <->
  StronglySorted (fun a b => R (key a) (key b)) l.
Proof.
  induction l as [|x l IH]; cbn.
  - split; constructor.
  - split; intros Hs; apply StronglySorted_inv in Hs as [Hs Hall];
      constructor; try (apply IH; exact Hs).
    + apply (proj1 (Forall_map key (R (key x)) l) Hall).
    + apply (proj2 (Forall_map key (R (key x)) l) Hall).
Qed.

End RunningSums.

(** ** ABC classification *)
Section ABC.
Import InventoryCalculator.

Local Abbreviation run a l := (fold_left (fun sum x => sum + annualValue x) l a).

Lemma run_values (l l' : list Item) (a : Q) :
  map annualValue l = map annualValue l' -> run a l = run a l'.
Proof.
  revert l' a. induction l as [|x l IH]; intros [|y l'] a Hmap;
    try discriminate Hmap; [reflexivity|].
  cbn in Hmap |- *. injection Hmap as Hxy Hrest. rewrite Hxy. now apply IH.
Qed.

Lemma classify_loop_values (t c : Q) (l : list Item) :
  map annualValue (classify_loop t c l) = map annualValue l.
Proof.
  revert c. induction l as [|x l IH]; intros c; cbn; [reflexivity|].
  now rewrite IH.
Qed.

Lemma classify_loop_identity (t c : Q) (l : list Item) :
  map (fun item => (id item, annualValue item)) (classify_loop t c l)
  = map (fun item => (id item, annualValue item)) l.
Proof.
  revert c. induction l as [|x l IH]; intros c; cbn; [reflexivity|].
  now rewrite IH.
Qed.

Lemma classify_loop_length (t c : Q) (l : list Item) :
  length (classify_loop t c l) = length l.
Proof.
  revert c. induction l as [|x l IH]; intros c; cbn; [reflexivity|].
  now rewrite IH.
Qed.

(** The class written at position [i] is the one of the running sum up to
    and including [i]. *)
Lemma classify_loop_lookup (t : Q) (l : list Item) :
  forall (c : Q) (i : nat) (item : Item),
    classify_loop t c l !! i = Some item ->
    exists orig, l !! i = Some orig /\
      item = set_class orig (class_of (JS.div (run c (take (S i) l)) t)).
Proof.
  induction l as [|x l IH]; intros c i item Hi; [discriminate Hi|].
  destruct i as [|i].
  - cbn in Hi. injection Hi as <-. exists x. split; reflexivity.
  - cbn in Hi. destruct (IH _ _ _ Hi) as (orig & Horig & ->).
    exists orig. split; [exact Horig|reflexivity].
Qed.

Lemma classify_loop_idempotent (t : Q) (l : list Item) :
  forall c, classify_loop t c (classify_loop t c l) = classify_loop t c l.
Proof.
  induction l as [|x l IH]; intros c; cbn; [reflexivity|].
  now rewrite IH.
Qed.

Lemma classify_loop_classified (t c : Q) (l : list Item) :
  Forall (fun item => exists k, class item = Some k) (classify_loop t c l).
Proof.
  revert c. induction l as [|x l IH]; intros c; cbn; constructor.
  - eexists. reflexivity.
  - apply IH.
Qed.

Lemma count_class_cons (k : abc) (x : Item) (l : list Item) :
  count_class k (x :: l)
  = ((if has_class k x then 1 else 0) + count_class k l)%nat.
Proof. unfold count_class. cbn. now destruct (has_class k x). Qed.

Lemma count_class_total (l : list Item) :
  Forall (fun item => exists k, class item = Some k) l ->
  (count_class A l + count_class B l + count_class C l = length l)%nat.
Proof.
  induction 1 as [|x l [k Hk] _ IH]; [reflexivity|].
  rewrite !count_class_cons. cbn [length]. unfold has_class. rewrite Hk.
  destruct k; lia.
Qed.

Lemma class_of_Finite (q : Q) :
  (class_of (JS.Finite q) = A <-> q <= 8 # 10) /\
  (class_of (JS.Finite q) = B <-> 8 # 10 < q /\ q <= 95 # 100) /\
  (class_of (JS.Finite q) = C <-> 95 # 100 < q).
Proof.
  unfold class_of, JS.le.
  destruct (Qle_bool q (8 # 10)) eqn:H80;
    [apply Qle_bool_iff in H80 | apply Qle_bool_false in H80].
  - repeat split; try discriminate; intros; try assumption; lra.
  - destruct (Qle_bool q (95 # 100)) eqn:H95;
      [apply Qle_bool_iff in H95 | apply Qle_bool_false in H95];
      repeat split; try discriminate; intros; try assumption; lra.
Qed.

Lemma class_of_zero_total (c t : Q) :
  t == 0 -> 0 <= c -> class_of (JS.div c t) = C.
Proof.
  intros Ht Hc. unfold JS.div. rewrite (proj2 (Qeq_bool_iff t 0) Ht).
  destruct (Qeq_bool c 0); [reflexivity|].
  now rewrite (proj2 (Qle_bool_iff 0 c) Hc).
Qed.

Lemma div_nonzero (c t : Q) : ~ t == 0 -> JS.div c t = JS.Finite (c / t).
Proof.
  intros Ht. unfold JS.div. destruct (Qeq_bool t 0) eqn:E; [|reflexivity].
  apply Qeq_bool_iff in E. contradiction.
Qed.

End ABC.

Section ABCClassifier.
Import InventoryCalculator.

Variable items : list Item.

Let sorted : list Item :=
  JS.Array_sort (fun a b => annualValue b - annualValue a) items.

Lemma sorted_descending :
  StronglySorted (fun a b => annualValue b <= annualValue a) sorted.
Proof. apply (Array_sort_desc annualValue). Qed.

Lemma sorted_total : JS.reduce_sum annualValue sorted == JS.reduce_sum annualValue items.
Proof. apply run_Permutation, Array_sort_Permutation. Qed.

Lemma classifyABC_values :
  map annualValue (classifyABC items) = map annualValue sorted.
Proof. apply classify_loop_values. Qed.

(** C1. [classifyABC] returns the items in descending order of value; the
    item at each position gets class A when the running cumulative
    fraction of the total value, up to and including that item, is
    [<= 0.8], B when it is [<= 0.95] and C otherwise; every item gets a
    class, so the three counts add up to the length of the input; and when
    the total value is 0 every item is classified C. *)
Theorem classifyABC_cumulative_classes :
  let classified := classifyABC items in
  let totalValue := JS.reduce_sum annualValue items in
  Permutation (map (fun item => (id item, annualValue item)) classified)
              (map (fun item => (id item, annualValue item)) items) /\
  StronglySorted (fun a b => b <= a) (map annualValue classified) /\
  (forall i item, classified !! i = Some item ->
     let cumulative := JS.reduce_sum annualValue (take (S i) classified) in
     (~ totalValue == 0 ->
        (class item = Some A <-> cumulative / totalValue <= 8 # 10) /\
        (class item = Some B <->
           8 # 10 < cumulative / totalValue /\
           cumulative / totalValue <= 95 # 100) /\
        (class item = Some C <-> 95 # 100 < cumulative / totalValue)) /\
     (totalValue == 0 -> class item = Some C)) /\
  (count_class A classified + count_class B classified
   + count_class C classified = length items)%nat.
Proof.
  cbv zeta. split; [|split; [|split]].
  - unfold classifyABC. rewrite classify_loop_identity.
    apply Permutation_map, Array_sort_Permutation.
  - rewrite classifyABC_values.
    apply (StronglySorted_by_key annualValue (fun a b => b <= a)).
    exact sorted_descending.
  - intros i item Hi.
    assert (JS.reduce_sum annualValue (take (S i) (classifyABC items))
            = JS.reduce_sum annualValue (take (S i) sorted)) as ->.
    { apply run_values. rewrite <- !firstn_map. f_equal.
      exact classifyABC_values. }
    destruct (classify_loop_lookup _ _ _ _ _ Hi) as (orig & _ & ->).
    fold sorted. cbn [class set_class].
    set (cumulative := fold_left _ (take (S i) sorted) 0).
    change (JS.reduce_sum annualValue (take (S i) sorted)) with cumulative.
    pose proof sorted_total as Htotal. split.
    + intros Hnz. rewrite <- Htotal in Hnz |- *.
      rewrite (div_nonzero _ _ Hnz).
      destruct (class_of_Finite
                  (cumulative / JS.reduce_sum annualValue sorted))
        as (HA & HB & HC).
      rewrite <- HA, <- HB, <- HC.
      repeat split; intros H; congruence.
    + intros Hz. rewrite <- Htotal in Hz. f_equal.
      apply class_of_zero_total; [exact Hz|].
      apply (zero_total_prefix_nonneg annualValue sorted);
        [exact sorted_descending | exact Hz].
  - rewrite count_class_total by apply classify_loop_classified.
    unfold classifyABC. rewrite classify_loop_length. apply Array_sort_length.
Qed.

(** C9. Classifying the output of [classifyABC] again changes nothing: the
    second pass returns the same items in the same order with the same
    classes, whatever classes the input items carried. *)
Theorem classifyABC_idempotent :
  classifyABC (classifyABC items) = classifyABC items /\
  map class (classifyABC (classifyABC items)) = map class (classifyABC items).
Proof.
  assert (classifyABC (classifyABC items) = classifyABC items) as Hidem.
  { unfold classifyABC at 1.
    assert (JS.Array_sort (fun a b => annualValue b - annualValue a)
              (classifyABC items) = classifyABC items) as ->.
    { apply (Array_sort_sorted_id annualValue).
      apply (StronglySorted_by_key annualValue (fun a b => b <= a)).
      rewrite classifyABC_values.
      apply (StronglySorted_by_key annualValue (fun a b => b <= a)).
      exact sorted_descending. }
    assert (JS.reduce_sum annualValue (classifyABC items)
            = JS.reduce_sum annualValue sorted) as ->
      by (apply run_values, classifyABC_values).
    apply classify_loop_idempotent. }
  split; [exact Hidem | now rewrite Hidem].
Qed.

End ABCClassifier.

Lemma classifyABC_cumulative_classes_witness :
  exists item,
    InventoryCalculator.classifyABC test_items !! 2%nat = Some item /\
    InventoryCalculator.class item = Some InventoryCalculator.B.
Proof.
  pose proof (classifyABC_cumulative_classes test_items)
    as (_ & _ & Hclass & _).
  eexists. split; [vm_compute; reflexivity|].
  refine (proj2 (proj1 (proj2 (proj1 (Hclass 2%nat _ eq_refl) _))) _).
  - vm_compute. discriminate.
  - vm_compute. split; [reflexivity | discriminate].
Defined.

(** * Further properties of the code *)

(** ** Turnover and days of inventory *)

(** X1. A zero denominator gives 0 in both [calculateTurnover] and
    [calculateDIO]; otherwise the two are reciprocal up to the period:
    days of inventory times turnover is the number of days, 365 when the
    caller gives none. *)
Theorem turnover_times_DIO (averageInventory costOfGoodsSold : Q)
    (days : option Q) :
  (averageInventory == 0 ->
   InventoryCalculator.calculateTurnover costOfGoodsSold averageInventory = 0) /\
  (costOfGoodsSold == 0 ->
   InventoryCalculator.calculateDIO averageInventory costOfGoodsSold days = 0) /\
  (~ averageInventory == 0 -> ~ costOfGoodsSold == 0 ->
   InventoryCalculator.calculateDIO averageInventory costOfGoodsSold days
   * InventoryCalculator.calculateTurnover costOfGoodsSold averageInventory
   == match days with Some d => d | None => 365 end).
Proof.
  unfold InventoryCalculator.calculateTurnover, InventoryCalculator.calculateDIO,
    JS.truthy.
  split; [|split].
  - intros Hz. apply Qeq_bool_iff in Hz. now rewrite Hz.
  - intros Hz. apply Qeq_bool_iff in Hz. now rewrite Hz.
  - intros Hinv Hcogs.
    destruct (Qeq_bool averageInventory 0) eqn:E1;
      [apply Qeq_bool_iff in E1; contradiction|].
    destruct (Qeq_bool costOfGoodsSold 0) eqn:E2;
      [apply Qeq_bool_iff in E2; contradiction|].
    cbn [negb orb]. destruct days as [d|]; unfold from_option, Datatypes.id;
      field; now split.
Qed.

Lemma turnover_times_DIO_witness :
  InventoryCalculator.calculateDIO 5000 36500 None
  * InventoryCalculator.calculateTurnover 36500 5000 == 365.
Proof.
  apply (turnover_times_DIO 5000 36500 None); intros H; discriminate H.
Defined.

(** ** Forecast accuracy *)
Section ForecastAccuracy.
Import InventoryCalculator.

Variable forecast : list ForecastPoint.

Lemma accuracy_step_nonneg (state : Q * nat) (a : SaleRow) :
  0 <= fst state -> 0 <= fst (accuracy_step forecast state a).
Proof.
  destruct state as [totalError count]. unfold accuracy_step. cbn [fst].
  intros Hpos.
  destruct (find_forecast _ forecast) as [forecastItem|]; [|exact Hpos].
  destruct (JS.lt 0 (sale_value a)); [|exact Hpos]. cbn [fst].
  pose proof (Qabs_nonneg ((sale_value a
                            - num_or (Some (predicted forecastItem)) 0)
                           / sale_value a)).
  lra.
Qed.

Lemma accuracy_fold_nonneg (actual : list SaleRow) (state : Q * nat) :
  0 <= fst state -> 0 <= fst (fold_left (accuracy_step forecast) actual state).
Proof.
  revert state. induction actual as [|a actual IH]; intros state Hpos;
    [exact Hpos|].
  cbn [fold_left]. apply IH. now apply accuracy_step_nonneg.
Qed.

(** A row counts as exactly forecast when a forecast point carries its
    date and predicts its positive amount. *)
Let exactly_forecast (a : SaleRow) : Prop :=
  0 < sale_value a /\
  exists f, find_forecast (string_or (sale_date a) (sale_Date a)) forecast
            = Some f /\ predicted f == sale_value a.

Lemma accuracy_fold_exact (actual : list SaleRow) :
  Forall exactly_forecast actual ->
  forall state : Q * nat,
    fst (fold_left (accuracy_step forecast) actual state) == fst state /\
    snd (fold_left (accuracy_step forecast) actual state)
    = (snd state + length actual)%nat.
Proof.
  induction 1 as [|a actual [Hpos (f & Hfind & Hexact)] _ IH]; intros state.
  - cbn. split; [reflexivity|lia].
  - cbn [fold_left length].
    assert (num_or (Some (predicted f)) 0 == sale_value a) as Hvalue.
    { unfold num_or. destruct (JS.truthy (predicted f)) eqn:Ht; [exact Hexact|].
      unfold JS.truthy in Ht. apply negb_false_iff, Qeq_bool_iff in Ht.
      rewrite <- Hexact, Ht. reflexivity. }
    assert ((sale_value a - num_or (Some (predicted f)) 0) / sale_value a == 0)
      as Hzero by (rewrite Hvalue; field; lra).
    assert (accuracy_step forecast state a
            = (fst state
               + Qabs ((sale_value a - num_or (Some (predicted f)) 0)
                       / sale_value a), S (snd state))) as ->.
    { destruct state as [totalError count]. unfold accuracy_step.
      rewrite Hfind. now rewrite (proj2 (lt_spec 0 (sale_value a)) Hpos). }
    destruct (IH (fst state
                  + Qabs ((sale_value a - num_or (Some (predicted f)) 0)
                          / sale_value a), S (snd state))) as [IH1 IH2].
    split.
    + rewrite IH1. cbn [fst]. rewrite Hzero. change (Qabs 0) with 0. ring.
    + rewrite IH2. cbn [snd]. lia.
Qed.

(** X2. [calculateForecastAccuracy] answers [null] when either list is
    empty; a number it returns lies in [[0, 1]]; and it is 1 when every
    actual row is forecast exactly (a point with the row's date predicts
    the row's positive amount). *)
Theorem calculateForecastAccuracy_unit_interval (actual : list SaleRow) :
  (actual = [] \/ forecast = [] ->
   calculateForecastAccuracy actual forecast = None) /\
  (forall accuracy,
     calculateForecastAccuracy actual forecast = Some accuracy ->
     0 <= accuracy /\ accuracy <= 1) /\
  (actual <> [] -> Forall exactly_forecast actual ->
   exists accuracy,
     calculateForecastAccuracy actual forecast = Some accuracy /\
     accuracy == 1).
Proof.
  unfold calculateForecastAccuracy. split; [|split].
  - intros [-> | ->]; [reflexivity|]. now rewrite orb_true_r.
  - intros accuracy.
    destruct ((length actual =? 0)%nat || (length forecast =? 0)%nat);
      [discriminate|].
    pose proof (accuracy_fold_nonneg actual (0, 0%nat) (Qle_refl 0)) as Hpos.
    destruct (fold_left (accuracy_step forecast) actual (0, 0%nat))
      as [totalError count]. cbn [fst] in Hpos.
    destruct (count =? 0)%nat eqn:Hcount; [discriminate|].
    apply Nat.eqb_neq in Hcount. intros [= <-].
    split; [apply Q.le_max_l|]. apply Q.max_lub; [lra|].
    assert (0 <= totalError / inject_Z (Z.of_nat count)); [|lra].
    apply Qle_shift_div_l; [|lra]. change 0 with (inject_Z 0).
    rewrite <- Zlt_Qlt. lia.
  - intros Hne Hexact.
    destruct actual as [|a rest]; [contradiction|].
    assert ((length forecast =? 0)%nat = false) as ->.
    { apply Nat.eqb_neq. intros Hlen. apply length_zero_iff_nil in Hlen.
      apply Forall_inv in Hexact as [_ (f & Hfind & _)].
      rewrite Hlen in Hfind. discriminate Hfind. }
    cbn [length Nat.eqb orb].
    destruct (accuracy_fold_exact (a :: rest) Hexact (0, 0%nat)) as [Herr Hcnt].
    destruct (fold_left (accuracy_step forecast) (a :: rest) (0, 0%nat))
      as [totalError count]. cbn [fst snd length] in Herr, Hcnt.
    subst count. cbn [Nat.add Nat.eqb].
    eexists. split; [reflexivity|].
    rewrite Herr. unfold Qdiv. rewrite Qmult_0_l.
    apply Q.max_r. lra.
Qed.

End ForecastAccuracy.

Lemma calculateForecastAccuracy_unit_interval_witness :
  exists accuracy,
    InventoryCalculator.calculateForecastAccuracy
      [InventoryCalculator.mkSaleRow (Some "2024-01-01"%string) None (Some 10) None]
      [mkPoint "2024-01-01" 10 12 8 None None]
    = Some accuracy /\ accuracy == 1.
Proof.
  apply (calculateForecastAccuracy_unit_interval
           [mkPoint "2024-01-01" 10 12 8 None None]
           [InventoryCalculator.mkSaleRow (Some "2024-01-01"%string) None
              (Some 10) None]).
  - discriminate.
  - repeat constructor. eexists. split; reflexivity.
Defined.

(** ** Daily demand *)
Section DailyDemand.
Import InventoryCalculator.

Variable toISODate : string -> option string.

Lemma Map_set_sum (key : string) (value : Q) (m : list (string * Q)) :
  JS.reduce_sum snd (Map_set key (num_or (Map_get key m) 0 + value) m)
  == JS.reduce_sum snd m + value.
Proof.
  unfold JS.reduce_sum. induction m as [|[k v] m IH].
  - cbn. ring.
  - cbn [Map_get Map_set]. destruct (String.eqb k key) eqn:Hk.
    + cbn [fold_left snd].
      rewrite (run_acc snd (0 + (num_or (Some v) 0 + value)) m),
        (run_acc snd (0 + v) m).
      assert (num_or (Some v) 0 == v) as ->; [|ring].
      unfold num_or, JS.truthy. destruct (Qeq_bool v 0) eqn:Hv; cbn [negb];
        [|reflexivity].
      apply Qeq_bool_iff in Hv. now rewrite Hv.
    + cbn [fold_left snd].
      rewrite (run_acc snd (0 + v) (Map_set _ _ m)), (run_acc snd (0 + v) m), IH.
      ring.
Qed.

Lemma Map_set_keys (key : string) (value : Q) (m : list (string * Q)) :
  forall k, In k (map fst (Map_set key value m)) <-> In k (map fst m) \/ k = key.
Proof.
  induction m as [|[k0 v0] m IH]; intros k; cbn [Map_set].
  - cbn. intuition congruence.
  - destruct (String.eqb k0 key) eqn:Hk.
    + apply String.eqb_eq in Hk. subst k0. cbn. intuition congruence.
    + cbn [map fst In]. rewrite IH. tauto.
Qed.

Lemma Map_set_NoDup (key : string) (value : Q) (m : list (string * Q)) :
  List.NoDup (map fst m) -> List.NoDup (map fst (Map_set key value m)).
Proof.
  induction m as [|[k0 v0] m IH]; intros Hnd; cbn [Map_set].
  - cbn. apply List.NoDup_cons_iff. split; [intros []|apply List.NoDup_nil].
  - destruct (String.eqb k0 key) eqn:Hk; [exact Hnd|].
    apply String.eqb_neq in Hk. cbn [map fst] in Hnd |- *.
    apply List.NoDup_cons_iff in Hnd as [Hnotin Hrest].
    apply List.NoDup_cons_iff. split; [|now apply IH].
    rewrite Map_set_keys. intros [Hin | Heq]; [contradiction | congruence].
Qed.

Lemma dailyDemand_step_undated (sale : SaleRow) (m : list (string * Q)) :
  has_date sale = false ->
  dailyDemand_step toISODate (Some m) sale = Some m /\
  day_key toISODate sale = None.
Proof.
  intros Hd. unfold dailyDemand_step, day_key. rewrite Hd.
  unfold has_date in Hd. apply negb_false_iff in Hd. now rewrite Hd.
Qed.

Lemma dailyDemand_step_dated (sale : SaleRow) (m : list (string * Q))
    (key : string) :
  has_date sale = true -> day_key toISODate sale = Some key ->
  dailyDemand_step toISODate (Some m) sale
  = Some (Map_set key (num_or (Map_get key m) 0 + sale_value sale) m).
Proof.
  intros Hd Hkey. unfold dailyDemand_step. unfold day_key in Hkey.
  rewrite Hd in Hkey. unfold has_date in Hd. apply negb_true_iff in Hd.
  now rewrite Hd, Hkey.
Qed.

(** The loop over rows whose dates all parse: the map ends with one entry
    per day seen, and its values add up to what the dated rows sold. *)
Lemma dailyDemand_fold (salesData : list SaleRow) :
  (forall sale, In sale salesData -> has_date sale = true ->
                is_Some (day_key toISODate sale)) ->
  forall m, List.NoDup (map fst m) ->
  exists m',
    fold_left (dailyDemand_step toISODate) salesData (Some m) = Some m' /\
    List.NoDup (map fst m') /\
    (forall k, In k (map fst m') <->
               In k (map fst m) \/ In k (omap (day_key toISODate) salesData)) /\
    JS.reduce_sum snd m'
    == JS.reduce_sum snd m
       + JS.reduce_sum sale_value (List.filter has_date salesData).
Proof.
  induction salesData as [|sale rest IH]; intros Hparse m Hnd.
  - exists m. split; [reflexivity|]. split; [exact Hnd|]. split.
    + intros k. cbn. tauto.
    + unfold JS.reduce_sum. cbn. ring.
  - assert (forall s, In s rest -> has_date s = true ->
                      is_Some (day_key toISODate s)) as Hrest
      by (intros s Hs; apply Hparse; now right).
    cbn [fold_left List.filter omap list_omap].
    destruct (has_date sale) eqn:Hd.
    + destruct (Hparse sale (or_introl eq_refl) Hd) as [key Hkey].
      rewrite (dailyDemand_step_dated sale m key Hd Hkey), Hkey.
      destruct (IH Hrest _ (Map_set_NoDup key
                              (num_or (Map_get key m) 0 + sale_value sale)
                              m Hnd))
        as (m' & Hrun & Hnd' & Hkeys & Hsum).
      exists m'. split; [exact Hrun|]. split; [exact Hnd'|]. split.
      * intros k. rewrite Hkeys, Map_set_keys. cbn [In]. intuition congruence.
      * rewrite Hsum, Map_set_sum. unfold JS.reduce_sum. cbn [fold_left].
        rewrite (run_acc sale_value (0 + sale_value sale)). ring.
    + destruct (dailyDemand_step_undated sale m Hd) as [-> ->].
      apply (IH Hrest m Hnd).
Qed.

Lemma dailyDemand_fold_error (salesData : list SaleRow) :
  (exists sale, In sale salesData /\ has_date sale = true /\
                day_key toISODate sale = None) ->
  forall byDate,
    fold_left (dailyDemand_step toISODate) salesData byDate = None.
Proof.
  assert (forall l, fold_left (dailyDemand_step toISODate) l None = None)
    as Hnone by (induction l; [reflexivity | assumption]).
  induction salesData as [|sale rest IH]; intros (bad & Hin & Hdate & Hkey) byDate.
  - destruct Hin.
  - cbn [fold_left]. destruct Hin as [<- | Hin].
    + destruct byDate as [m|]; [|apply Hnone]. unfold dailyDemand_step.
      unfold day_key in Hkey. rewrite Hdate in Hkey. unfold has_date in Hdate.
      apply negb_true_iff in Hdate. rewrite Hdate, Hkey. apply Hnone.
    + apply IH. exists bad. auto.
Qed.

(** X3. [calculateDailyDemand] returns 0 for no rows.  When the date of
    every dated row parses, it returns what the dated rows sold in total
    divided by the number of distinct days they fall on; with rows but no
    dated row that quotient is [0 / 0], so the result is [NaN].  A dated
    row whose date does not parse makes the call throw. *)
Theorem calculateDailyDemand_per_distinct_day (salesData : list SaleRow) :
  calculateDailyDemand toISODate [] = Some (JS.Finite 0) /\
  (salesData <> [] ->
   (forall sale, In sale salesData -> has_date sale = true ->
                 is_Some (day_key toISODate sale)) ->
   exists total days,
     days = length (nodup String.string_dec
                      (omap (day_key toISODate) salesData)) /\
     total == JS.reduce_sum sale_value (List.filter has_date salesData) /\
     calculateDailyDemand toISODate salesData
     = Some (JS.div total (inject_Z (Z.of_nat days))) /\
     ((0 < days)%nat ->
      calculateDailyDemand toISODate salesData
      = Some (JS.Finite (total / inject_Z (Z.of_nat days)))) /\
     (days = 0%nat ->
      calculateDailyDemand toISODate salesData = Some JS.NaN)) /\
  ((exists sale, In sale salesData /\ has_date sale = true /\
                 day_key toISODate sale = None) ->
   calculateDailyDemand toISODate salesData = None).
Proof.
  split; [reflexivity|]. split.
  - intros Hne Hparse. unfold calculateDailyDemand.
    destruct salesData as [|sale rest] eqn:Hdata; [contradiction|].
    rewrite <- Hdata in *. assert ((length salesData =? 0)%nat = false) as ->
      by (rewrite Hdata; reflexivity).
    destruct (dailyDemand_fold salesData Hparse [] (List.NoDup_nil _))
      as (byDate & -> & Hnd & Hkeys & Hsum).
    assert (length byDate
            = length (nodup String.string_dec
                        (omap (day_key toISODate) salesData))) as Hdays.
    { rewrite <- (length_map fst byDate). apply Permutation_length.
      apply Permutation.NoDup_Permutation; [exact Hnd | apply List.NoDup_nodup|].
      intros k. rewrite Hkeys, nodup_In. cbn. tauto. }
    exists (JS.reduce_sum snd byDate), (length byDate).
    split; [exact Hdays|]. split.
    { rewrite Hsum. unfold JS.reduce_sum at 1. cbn. ring. }
    split; [reflexivity|]. split.
    + intros Hpos. f_equal. apply div_nonzero.
      intros Hz. unfold Qeq in Hz. cbn in Hz. lia.
    + intros Hzero. rewrite Hzero. f_equal.
      assert (byDate = []) as -> by now apply length_zero_iff_nil.
      reflexivity.
  - intros Hbad. unfold calculateDailyDemand.
    destruct salesData as [|sale rest] eqn:Hdata;
      [destruct Hbad as (? & [] & _)|].
    rewrite <- Hdata in *. assert ((length salesData =? 0)%nat = false) as ->
      by (rewrite Hdata; reflexivity).
    now rewrite dailyDemand_fold_error.
Qed.

End DailyDemand.

Lemma calculateDailyDemand_per_distinct_day_witness :
  let rows :=
    [InventoryCalculator.mkSaleRow (Some "2024-01-01"%string) None (Some 10) None;
     InventoryCalculator.mkSaleRow None (Some "2024-01-01"%string) None (Some 4);
     InventoryCalculator.mkSaleRow None None (Some 99) None;
     InventoryCalculator.mkSaleRow (Some "2024-01-02"%string) None (Some 6) None] in
  exists total days,
    days = 2%nat /\ total == 20 /\
    InventoryCalculator.calculateDailyDemand Some rows
    = Some (JS.Finite (total / inject_Z (Z.of_nat days))).
Proof.
  intros rows.
  destruct (proj1 (proj2 (calculateDailyDemand_per_distinct_day Some rows)))
    as (total & days & Hdays & Htotal & _ & Hfinite & _).
  - discriminate.
  - intros sale _ Hdated. unfold InventoryCalculator.day_key.
    rewrite Hdated. eexists. reflexivity.
  - exists total, days. split; [exact Hdays|]. split; [exact Htotal|].
    apply Hfinite. rewrite Hdays. vm_compute. lia.
Defined.

(** ** More on the real-valued formulas *)
Section RealInventory.
Import InventoryCalculatorR.
Local Open Scope R_scope.

Lemma Rsum_acc (l : list R) (a : R) :
  fold_left Rplus l a = a + fold_left Rplus l 0.
Proof.
  revert a. induction l as [|x l IH]; intros a; cbn; [lra|].
  rewrite (IH (a + x)), (IH (0 + x)). lra.
Qed.


Lemma Rsum_nonneg (l : list R) :
  Forall (fun x => 0 <= x) l -> 0 <= fold_left Rplus l 0.
Proof.
  induction 1 as [|x l Hx _ IH]; cbn; [lra|].
  rewrite Rsum_acc. lra.
Qed.





(** X5. [calculateEOQ] answers [null] exactly when one of its three
    arguments is 0; for positive arguments it returns a non-negative
    number, and [calculateEOQ(1000, 50, 10)] is exactly 100, as the test
    suite expects. *)
Theorem calculateEOQ_null_iff_zero (annualDemand orderingCost holdingCost : R) :
  (calculateEOQ annualDemand orderingCost holdingCost = None <->
   annualDemand = 0 \/ orderingCost = 0 \/ holdingCost = 0) /\
  (0 < annualDemand -> 0 < orderingCost -> 0 < holdingCost ->
   exists eoq, calculateEOQ annualDemand orderingCost holdingCost = Some eoq
               /\ 0 <= eoq) /\
  calculateEOQ 1000 50 10 = Some 100.
Proof.
  split; [|split].
  - unfold calculateEOQ, falsy.
    destruct (Req_dec_T annualDemand 0), (Req_dec_T orderingCost 0),
      (Req_dec_T holdingCost 0); cbn [orb]; split; intros H;
      try reflexivity; try discriminate H; tauto.
  - intros HD HS HH. unfold calculateEOQ. rewrite !falsy_nonzero by lra.
    cbn [orb]. eexists. split; [reflexivity|].
    set (e := sqrt _). pose proof (sqrt_pos ((2 * annualDemand * orderingCost)
                                             / holdingCost)) as He. fold e in He.
    unfold round2. apply Rmult_le_pos; [|lra]. apply IZR_le.
    unfold Math_round. apply Zfloor_lub. cbn. nra.
  - unfold calculateEOQ. rewrite !falsy_nonzero by lra. cbn [orb]. f_equal.
    replace ((2 * 1000 * 50) / 10) with (100 * 100) by lra.
    rewrite sqrt_square by lra. unfold round2, Math_round.
    rewrite (Zfloor_eq 10000); [lra|]. lra.
Qed.

Lemma calculateEOQ_null_iff_zero_witness :
  exists eoq, calculateEOQ 1200 40 3 = Some eoq /\ 0 <= eoq.
Proof.
  apply (calculateEOQ_null_iff_zero 1200 40 3); lra.
Defined.






(** X7. With a positive demand deviation the stockout probability is 1
    when there is no safety stock, below 1 as soon as there is some, and
    never rises when the safety stock rises; [averageDemand] plays no
    part. *)
Theorem calculateStockoutProbability_decreasing
    (averageDemand safetyStock demandStdDev : R) :
  0 < demandStdDev ->
  calculateStockoutProbability averageDemand 0 demandStdDev = 1 /\
  (0 < safetyStock ->
   calculateStockoutProbability averageDemand safetyStock demandStdDev < 1) /\
  (forall more, 0 <= safetyStock -> safetyStock <= more ->
     calculateStockoutProbability averageDemand more demandStdDev
     <= calculateStockoutProbability averageDemand safetyStock demandStdDev) /\
  (forall otherDemand,
     calculateStockoutProbability otherDemand safetyStock demandStdDev
     = calculateStockoutProbability averageDemand safetyStock demandStdDev).
Proof.
  intros Hsd.
  assert (forall s, 0 <= s ->
            calculateStockoutProbability averageDemand s demandStdDev
            = exp (- (717 / 1000) * (s / demandStdDev)
                   - (416 / 1000) * (s / demandStdDev) * (s / demandStdDev)))
    as Hexp.
  { intros s Hs. unfold calculateStockoutProbability.
    rewrite falsy_nonzero by lra. cbn [orb].
    set (e := exp _).
    assert (0 < e) as Hpos by apply exp_pos.
    assert (e <= 1) as Hle.
    { apply exp_nonpos_le_1.
      assert (0 <= s / demandStdDev)
        by (apply Rmult_le_pos; [exact Hs | left; now apply Rinv_0_lt_compat]).
      nra. }
    rewrite (Rmax_right 0 e) by lra. now rewrite (Rmin_right 1 e). }
  assert (forall s, 0 <= s -> 0 <= s / demandStdDev) as Hz.
  { intros s Hs. apply Rmult_le_pos; [exact Hs|].
    left. now apply Rinv_0_lt_compat. }
  split; [|split; [|split]].
  - rewrite Hexp by lra. rewrite <- exp_0. f_equal. unfold Rdiv. ring.
  - intros Hpos. rewrite Hexp by lra. rewrite <- exp_0. apply exp_increasing.
    assert (0 < safetyStock / demandStdDev)
      by (apply Rmult_lt_0_compat; [exact Hpos | now apply Rinv_0_lt_compat]).
    nra.
  - intros more Hs Hmore. rewrite !Hexp by lra.
    pose proof (Hz safetyStock Hs) as Hz1.
    assert (safetyStock / demandStdDev <= more / demandStdDev) as Hle.
    { apply Rmult_le_compat_r; [|exact Hmore].
      left. now apply Rinv_0_lt_compat. }
    set (z1 := safetyStock / demandStdDev) in *.
    set (z2 := more / demandStdDev) in *.
    destruct (Req_dec_T z1 z2) as [->|Hne]; [lra|].
    left. apply exp_increasing. nra.
  - reflexivity.
Qed.

Lemma calculateStockoutProbability_decreasing_witness :
  calculateStockoutProbability 10 20 5 <= calculateStockoutProbability 10 15 5.
Proof.
  apply (calculateStockoutProbability_decreasing 10 15 5); lra.
Defined.

End RealInventory.

(** ** More on the forecast side of the scenarios *)
Section ScenarioForecasts.
Import Scenarios.

(** X8. The promotion handler treats the forecast like the demand shock
    does: the first [duration] points have [predicted], [upper_bound] and
    [lower_bound] multiplied by [lift] and get the [promotion_lift] label,
    keeping their date and any [scenario_impact] label; the points from
    index [duration] on are returned as they are; the length is kept. *)
Theorem promotion_first_duration_points
    (forecast : list ForecastPoint) (lift : Q) (duration : nat) :
  let impact := promotionImpact forecast lift (inject_Z (Z.of_nat duration)) in
  length impact = length forecast /\
  impact = (promoted lift <$> take duration forecast) ++ drop duration forecast /\
  (forall item,
     predicted (promoted lift item) = predicted item * lift /\
     upper_bound (promoted lift item) = upper_bound item * lift /\
     lower_bound (promoted lift item) = lower_bound item * lift /\
     date (promoted lift item) = date item /\
     scenario_impact (promoted lift item) = scenario_impact item /\
     promotion_lift (promoted lift item) = Some lift) /\
  (forall body, pr_baseForecast body = Some forecast ->
     pr_lift body = Some lift ->
     pr_duration body = Some (inject_Z (Z.of_nat duration)) ->
     exists stockNeeded summary,
       post_promotion body = PromoJson impact stockNeeded summary).
Proof.
  cbv zeta. split; [apply length_imap|]. split; [apply promotionImpact_prefix|].
  split; [intros item; repeat split|].
  intros body Hforecast Hlift Hduration. unfold post_promotion.
  rewrite Hforecast, Hlift, Hduration. eexists _, _. reflexivity.
Qed.

Lemma promotion_first_duration_points_witness :
  exists stockNeeded summary,
    post_promotion
      (mkPromoBody (Some [mkPoint "2024-01-01" 100 120 80 None None;
                          mkPoint "2024-01-02" 100 120 80 None None])
                   (Some 2) (Some 1) None)
    = PromoJson
        (promotionImpact [mkPoint "2024-01-01" 100 120 80 None None;
                          mkPoint "2024-01-02" 100 120 80 None None]
           2 (inject_Z (Z.of_nat 1)))
        stockNeeded summary.
Proof.
  apply (promotion_first_duration_points
           [mkPoint "2024-01-01" 100 120 80 None None;
            mkPoint "2024-01-02" 100 120 80 None None] 2 1);
    reflexivity.
Defined.

Lemma index_lt_nonpositive (i : nat) (duration : Q) :
  duration <= 0 -> index_lt i duration = false.
Proof.
  intros Hd. apply lt_false.
  assert (0 <= inject_Z (Z.of_nat i)); [|lra].
  change 0 with (inject_Z 0). rewrite <- Zle_Qle. lia.
Qed.

Lemma index_lt_beyond (i n : nat) (duration : Q) :
  (i < n)%nat -> inject_Z (Z.of_nat n) <= duration -> index_lt i duration = true.
Proof.
  intros Hi Hd. apply lt_spec.
  assert (inject_Z (Z.of_nat i) < inject_Z (Z.of_nat n)); [|lra].
  rewrite <- Zlt_Qlt. lia.
Qed.

Lemma imap_id_when {T : Type} (f : nat -> T -> T) (l : list T) :
  (forall i x, l !! i = Some x -> f i x = x) -> imap f l = l.
Proof.
  intros Hid. apply list_eq. intros i. rewrite list_lookup_imap.
  destruct (l !! i) as [x|] eqn:Hi; [|reflexivity]. cbn. now rewrite (Hid i x Hi).
Qed.

Lemma imap_map_when {T : Type} (f : nat -> T -> T) (g : T -> T) (l : list T) :
  (forall i x, l !! i = Some x -> f i x = g x) -> imap f l = map g l.
Proof.
  revert f. induction l as [|x l IH]; intros f Hg; cbn; [reflexivity|].
  f_equal; [apply (Hg 0%nat x eq_refl)|].
  apply IH. intros i y Hi. apply (Hg (S i) y Hi).
Qed.

(** X9. At the edges of [duration]: a duration of 0 or less leaves the
    forecast exactly as it was, and a duration of at least the number of
    points perturbs every point, in the demand shock and in the promotion
    alike. *)
Theorem scenario_duration_edges
    (forecast : list ForecastPoint) (multiplier duration : Q) :
  (duration <= 0 ->
   impactedForecast forecast multiplier duration = forecast /\
   promotionImpact forecast multiplier duration = forecast) /\
  (inject_Z (Z.of_nat (length forecast)) <= duration ->
   impactedForecast forecast multiplier duration
   = map (shocked multiplier) forecast /\
   promotionImpact forecast multiplier duration
   = map (promoted multiplier) forecast).
Proof.
  split.
  - intros Hd. split; apply imap_id_when; intros i x _;
      now rewrite index_lt_nonpositive.
  - intros Hd. split; apply imap_map_when; intros i x Hi;
      apply lookup_lt_Some in Hi;
      now rewrite (index_lt_beyond i (length forecast)).
Qed.

Lemma scenario_duration_edges_witness :
  impactedForecast [mkPoint "2024-01-01" 100 120 80 None None] 2 0
  = [mkPoint "2024-01-01" 100 120 80 None None] /\
  promotionImpact [mkPoint "2024-01-01" 100 120 80 None None] 2 0
  = [mkPoint "2024-01-01" 100 120 80 None None].
Proof.
  apply (scenario_duration_edges [mkPoint "2024-01-01" 100 120 80 None None] 2 0).
  apply Qle_refl.
Defined.

(** X10. A multiplier that is not negative keeps the shape of a forecast:
    if every point has [lower_bound <= predicted <= upper_bound] and a
    non-negative [predicted], so has every point after a demand shock or a
    promotion, whatever the duration. *)
Theorem scenario_keeps_bounds_ordered
    (forecast : list ForecastPoint) (multiplier duration : Q) :
  0 <= multiplier ->
  Forall (fun p => lower_bound p <= predicted p /\
                   predicted p <= upper_bound p /\ 0 <= predicted p) forecast ->
  Forall (fun p => lower_bound p <= predicted p /\
                   predicted p <= upper_bound p /\ 0 <= predicted p)
         (impactedForecast forecast multiplier duration) /\
  Forall (fun p => lower_bound p <= predicted p /\
                   predicted p <= upper_bound p /\ 0 <= predicted p)
         (promotionImpact forecast multiplier duration).
Proof.
  intros Hm Hshape. rewrite Forall_lookup in Hshape.
  split; apply Forall_lookup; intros i p Hp;
    unfold impactedForecast, promotionImpact in Hp;
    rewrite list_lookup_imap in Hp;
    destruct (forecast !! i) as [item|] eqn:Hi; try discriminate Hp;
    cbn in Hp; injection Hp as <-;
    destruct (Hshape i item Hi) as (Hlo & Hup & Hpos);
    destruct (index_lt i duration); cbn; repeat split; try assumption; nra.
Qed.

Lemma scenario_keeps_bounds_ordered_witness :
  Forall (fun p => lower_bound p <= predicted p /\
                   predicted p <= upper_bound p /\ 0 <= predicted p)
         (impactedForecast [mkPoint "2024-01-01" 100 120 80 None None]
            (15 # 10) 7).
Proof.
  apply (scenario_keeps_bounds_ordered
           [mkPoint "2024-01-01" 100 120 80 None None] (15 # 10) 7).
  - discriminate.
  - repeat constructor; discriminate.
Defined.

End ScenarioForecasts.

(** ** The stock side of the scenarios *)
Section ScenarioStock.
Import Scenarios.

Lemma Math_round_scaled_up (x : Q) :
  0 <= x -> (JS.Math_round x <= JS.Math_round (x * (12 # 10)))%Z.
Proof. intros Hx. apply Math_round_mono. lra. Qed.

Lemma supply_impact_nonneg (delayDays : Q) (product : Product) :
  (0 <= stockout_risk (supply_impact delayDays product))%Z.
Proof.
  unfold supply_impact. cbn [stockout_risk].
  apply Math_round_nonneg, Q.le_max_l.
Qed.

Lemma supply_impact_high (delayDays : Q) (product : Product) :
  is_high (risk_level (supply_impact delayDays product))
  = JS.lt (or_default (current_stock product) 0)
      (or_default (daily_demand product) 10
       * (delayDays + or_default (lead_time_days product) 7)).
Proof.
  unfold supply_impact. cbn [risk_level].
  set (stock := or_default (current_stock product) 0).
  set (total := _ * _).
  destruct (JS.lt stock total) eqn:Hlt.
  - apply lt_spec in Hlt.
    assert (JS.lt 0 (Qmax 0 (total - stock)) = true) as ->; [|reflexivity].
    apply lt_spec. rewrite Q.max_r by lra. lra.
  - apply lt_false in Hlt.
    assert (JS.lt 0 (Qmax 0 (total - stock)) = false) as ->; [|reflexivity].
    apply lt_false. rewrite Q.max_l by lra. lra.
Qed.

(** X11. In the supply-disruption scenario a product is at [high] risk
    exactly when its demand over the delay plus its lead time exceeds its
    stock (stock 0, daily demand 10 and lead time 7 standing in for absent
    or zero fields), and at [low] risk otherwise.  The reported
    [stockout_risk] is never negative; at low risk it is 0 and the
    recommendation is "Sufficient stock"; at high risk the recommendation
    orders at least the reported shortfall. *)
Theorem supply_disruption_risk (delayDays : Q) (product : Product) :
  let impact := supply_impact delayDays product in
  let stock := or_default (current_stock product) 0 in
  let demand := or_default (daily_demand product) 10 in
  let lead := or_default (lead_time_days product) 7 in
  (risk_level impact = high <-> stock < demand * (delayDays + lead)) /\
  (risk_level impact = low <-> demand * (delayDays + lead) <= stock) /\
  (0 <= stockout_risk impact)%Z /\
  (risk_level impact = low ->
   stockout_risk impact = 0%Z /\ si_recommendation impact = SufficientStock) /\
  (risk_level impact = high ->
   exists units, si_recommendation impact = OrderImmediately units /\
                 (stockout_risk impact <= units)%Z).
Proof.
  cbv zeta. unfold supply_impact.
  cbn [risk_level stockout_risk si_recommendation].
  set (stock := or_default (current_stock product) 0).
  set (total := or_default (daily_demand product) 10
                * (delayDays + or_default (lead_time_days product) 7)).
  pose proof (Q.le_max_l 0 (total - stock)) as Hnonneg.
  destruct (JS.lt 0 (Qmax 0 (total - stock))) eqn:Hrisk.
  - apply lt_spec in Hrisk.
    assert (stock < total) as Hlt.
    { destruct (Qlt_le_dec stock total) as [H|H]; [exact H|].
      rewrite Q.max_l in Hrisk by lra. lra. }
    split; [tauto|]. split; [split; [discriminate | lra]|].
    split; [now apply Math_round_nonneg|]. split; [discriminate|].
    intros _. eexists. split; [reflexivity|].
    now apply Math_round_scaled_up.
  - apply lt_false in Hrisk.
    assert (total <= stock) as Hle.
    { pose proof (Q.le_max_r 0 (total - stock)). lra. }
    split; [split; [discriminate | lra]|]. split; [tauto|].
    split; [now apply Math_round_nonneg|]. split; [|discriminate].
    intros _. split; [|reflexivity]. apply Math_round_zero. lra.
Qed.

Lemma supply_disruption_risk_witness :
  risk_level (supply_impact 14 (mkProduct "P002" "Product B" (Some 18)
                                  (Some 5) (Some 10))) = high.
Proof.
  apply (supply_disruption_risk 14 (mkProduct "P002" "Product B" (Some 18)
                                      (Some 5) (Some 10))).
  reflexivity.
Defined.

Lemma filter_length_le {T : Type} (f : T -> bool) (l : list T) :
  (length (List.filter f l) <= length l)%nat.
Proof.
  induction l as [|x l IH]; cbn; [lia|]. destruct (f x); cbn; lia.
Qed.

Lemma filter_map_length {S T : Type} (g : S -> T) (f : T -> bool) (l : list S) :
  length (List.filter f (map g l))
  = length (List.filter (fun x => f (g x)) l).
Proof.
  induction l as [|x l IH]; cbn; [reflexivity|].
  destruct (f (g x)); cbn; now rewrite IH.
Qed.

Lemma Zsum_nonneg {T : Type} (f : T -> Z) (l : list T) :
  Forall (fun x => (0 <= f x)%Z) l ->
  forall a, (0 <= a)%Z -> (0 <= fold_left (fun sum x => (sum + f x)%Z) l a)%Z.
Proof.
  induction 1 as [|x l Hx _ IH]; intros a Ha; cbn; [exact Ha|].
  apply IH. lia.
Qed.

(** X12. The supply-disruption endpoint answers 400 exactly when the body
    has no [baseForecast]; otherwise it reports one impact per product, in
    order; [productsAtRisk] is the number of products whose demand over
    delay plus lead time exceeds their stock, so at most the number of
    products; [totalUnitsNeeded] is never negative; with no [products] both
    are 0.  Neither the contents of the forecast nor [capacityReduction]
    enter the stock impact. *)
Theorem supply_disruption_summary (body : SupplyBody) :
  let delayDays := match su_delayDays body with Some d => d | None => 14 end in
  (post_supply_disruption body = SupplyStatus400 <->
   su_baseForecast body = None) /\
  (forall forecast, su_baseForecast body = Some forecast ->
     exists summary,
       post_supply_disruption body
       = SupplyJson (option_map (map (supply_impact delayDays))
                                (su_products body)) summary /\
       ss_delayDays summary = delayDays /\
       (0 <= totalUnitsNeeded summary)%Z /\
       match su_products body with
       | Some products =>
           productsAtRisk summary
           = length (List.filter
                       (fun p => JS.lt (or_default (current_stock p) 0)
                                   (or_default (daily_demand p) 10
                                    * (delayDays
                                       + or_default (lead_time_days p) 7)))
                       products) /\
           (productsAtRisk summary <= length products)%nat
       | None =>
           productsAtRisk summary = 0%nat /\ totalUnitsNeeded summary = 0%Z
       end).
Proof.
  cbv zeta. unfold post_supply_disruption. split.
  - destruct (su_baseForecast body); split; intros H; try discriminate H;
      reflexivity.
  - intros forecast ->. eexists. split; [reflexivity|].
    cbn [ss_delayDays totalUnitsNeeded productsAtRisk].
    split; [now destruct (su_delayDays body)|].
    destruct (su_products body) as [products|]; cbn [option_map].
    + split.
      * apply Zsum_nonneg; [|lia]. apply Forall_map, Forall_forall.
        intros p _. apply supply_impact_nonneg.
      * rewrite filter_map_length.
        rewrite (List.filter_ext _ _
                   (supply_impact_high (default 14 (su_delayDays body)))).
        split; [now destruct (su_delayDays body)|]. apply filter_length_le.
    + split; [lia|]. split; reflexivity.
Qed.

Lemma supply_disruption_summary_witness :
  exists summary,
    post_supply_disruption
      (mkSupplyBody (Some []) None None
         (Some [mkProduct "P002" "Product B" (Some 18) (Some 5) (Some 10)]))
    = SupplyJson
        (Some [supply_impact 14
                 (mkProduct "P002" "Product B" (Some 18) (Some 5) (Some 10))])
        summary /\
    ss_delayDays summary = 14 /\
    (0 <= totalUnitsNeeded summary)%Z /\
    productsAtRisk summary = 1%nat /\ (productsAtRisk summary <= 1)%nat.
Proof.
  apply (proj2 (supply_disruption_summary
                  (mkSupplyBody (Some []) None None
                     (Some [mkProduct "P002" "Product B" (Some 18) (Some 5)
                              (Some 10)]))) []).
  reflexivity.
Defined.

End ScenarioStock.

Section PromotionStock.
Import Scenarios.

Lemma Math_round_negative (x : Q) : (JS.Math_round x < 0)%Z -> x < 0.
Proof.
  intros Hneg. destruct (Qlt_le_dec x 0) as [H|H]; [exact H|].
  pose proof (Math_round_nonneg x H). lia.
Qed.

Lemma promo_stock_counted (lift duration : Q) (product : Product) :
  (stock_after_promo (promo_stock lift duration product) <? 0)%Z = true ->
  JS.lt (or_default (current_stock product) 0)
        (or_default (daily_demand product) 10 * lift * duration) = true.
Proof.
  unfold promo_stock. cbn [stock_after_promo]. intros Hneg.
  apply Z.ltb_lt, Math_round_negative in Hneg. apply lt_spec. lra.
Qed.

Lemma filter_length_impl {T : Type} (f g : T -> bool) (l : list T) :
  (forall x, f x = true -> g x = true) ->
  (length (List.filter f l) <= length (List.filter g l))%nat.
Proof.
  intros Hfg. induction l as [|x l IH]; cbn; [lia|].
  destruct (f x) eqn:Hf.
  - rewrite (Hfg x Hf). cbn. lia.
  - destruct (g x); cbn; lia.
Qed.

(** X13. In the promotion scenario a product is told to order exactly when
    the demand during the promotion ([dailyDemand * lift * duration], with
    daily demand 10 and stock 0 standing in for absent or zero fields)
    exceeds its stock.  The summary's [productsNeedingReorder] tests the
    rounded [stock_after_promo] instead, so it counts only products that
    are told to order and may miss some: a product short by less than half
    a unit is told to order 0 units and is not counted. *)
Theorem promotion_reorder_count (lift duration : Q) (products : list Product) :
  (forall product,
     (exists units,
        ps_recommendation (promo_stock lift duration product) = OrderUnits units)
     <-> or_default (current_stock product) 0
         < or_default (daily_demand product) 10 * lift * duration) /\
  (forall product,
     (stock_after_promo (promo_stock lift duration product) < 0)%Z ->
     exists units,
       ps_recommendation (promo_stock lift duration product) = OrderUnits units) /\
  (forall forecast stockNeeded summary,
     post_promotion (mkPromoBody (Some forecast) (Some lift) (Some duration)
                                 (Some products))
     = PromoJson (promotionImpact forecast lift duration) stockNeeded summary ->
     stockNeeded = Some (map (promo_stock lift duration) products) /\
     (productsNeedingReorder summary
      <= length (List.filter
                   (fun p => JS.lt (or_default (current_stock p) 0)
                               (or_default (daily_demand p) 10 * lift * duration))
                   products))%nat /\
     (productsNeedingReorder summary <= length products)%nat) /\
  (let short := mkProduct "P001" "Product A" (Some 10) (Some (103 # 10)) None in
   ps_recommendation (promo_stock 1 1 short) = OrderUnits 0 /\
   stock_after_promo (promo_stock 1 1 short) = 0%Z).
Proof.
  assert (forall product,
            (exists units,
               ps_recommendation (promo_stock lift duration product)
               = OrderUnits units)
            <-> or_default (current_stock product) 0
                < or_default (daily_demand product) 10 * lift * duration)
    as Horder.
  { intros product. unfold promo_stock. cbn [ps_recommendation].
    destruct (JS.lt _ 0) eqn:Hlt.
    - apply lt_spec in Hlt. split; [intros _; lra | intros _; eexists; reflexivity].
    - apply lt_false in Hlt. split; [intros [? H]; discriminate H | lra]. }
  split; [exact Horder|]. split; [|split].
  - intros product Hneg. apply Horder, lt_spec, promo_stock_counted.
    now apply Z.ltb_lt.
  - intros forecast stockNeeded summary Hpost.
    unfold post_promotion in Hpost. cbn in Hpost.
    injection Hpost as <- <-. split; [reflexivity|].
    cbn [productsNeedingReorder]. rewrite filter_map_length. split.
    + apply filter_length_impl. intros p. apply promo_stock_counted.
    + apply filter_length_le.
  - cbv zeta. split; reflexivity.
Qed.

Lemma promotion_reorder_count_witness :
  exists units,
    ps_recommendation
      (promo_stock 2 3 (mkProduct "P002" "Product B" (Some 18) (Some 5) None))
    = OrderUnits units.
Proof.
  apply (proj1 (promotion_reorder_count 2 3 [])
               (mkProduct "P002" "Product B" (Some 18) (Some 5) None)).
  reflexivity.
Defined.

End PromotionStock.

(** ** The impact helpers on the known scenario types *)
Section ImpactHelpers.
Import Scenarios.

Variable forecast : option (list ForecastPoint).
Variable products : option nat.

(** X14. [calculateScenarioImpact] throws exactly when the type is
    [demand_shock] or [promotion] and the scenario has no [parameters].
    Every other type, [supply_disruption] and [custom] included, gets
    multiplier 1: zero impact, zero change, [low].  With parameters, a
    demand shock or promotion reports
    [percentageChange = Math.round((m - 1) * 100)] for the given
    multiplier [m], an absent or zero multiplier counting as 1.5 for a
    demand shock (50, [medium]) and as 2 for a promotion (100, [high]);
    the severity is [high] above 1.5, [medium] above 1.2 and [low]
    otherwise. *)
Theorem calculateScenarioImpact_by_type (scenario : Scenario) :
  (calculateScenarioImpact forecast scenario products = TypeError <->
   (type scenario = "demand_shock"%string \/ type scenario = "promotion"%string)
   /\ parameters scenario = None) /\
  (type scenario <> "demand_shock"%string ->
   type scenario <> "promotion"%string ->
   exists impact,
     calculateScenarioImpact forecast scenario products = Returned impact /\
     totalDemandImpact impact = 0%Z /\ percentageChange impact = 0%Z /\
     severity impact = low) /\
  (forall p fallback,
     (type scenario = "demand_shock"%string /\ fallback = 15 # 10 \/
      type scenario = "promotion"%string /\ fallback = 2) ->
     parameters scenario = Some p ->
     let m := or_default (multiplier p) fallback in
     exists impact,
       calculateScenarioImpact forecast scenario products = Returned impact /\
       percentageChange impact = JS.Math_round ((m - 1) * 100) /\
       (severity impact = high <-> 15 # 10 < m) /\
       (severity impact = medium <-> 12 # 10 < m /\ m <= 15 # 10) /\
       (severity impact = low <-> m <= 12 # 10) /\
       (multiplier p = None \/ multiplier p = Some 0 ->
        percentageChange impact
        = (if String.eqb (type scenario) "demand_shock" then 50 else 100)%Z /\
        severity impact
        = (if String.eqb (type scenario) "demand_shock" then medium else high))).
Proof.
  unfold calculateScenarioImpact, read_multiplier.
  split; [|split].
  - destruct (String.eqb_spec (type scenario) "demand_shock") as [Hs|Hs];
      [|destruct (String.eqb_spec (type scenario) "promotion") as [Hp|Hp]].
    + destruct (parameters scenario); split; intros H;
        try discriminate H; try reflexivity; [destruct H as [_ H]; discriminate H | tauto].
    + destruct (parameters scenario); split; intros H;
        try discriminate H; try reflexivity; [destruct H as [_ H]; discriminate H | tauto].
    + split; [discriminate | intros [[H|H] _]; contradiction].
  - intros Hs Hp. apply String.eqb_neq in Hs, Hp. rewrite Hs, Hp.
    eexists. split; [reflexivity|].
    cbn [totalDemandImpact percentageChange severity].
    split; [apply Math_round_zero; ring | split; reflexivity].
  - intros p fallback Htype Hparams. cbv zeta. rewrite Hparams.
    assert ((if String.eqb (type scenario) "demand_shock"
             then Returned (or_default (multiplier p) (15 # 10))
             else if String.eqb (type scenario) "promotion"
                  then Returned (or_default (multiplier p) 2)
                  else Returned 1)
            = Returned (or_default (multiplier p) fallback)) as ->.
    { destruct Htype as [[-> ->] | [-> ->]]; reflexivity. }
    eexists. split; [reflexivity|]. cbn [percentageChange severity].
    split; [reflexivity|].
    set (m := or_default (multiplier p) fallback).
    assert (multiplier p = None \/ multiplier p = Some 0 -> m = fallback) as Hdef
      by (intros [H|H]; unfold m; rewrite H; reflexivity).
    destruct (JS.lt (15 # 10) m) eqn:H15;
      [apply lt_spec in H15 | apply lt_false in H15].
    + split; [tauto|]. split; [split; [discriminate | lra]|].
      split; [split; [discriminate | lra]|].
      intros Hm. rewrite (Hdef Hm) in H15 |- *.
      destruct Htype as [[-> ->] | [-> ->]]; [discriminate H15 | split; reflexivity].
    + destruct (JS.lt (12 # 10) m) eqn:H12;
        [apply lt_spec in H12 | apply lt_false in H12].
      * split; [split; [discriminate | lra]|]. split; [tauto|].
        split; [split; [discriminate | lra]|].
        intros Hm. rewrite (Hdef Hm) in H15, H12 |- *.
        destruct Htype as [[-> ->] | [-> ->]];
          [split; reflexivity | exfalso; apply H15; reflexivity].
      * split; [split; [discriminate | lra]|].
        split; [split; [discriminate | lra]|]. split; [tauto|].
        intros Hm. rewrite (Hdef Hm) in H12.
        destruct Htype as [[_ ->] | [_ ->]]; exfalso; apply H12; reflexivity.
Qed.

(** X15. [calculateRiskLevel] answers [high] for every supply disruption
    and [medium] for every promotion without reading the parameters; for a
    demand shock it throws when [parameters] is missing and otherwise
    answers [high] exactly when a multiplier is given and exceeds 2 (no
    default is applied here); every other type is [low]. *)
Theorem calculateRiskLevel_by_type (scenario : Scenario) :
  (type scenario = "supply_disruption"%string ->
   calculateRiskLevel scenario = Returned high) /\
  (type scenario = "promotion"%string ->
   calculateRiskLevel scenario = Returned medium) /\
  (type scenario = "demand_shock"%string ->
   (calculateRiskLevel scenario = TypeError <-> parameters scenario = None) /\
   (calculateRiskLevel scenario = Returned high <->
    exists p m, parameters scenario = Some p /\ multiplier p = Some m /\ 2 < m) /\
   (calculateRiskLevel scenario = TypeError \/
    calculateRiskLevel scenario = Returned high \/
    calculateRiskLevel scenario = Returned low)) /\
  (type scenario <> "supply_disruption"%string ->
   type scenario <> "demand_shock"%string ->
   type scenario <> "promotion"%string ->
   calculateRiskLevel scenario = Returned low).
Proof.
  unfold calculateRiskLevel. split; [|split; [|split]].
  - intros ->. reflexivity.
  - intros ->. reflexivity.
  - intros ->. cbn [String.eqb Ascii.eqb Bool.eqb].
    destruct (parameters scenario) as [p|] eqn:Hpar.
    + destruct (multiplier p) as [m|] eqn:Hmul.
      * destruct (JS.lt 2 m) eqn:Hm;
          [apply lt_spec in Hm | apply lt_false in Hm].
        -- split; [split; discriminate|]. split; [|tauto].
           split; [intros _; exists p, m; repeat split; assumption | reflexivity].
        -- split; [split; discriminate|]. split; [|tauto].
           split; [discriminate|].
           intros (p' & m' & [= <-] & Hm' & Hgt).
           rewrite Hmul in Hm'. injection Hm' as <-. lra.
      * split; [split; discriminate|]. split; [|tauto].
        split; [discriminate|]. intros (p' & m' & [= <-] & Hnone & _).
        rewrite Hmul in Hnone. discriminate Hnone.
    + split; [tauto|]. split; [|tauto].
      split; [discriminate|]. intros (p' & _ & Hp & _). discriminate Hp.
  - intros Hsupply Hshock Hpromo. apply String.eqb_neq in Hsupply, Hshock, Hpromo.
    now rewrite Hsupply, Hshock, Hpromo.
Qed.

End ImpactHelpers.

Lemma calculateScenarioImpact_by_type_witness :
  exists impact,
    Scenarios.calculateScenarioImpact
      (Some [mkPoint "2024-01-01" 100 120 80 None None])
      (Scenarios.mkScenario "supply_disruption" None) None
    = Scenarios.Returned impact /\
    Scenarios.totalDemandImpact impact = 0%Z /\
    Scenarios.percentageChange impact = 0%Z /\
    Scenarios.severity impact = Scenarios.low.
Proof.
  apply (proj1 (proj2 (calculateScenarioImpact_by_type
                         (Some [mkPoint "2024-01-01" 100 120 80 None None]) None
                         (Scenarios.mkScenario "supply_disruption" None))));
    cbn; discriminate.
Defined.

Lemma calculateRiskLevel_by_type_witness :
  Scenarios.calculateRiskLevel (Scenarios.mkScenario "supply_disruption" None)
  = Scenarios.Returned Scenarios.high.
Proof.
  apply (proj1 (calculateRiskLevel_by_type
                  (Scenarios.mkScenario "supply_disruption" None))).
  reflexivity.
Defined.

(** ** Which objects the perturbed forecast shares with the base *)
Section SharedPoints.
Import ScenarioHeap.

Let callback (g : ForecastPoint -> ForecastPoint) (duration : Q)
    (index : nat) (item : loc) (h : gmap loc object)
    : option (loc * gmap loc object) :=
  if Scenarios.index_lt index duration then
    match h !! item with
    | Some (Point p) => Some (alloc h (Point (g p)))
    | _ => None
    end
  else Some (item, h).

Lemma map_from_refs (g : ForecastPoint -> ForecastPoint) (duration : Q)
    (elems : list loc) :
  forall (index : nat) (h : gmap loc object) (out : list loc)
         (h' : gmap loc object),
    map_from (callback g duration) index elems h = Some (out, h') ->
    h ⊆ h' /\
    length out = length elems /\
    forall i l, elems !! i = Some l ->
      (Scenarios.index_lt (index + i) duration = false -> out !! i = Some l) /\
      (Scenarios.index_lt (index + i) duration = true ->
       exists l', out !! i = Some l' /\ h !! l' = None).
Proof.
  induction elems as [|item elems IH]; intros index h out h' Hrun.
  - injection Hrun as <- <-. split; [reflexivity|]. split; [reflexivity|].
    intros i l Hi. discriminate Hi.
  - cbn [map_from] in Hrun.
    destruct (callback g duration index item h) as [[r h1]|] eqn:Hcall;
      [|discriminate Hrun].
    destruct (map_from (callback g duration) (S index) elems h1)
      as [[rs h2]|] eqn:Hrest; [|discriminate Hrun].
    injection Hrun as <- <-.
    destruct (IH _ _ _ _ Hrest) as (Hsub & Hlen & Hrefs).
    assert (h ⊆ h1 /\
            (Scenarios.index_lt index duration = false -> r = item) /\
            (Scenarios.index_lt index duration = true -> h !! r = None))
      as (Hsub1 & Hsame & Hnew).
    { unfold callback in Hcall.
      destruct (Scenarios.index_lt index duration).
      - destruct (h !! item) as [[p|?]|]; try discriminate Hcall.
        unfold alloc in Hcall. injection Hcall as <- <-.
        split; [apply (alloc_extends h (Point (g p)))|]. split; [discriminate|].
        intros _. apply (alloc_fresh h (Point (g p))).
      - injection Hcall as <- <-. split; [reflexivity|].
        split; [reflexivity | discriminate]. }
    split; [etrans; eassumption|]. split; [cbn; now rewrite Hlen|].
    intros [|i] l Hi.
    + cbn in Hi. injection Hi as <-. rewrite Nat.add_0_r. cbn. split.
      * intros Hout. now rewrite (Hsame Hout).
      * intros Hin. exists r. split; [reflexivity | now apply Hnew].
    + cbn in Hi. rewrite Nat.add_succ_r. cbn [lookup list_lookup].
      destruct (Hrefs i l Hi) as [Hkeep Hcopy]. split; [exact Hkeep|].
      intros Hin. destruct (Hcopy Hin) as (l' & Hout & Hfresh).
      exists l'. split; [exact Hout|].
      eapply lookup_weaken_None; eassumption.
Qed.

Lemma Array_map_refs (g : ForecastPoint -> ForecastPoint) (duration : Q)
    (h : gmap loc object) (a : loc) (elems : list loc)
    (a' : loc) (h' : gmap loc object) :
  h !! a = Some (Array elems) ->
  Array_map (callback g duration) a h = Some (a', h') ->
  exists out,
    h' !! a' = Some (Array out) /\
    length out = length elems /\
    forall i l, elems !! i = Some l ->
      (Scenarios.index_lt i duration = false -> out !! i = Some l) /\
      (Scenarios.index_lt i duration = true ->
       exists l', out !! i = Some l' /\ h !! l' = None).
Proof.
  intros Ha Hrun. unfold Array_map in Hrun. rewrite Ha in Hrun.
  destruct (map_from (callback g duration) 0 elems h) as [[out h1]|] eqn:Hloop;
    [|discriminate Hrun].
  injection Hrun as <- <-. exists out.
  split; [apply alloc_lookup|].
  destruct (map_from_refs _ _ _ _ _ _ _ Hloop) as (_ & Hlen & Hrefs).
  split; [exact Hlen | exact Hrefs].
Qed.

(** X16. The array a scenario returns shares objects with the base
    forecast: at every index that is not below [duration] the new array
    holds the very reference the base array holds (the callback returns
    [item] itself), while at every index below [duration] it holds an
    object that did not exist before the call.  So only the first
    [duration] points are copies. *)
Theorem scenario_shares_untouched_points
    (h : gmap loc object) (forecast : loc) (elems : list loc)
    (multiplier duration : Q) (impacted : loc) (h' : gmap loc object) :
  h !! forecast = Some (Array elems) ->
  impactedForecast forecast multiplier duration h = Some (impacted, h')
  \/ promotionImpact forecast multiplier duration h = Some (impacted, h') ->
  exists out,
    h' !! impacted = Some (Array out) /\
    length out = length elems /\
    forall i l, elems !! i = Some l ->
      (Scenarios.index_lt i duration = false -> out !! i = Some l) /\
      (Scenarios.index_lt i duration = true ->
       exists l', out !! i = Some l' /\ h !! l' = None).
Proof.
  intros Ha [Hrun | Hrun].
  - exact (Array_map_refs (Scenarios.shocked multiplier) duration
             h forecast elems impacted h' Ha Hrun).
  - exact (Array_map_refs (Scenarios.promoted multiplier) duration
             h forecast elems impacted h' Ha Hrun).
Qed.

End SharedPoints.

Lemma scenario_shares_untouched_points_witness :
  let p1 := mkPoint "2024-01-01" 100 120 80 None None in
  let p2 := mkPoint "2024-01-02" 100 125 85 None None in
  let h : gmap ScenarioHeap.loc ScenarioHeap.object :=
    <[3%positive := ScenarioHeap.Array [1%positive; 2%positive]]>
      (<[2%positive := ScenarioHeap.Point p2]>
         (<[1%positive := ScenarioHeap.Point p1]> ∅)) in
  exists impacted h' out,
    ScenarioHeap.impactedForecast 3%positive (15 # 10) 1 h = Some (impacted, h') /\
    h' !! impacted = Some (ScenarioHeap.Array out) /\
    out !! 1%nat = Some 2%positive.
Proof.
  intros p1 p2 h.
  destruct (ScenarioHeap.impactedForecast 3%positive (15 # 10) 1 h)
    as [[impacted h']|] eqn:Hrun; [|vm_compute in Hrun; discriminate Hrun].
  destruct (scenario_shares_untouched_points h 3%positive
              [1%positive; 2%positive] (15 # 10) 1 impacted h' eq_refl
              (or_introl Hrun)) as (out & Hout & _ & Hrefs).
  exists impacted, h', out. split; [reflexivity|]. split; [exact Hout|].
  apply (Hrefs 1%nat 2%positive eq_refl). reflexivity.
Defined.

(** ** Sums over an index range *)
Section IndexSums.

Local Abbreviation sum_to f n :=
  (fold_left (fun acc i => acc + f i) (seq 0 n) 0).

Lemma sum_to_S (f : nat -> Q) (n : nat) : sum_to f (S n) = sum_to f n + f n.
Proof. rewrite seq_S, fold_left_app. reflexivity. Qed.

Lemma sum_to_le (f g : nat -> Q) (n : nat) :
  (forall i, (i < n)%nat -> f i <= g i) -> sum_to f n <= sum_to g n.
Proof.
  induction n as [|n IH]; intros Hfg; [apply Qle_refl|].
  rewrite !sum_to_S. apply Qplus_le_compat; [apply IH; intros; apply Hfg|apply Hfg]; lia.
Qed.

Lemma sum_to_nonneg (f : nat -> Q) (n : nat) :
  (forall i, 0 <= f i) -> 0 <= sum_to f n.
Proof.
  intros Hf. induction n as [|n IH]; [apply Qle_refl|].
  rewrite sum_to_S. pose proof (Hf n). lra.
Qed.

Lemma sum_to_zero (f : nat -> Q) (n : nat) :
  (forall i, f i == 0) -> sum_to f n == 0.
Proof.
  intros Hf. induction n as [|n IH]; [reflexivity|].
  rewrite sum_to_S, IH, (Hf n). ring.
Qed.

Lemma sum_to_abs (f : nat -> Q) (n : nat) :
  Qabs (sum_to f n) <= sum_to (fun i => Qabs (f i)) n.
Proof.
  induction n as [|n IH]; [cbn; discriminate|].
  rewrite !sum_to_S.
  eapply Qle_trans; [apply Qabs_triangle|].
  apply Qplus_le_compat; [exact IH | apply Qle_refl].
Qed.

Lemma sum_to_plus (f g : nat -> Q) (n : nat) :
  sum_to (fun i => f i + g i) n == sum_to f n + sum_to g n.
Proof.
  induction n as [|n IH]; [reflexivity|].
  rewrite !sum_to_S, IH. ring.
Qed.

Lemma sum_to_prefix (f : nat -> Q) (m n : nat) :
  (forall i, 0 <= f i) -> (m <= n)%nat -> sum_to f m <= sum_to f n.
Proof.
  intros Hf. induction 1 as [|n _ IH]; [apply Qle_refl|].
  rewrite sum_to_S. pose proof (Hf n). lra.
Qed.

Lemma sum_to_shift (f : nat -> Q) (k m : nat) :
  (forall i, 0 <= f i) ->
  sum_to (fun i => f (i + k)%nat) m <= sum_to f (m + k).
Proof.
  intros Hf. induction m as [|m IH].
  - cbn [Nat.add]. now apply sum_to_nonneg.
  - cbn [Nat.add]. rewrite !sum_to_S. lra.
Qed.

End IndexSums.

(** ** Autocorrelation *)
Section Autocorrelation.
Import SeasonalityUtils.

Lemma Qsquare_nonneg (x : Q) : 0 <= x ^ 2.
Proof. change (x ^ 2) with (x * x). nra. Qed.

(** The lagged products never outweigh the squares, whatever the centre
    [mean] is. *)
Lemma lagged_products_bounded (a : nat -> Q) (lag n : nat) :
  (lag <= n)%nat ->
  Qabs (fold_left (fun acc i => acc + a i * a (i + lag)%nat)
                  (seq 0 (n - lag)) 0)
  <= fold_left (fun acc i => acc + a i ^ 2) (seq 0 n) 0.
Proof.
  intros Hlag.
  set (sq := fun i => a i ^ 2).
  assert (forall i, 0 <= sq i) as Hsq
    by (intros i; apply Qsquare_nonneg).
  eapply Qle_trans; [apply (sum_to_abs (fun i => a i * a (i + lag)%nat))|].
  eapply Qle_trans.
  { apply (sum_to_le _ (fun i => (1 # 2) * sq i + (1 # 2) * sq (i + lag)%nat)).
    intros i _. unfold sq.
    change (a i ^ 2) with (a i * a i).
    change (a (i + lag)%nat ^ 2) with (a (i + lag)%nat * a (i + lag)%nat).
    set (x := a i). set (y := a (i + lag)%nat).
    pose proof (Qsquare_nonneg (x - y)) as Hminus.
    pose proof (Qsquare_nonneg (x + y)) as Hplus.
    change ((x - y) ^ 2) with ((x - y) * (x - y)) in Hminus.
    change ((x + y) ^ 2) with ((x + y) * (x + y)) in Hplus.
    apply Qabs_Qle_condition. split; lra. }
  rewrite (sum_to_plus (fun i => (1 # 2) * sq i)
                       (fun i => (1 # 2) * sq (i + lag)%nat)).
  pose proof (sum_to_le (fun i => (1 # 2) * sq i) (fun i => sq i) (n - lag)) as H1.
  pose proof (sum_to_prefix sq (n - lag) n Hsq ltac:(lia)) as H2.
  pose proof (sum_to_shift (fun i => (1 # 2) * sq i) lag (n - lag)) as H3.
  replace (n - lag + lag)%nat with n in H3 by lia.
  assert (fold_left (fun acc i => acc + (1 # 2) * sq i) (seq 0 n) 0
          == (1 # 2) * fold_left (fun acc i => acc + sq i) (seq 0 n) 0) as Hhalf.
  { clear. induction n as [|n IH]; [reflexivity|].
    rewrite !sum_to_S, IH. ring. }
  assert (fold_left (fun acc i => acc + (1 # 2) * sq i) (seq 0 (n - lag)) 0
          <= (1 # 2) * fold_left (fun acc i => acc + sq i) (seq 0 n) 0) as Hleft.
  { rewrite <- Hhalf. apply sum_to_prefix; [|lia].
    intros i. pose proof (Hsq i). lra. }
  assert (forall i, 0 <= (1 # 2) * sq i) as Hhalfpos
    by (intros i; pose proof (Hsq i); lra).
  specialize (H3 Hhalfpos). rewrite Hhalf in H3. clear H1 H2.
  change (fold_left (fun acc i => acc + a i ^ 2) (seq 0 n) 0)
    with (fold_left (fun acc i => acc + sq i) (seq 0 n) 0).
  set (total := fold_left (fun acc i => acc + sq i) (seq 0 n) 0) in *.
  lra.
Qed.

Lemma checkPeriodicity_bounds (values : list Q) (lag : nat) :
  0 <= checkPeriodicity values lag /\ checkPeriodicity values lag <= 1.
Proof.
  unfold checkPeriodicity.
  destruct (length values <=? lag)%nat eqn:Hshort; [split; discriminate|].
  apply Nat.leb_gt in Hshort.
  set (mean := JS.reduce_sum (fun v => v) values / _).
  set (a := fun i => nth i values 0 - mean).
  pose proof (lagged_products_bounded a lag (length values) ltac:(lia)) as Hbound.
  unfold a in Hbound.
  set (numerator := fold_left _ (seq 0 (length values - lag)) 0) in *.
  set (denominator := fold_left _ (seq 0 (length values)) 0) in *.
  destruct (Qeq_bool denominator 0) eqn:Hzero; [split; discriminate|].
  split; [apply Qabs_nonneg|].
  assert (0 < denominator) as Hpos.
  { assert (0 <= denominator).
    { unfold denominator. apply (sum_to_nonneg (fun i => (nth i values 0 - mean) ^ 2)).
      intros i. apply Qsquare_nonneg. }
    assert (~ denominator == 0)
      by (intros H0; apply Qeq_bool_iff in H0; congruence).
    lra. }
  apply Qabs_Qle_condition in Hbound as [Hlo Hhi].
  apply Qabs_Qle_condition. split.
  - apply Qle_shift_div_l; [exact Hpos|]. lra.
  - apply Qle_shift_div_r; [exact Hpos|]. lra.
Qed.

End Autocorrelation.

Section SeasonalityShape.
Import SeasonalityUtils.

Lemma sum_to_zero_below (f : nat -> Q) (n : nat) :
  (forall i, (i < n)%nat -> f i == 0) ->
  fold_left (fun acc i => acc + f i) (seq 0 n) 0 == 0.
Proof.
  induction n as [|n IH]; intros Hf; [reflexivity|].
  rewrite sum_to_S. rewrite IH by (intros; apply Hf; lia).
  rewrite (Hf n) by lia. ring.
Qed.

Lemma reduce_sum_constant (c : Q) (values : list Q) :
  Forall (fun v => v == c) values ->
  JS.reduce_sum (fun v => v) values == c * inject_Z (Z.of_nat (length values)).
Proof.
  unfold JS.reduce_sum. induction 1 as [|v values Hv _ IH].
  - cbn. ring.
  - cbn [fold_left length]. rewrite (run_acc (fun v => v) (0 + v) values), IH, Hv.
    rewrite Nat2Z.inj_succ, <- Z.add_1_r, inject_Z_plus.
    change (inject_Z 1) with 1. ring.
Qed.

Lemma checkPeriodicity_flat (values : list Q) (lag : nat) (c : Q) :
  Forall (fun v => v == c) values -> checkPeriodicity values lag = 0.
Proof.
  intros Hconst. unfold checkPeriodicity.
  destruct (length values <=? lag)%nat eqn:Hshort; [reflexivity|].
  apply Nat.leb_gt in Hshort.
  set (mean := JS.reduce_sum (fun v => v) values / _).
  assert (mean == c) as Hmean.
  { unfold mean. rewrite (reduce_sum_constant c values Hconst). field.
    intros Hz. unfold Qeq in Hz. cbn in Hz. lia. }
  assert (fold_left (fun acc i => acc + (nth i values 0 - mean) ^ 2)
                    (seq 0 (length values)) 0 == 0) as Hden.
  { apply (sum_to_zero_below (fun i => (nth i values 0 - mean) ^ 2)).
    intros i Hi. rewrite List.Forall_forall in Hconst.
    assert (nth i values 0 == c) as Hv by (apply Hconst, nth_In; exact Hi).
    change ((nth i values 0 - mean) ^ 2)
      with ((nth i values 0 - mean) * (nth i values 0 - mean)).
    rewrite Hv, Hmean. ring. }
  now rewrite (proj2 (Qeq_bool_iff _ _) Hden).
Qed.

(** X17. The strength [checkPeriodicity] reports is always between 0 and
    1, for every series and every lag; and it is 0 for a series that
    repeats one whole number, where every deviation from the mean is 0 and
    the function takes its [denominator === 0] exit. *)
Theorem checkPeriodicity_unit_interval (values : list Q) (lag : nat) :
  (0 <= checkPeriodicity values lag /\ checkPeriodicity values lag <= 1) /\
  (forall units : Z, Forall (fun v => v == inject_Z units) values ->
                     checkPeriodicity values lag = 0).
Proof.
  split.
  - apply checkPeriodicity_bounds.
  - intros units Hconst.
    now apply (checkPeriodicity_flat values lag (inject_Z units)).
Qed.

Lemma checkPeriodicity_unit_interval_witness :
  checkPeriodicity (replicate 40 12) 7 = 0.
Proof.
  apply (proj2 (checkPeriodicity_unit_interval (replicate 40 12) 7) 12%Z).
  apply Forall_forall. intros v Hv.
  apply elem_of_replicate in Hv as [-> _]. reflexivity.
Defined.

Lemma round2_Q_mono (x y : Q) : x <= y -> JS.round2 x <= JS.round2 y.
Proof.
  intros Hxy. unfold JS.round2.
  apply Qmult_le_compat_r; [|discriminate].
  rewrite <- Zle_Qle. apply Math_round_mono. lra.
Qed.

(** X18. [detectSeasonality] on fewer than 30 rows answers "insufficient
    data" whatever the rows hold.  On 30 rows or more it answers with a
    pattern, and the answer is coherent: [detected] is true exactly when
    there is a pattern, the day-of-week profile is present exactly when the
    pattern is weekly, the reported strength is between 0 and 1, is 0
    without a pattern, at least 0.3 for a weekly and at least 0.2 for a
    monthly pattern. *)
Theorem detectSeasonality_coherent (data : list SalesRecord) :
  ((length data < 30)%nat ->
   detectSeasonality data
   = Insufficient "Insufficient data (need at least 30 points)") /\
  ((30 <= length data)%nat ->
   exists detected pattern strength dayOfWeekPattern recommendation,
     detectSeasonality data
     = Analysed detected pattern strength dayOfWeekPattern recommendation /\
     (detected = true <-> pattern <> None) /\
     (is_Some dayOfWeekPattern <-> pattern = Some weekly) /\
     0 <= strength /\ strength <= 1 /\
     (pattern = None -> strength == 0) /\
     (pattern = Some weekly -> 3 # 10 <= strength) /\
     (pattern = Some monthly -> 2 # 10 <= strength)).
Proof.
  unfold detectSeasonality. split.
  - intros Hshort. now rewrite (proj2 (Nat.ltb_lt _ _) Hshort).
  - intros Hlong. rewrite (proj2 (Nat.ltb_ge _ _) Hlong).
    set (values := map value_of _).
    pose proof (checkPeriodicity_bounds values 7) as [Hw0 Hw1].
    pose proof (checkPeriodicity_bounds values 30) as [Hm0 Hm1].
    assert (forall s, 0 <= s -> s <= 1 -> 0 <= JS.round2 s /\ JS.round2 s <= 1)
      as Hround.
    { intros s Hs0 Hs1. split.
      - apply Qle_trans with (JS.round2 0);
          [apply Qle_bool_imp_le; reflexivity | now apply round2_Q_mono].
      - apply Qle_trans with (JS.round2 1);
          [now apply round2_Q_mono | apply Qle_bool_imp_le; reflexivity]. }
    destruct (JS.lt (3 # 10) (checkPeriodicity values 7)) eqn:Hweekly.
    + apply lt_spec in Hweekly. do 5 eexists. split; [reflexivity|].
      split; [split; [discriminate | reflexivity]|].
      split; [split; [reflexivity | intros _; eexists; reflexivity]|].
      destruct (Hround _ Hw0 Hw1) as [H0 H1].
      split; [exact H0|]. split; [exact H1|].
      split; [discriminate|]. split; [|discriminate].
      intros _. apply Qle_trans with (JS.round2 (3 # 10));
        [apply Qle_bool_imp_le; reflexivity | apply round2_Q_mono; lra].
    + destruct (JS.lt (2 # 10) (checkPeriodicity values 30)) eqn:Hmonthly.
      * apply lt_spec in Hmonthly. do 5 eexists. split; [reflexivity|].
        split; [split; [discriminate | reflexivity]|].
        split; [split; [intros [? H]; discriminate H | discriminate]|].
        destruct (Hround _ Hm0 Hm1) as [H0 H1].
        split; [exact H0|]. split; [exact H1|].
        split; [discriminate|]. split; [discriminate|].
        intros _. apply Qle_trans with (JS.round2 (2 # 10));
          [apply Qle_bool_imp_le; reflexivity | apply round2_Q_mono; lra].
      * do 5 eexists. split; [reflexivity|].
        split; [split; [discriminate | intros H; now contradiction H]|].
        split; [split; [intros [? H]; discriminate H | discriminate]|].
        split; [discriminate|]. split; [discriminate|].
        split; [reflexivity|]. split; discriminate.
Qed.

End SeasonalityShape.

Lemma detectSeasonality_coherent_witness :
  SeasonalityUtils.detectSeasonality (firstn 10 spike_series)
  = SeasonalityUtils.Insufficient "Insufficient data (need at least 30 points)".
Proof.
  apply (detectSeasonality_coherent (firstn 10 spike_series)).
  vm_compute. lia.
Defined.

(** ** The day-of-week profile *)
Section DayOfWeek.
Import SeasonalityUtils.

Lemma getDay_lt_7 (item : SalesRecord) : (getDay item < 7)%nat.
Proof.
  unfold getDay.
  pose proof (Z.mod_pos_bound (date_time item / 86400000 + 4) 7 ltac:(lia)).
  lia.
Qed.

Lemma sums_fold (d : nat) (data : list SalesRecord) :
  forall sums : list Q,
    (d < length sums)%nat ->
    default 0
      (fold_left (fun sums item =>
                    alter (fun s => s + value_of item) (getDay item) sums)
                 data sums !! d)
    == default 0 (sums !! d)
       + JS.reduce_sum value_of
           (List.filter (fun item => (getDay item =? d)%nat) data).
Proof.
  unfold JS.reduce_sum.
  induction data as [|item data IH]; intros sums Hd.
  - cbn. ring.
  - cbn [fold_left List.filter]. rewrite IH by now rewrite length_alter.
    destruct (getDay item =? d)%nat eqn:Hday.
    + apply Nat.eqb_eq in Hday. rewrite Hday, list_lookup_alter_eq.
      destruct (lookup_lt_is_Some_2 sums d Hd) as [s ->].
      cbn [fold_left fmap option_fmap option_map from_option].
      rewrite (run_acc value_of (0 + value_of item)). unfold Datatypes.id. ring.
    + apply Nat.eqb_neq in Hday. now rewrite list_lookup_alter_ne.
Qed.

Lemma counts_fold (d : nat) (data : list SalesRecord) :
  forall counts : list nat,
    (d < length counts)%nat ->
    default 0%nat
      (fold_left (fun counts item => alter S (getDay item) counts)
                 data counts !! d)
    = (default 0%nat (counts !! d)
       + length (List.filter (fun item => (getDay item =? d)%nat) data))%nat.
Proof.
  induction data as [|item data IH]; intros counts Hd.
  - cbn. lia.
  - cbn [fold_left List.filter]. rewrite IH by now rewrite length_alter.
    destruct (getDay item =? d)%nat eqn:Hday.
    + apply Nat.eqb_eq in Hday. rewrite Hday, list_lookup_alter_eq.
      destruct (lookup_lt_is_Some_2 counts d Hd) as [s ->]. cbn. lia.
    + apply Nat.eqb_neq in Hday. now rewrite list_lookup_alter_ne.
Qed.

Lemma StronglySorted_lookup_rel {T : Type} (R : T -> T -> Prop) (l : list T) :
  StronglySorted R l ->
  forall i j x y, (i < j)%nat -> l !! i = Some x -> l !! j = Some y -> R x y.
Proof.
  induction 1 as [|z l Hsorted IH Hall]; intros i j x y Hij Hi Hj;
    [discriminate Hi|].
  destruct j as [|j]; [lia|]. cbn in Hj. destruct i as [|i].
  - cbn in Hi. injection Hi as <-.
    rewrite List.Forall_forall in Hall. apply Hall.
    apply list_elem_of_In. eapply list_elem_of_lookup_2. exact Hj.
  - cbn in Hi. apply (IH i j); [lia | assumption | assumption].
Qed.

(** X19. [calculateDayOfWeekAverages] always returns seven entries, Sunday
    to Saturday with indices 0 to 6.  The average of a weekday is the sum
    of the values of the rows that fall on it divided by their number, and
    0 when no row does.  [peakDay] names an entry with the largest average
    and [lowDay] one with the smallest. *)
Theorem calculateDayOfWeekAverages_profile (data : list SalesRecord) :
  let profile := calculateDayOfWeekAverages data in
  map day (averages profile) = days /\
  map index (averages profile) = seq 0 7 /\
  (forall d entry, averages profile !! d = Some entry ->
     let on_day := List.filter (fun item => (getDay item =? d)%nat) data in
     average entry
     == if (length on_day =? 0)%nat then 0
        else JS.reduce_sum value_of on_day
             / inject_Z (Z.of_nat (length on_day))) /\
  (exists top bottom,
     In top (averages profile) /\ In bottom (averages profile) /\
     peakDay profile = day top /\ lowDay profile = day bottom /\
     forall entry, In entry (averages profile) ->
       average bottom <= average entry /\ average entry <= average top).
Proof.
  cbv zeta. unfold calculateDayOfWeekAverages.
  cbn [averages peakDay lowDay].
  set (sums := fold_left _ data (replicate 7 0)).
  set (counts := fold_left _ data (replicate 7 0%nat)).
  set (entries := imap _ days).
  split; [reflexivity|]. split; [reflexivity|]. split.
  - intros d entry Hentry. unfold entries in Hentry.
    rewrite list_lookup_imap in Hentry.
    destruct (days !! d) as [name|] eqn:Hname; [|discriminate Hentry].
    assert (d < 7)%nat as Hd by (apply lookup_lt_Some in Hname; exact Hname).
    cbn in Hentry. injection Hentry as <-. cbn [average].
    pose proof (counts_fold d data (replicate 7 0%nat)
                  ltac:(rewrite length_replicate; exact Hd)) as Hcount.
    pose proof (sums_fold d data (replicate 7 0)
                  ltac:(rewrite length_replicate; exact Hd)) as Hsum.
    fold sums in Hsum. fold counts in Hcount.
    rewrite (lookup_replicate_2 7 0%nat d Hd) in Hcount.
    rewrite (lookup_replicate_2 7 0 d Hd) in Hsum.
    change (default 0%nat (Some 0%nat)) with 0%nat in Hcount.
    change (default 0 (Some 0)) with 0 in Hsum.
    rewrite Hcount. cbn [Nat.add].
    destruct (length (List.filter _ data)) as [|n] eqn:Hlen; [reflexivity|].
    cbn [Nat.ltb Nat.leb Nat.eqb]. rewrite Hsum. field.
    intros Hz. unfold Qeq in Hz. cbn in Hz. lia.
  - set (sorted := JS.Array_sort (fun a b => average b - average a) entries).
    pose proof (Array_sort_desc average entries) as Hsorted. fold sorted in Hsorted.
    pose proof (Array_sort_Permutation (fun a b => average b - average a) entries)
      as Hperm. fold sorted in Hperm.
    assert (length sorted = 7%nat) as Hlen
      by (unfold sorted; rewrite Array_sort_length; reflexivity).
    destruct (lookup_lt_is_Some_2 sorted 0 ltac:(lia)) as [top Htop].
    destruct (lookup_lt_is_Some_2 sorted 6 ltac:(lia)) as [bottom Hbottom].
    exists top, bottom. rewrite Htop, Hbottom. cbn.
    assert (forall e, In e sorted <-> In e entries) as Hin
      by (intros e; split; apply Permutation_in;
          [exact Hperm | symmetry; exact Hperm]).
    split; [apply Hin, list_elem_of_In; eapply list_elem_of_lookup_2; exact Htop|].
    split; [apply Hin, list_elem_of_In; eapply list_elem_of_lookup_2;
            exact Hbottom|].
    split; [reflexivity|]. split; [reflexivity|].
    intros entry Hentry. apply Hin, list_elem_of_In, list_elem_of_lookup_1 in Hentry
      as [k Hk].
    assert (k < 7)%nat as Hk7 by (rewrite <- Hlen; eapply lookup_lt_Some; exact Hk).
    split.
    + destruct (Nat.eq_dec k 6) as [->|Hne].
      * rewrite Hbottom in Hk. injection Hk as <-. apply Qle_refl.
      * apply (StronglySorted_lookup_rel _ sorted Hsorted k 6 entry bottom);
          [lia | exact Hk | exact Hbottom].
    + destruct (Nat.eq_dec k 0) as [->|Hne].
      * rewrite Htop in Hk. injection Hk as <-. apply Qle_refl.
      * apply (StronglySorted_lookup_rel _ sorted Hsorted 0 k top entry);
          [lia | exact Htop | exact Hk].
Qed.

End DayOfWeek.

Lemma calculateDayOfWeekAverages_profile_witness :
  exists entry,
    SeasonalityUtils.averages
      (SeasonalityUtils.calculateDayOfWeekAverages (firstn 3 spike_series))
    !! 4%nat = Some entry /\
    SeasonalityUtils.average entry == 1.
Proof.
  destruct (SeasonalityUtils.averages
              (SeasonalityUtils.calculateDayOfWeekAverages
                 (firstn 3 spike_series)) !! 4%nat) as [entry|] eqn:Hentry;
    [|vm_compute in Hentry; discriminate Hentry].
  exists entry. split; [reflexivity|].
  rewrite (proj1 (proj2 (proj2 (calculateDayOfWeekAverages_profile
                                  (firstn 3 spike_series)))) 4%nat entry Hentry).
  vm_compute. reflexivity.
Defined.

(** ** Applying the seasonality *)
Section ApplySeasonality.
Import SeasonalityUtils.

Variable weekday : string -> option nat.

Lemma reduce_sum_all_equal {T : Type} (f : T -> Q) (c : Q) (l : list T) :
  Forall (fun x => f x == c) l ->
  JS.reduce_sum f l == c * inject_Z (Z.of_nat (length l)).
Proof.
  unfold JS.reduce_sum. induction 1 as [|x l Hx _ IH].
  - cbn. ring.
  - cbn [fold_left length]. rewrite (run_acc f (0 + f x) l), IH, Hx.
    rewrite Nat2Z.inj_succ, <- Z.add_1_r, inject_Z_plus.
    change (inject_Z 1) with 1. ring.
Qed.

Lemma detectSeasonality_profile_only_weekly (data : list SalesRecord) :
  pattern_of (detectSeasonality data) <> Some weekly ->
  (exists reason, detectSeasonality data = Insufficient reason) \/
  (exists detected pattern strength recommendation,
     detectSeasonality data
     = Analysed detected pattern strength None recommendation).
Proof.
  unfold detectSeasonality.
  destruct (length data <? 30)%nat; [intros _; left; eexists; reflexivity|].
  set (sorted := JS.Array_sort _ data).
  destruct (JS.lt (3 # 10) (checkPeriodicity (map value_of sorted) 7)).
  - intros Hnot. now contradiction Hnot.
  - intros _. right.
    destruct (JS.lt (2 # 10) (checkPeriodicity (map value_of sorted) 30));
      do 4 eexists; reflexivity.
Qed.

Lemma flat_profile_factor (profile : list DayAverage) (c : Q)
    (item : ForecastPoint) (d : nat) :
  0 < c -> length profile = 7%nat ->
  Forall (fun e => average e == c) profile ->
  weekday (date item) = Some d -> (d < 7)%nat ->
  seasonal_factor_of weekday profile item == 1.
Proof.
  intros Hc Hlen Hflat Hday Hd. unfold seasonal_factor_of. rewrite Hday.
  destruct (lookup_lt_is_Some_2 profile d ltac:(lia)) as [e He]. rewrite He.
  cbn [fmap option_fmap option_map].
  assert (average e == c) as Hec.
  { rewrite List.Forall_forall in Hflat. apply Hflat, list_elem_of_In.
    eapply list_elem_of_lookup_2. exact He. }
  assert (JS.reduce_sum average profile / 7 == c) as Havg.
  { rewrite (reduce_sum_all_equal average c profile Hflat), Hlen.
    change (inject_Z (Z.of_nat 7)) with 7. field. }
  assert (JS.lt 0 (JS.reduce_sum average profile / 7) = true) as ->
    by (apply lt_spec; lra).
  assert (JS.truthy (average e) = true) as ->.
  { unfold JS.truthy. apply negb_true_iff.
    destruct (Qeq_bool (average e) 0) eqn:E; [|reflexivity].
    apply Qeq_bool_iff in E. lra. }
  rewrite Havg, Hec. field. lra.
Qed.

(** X20. [applySeasonality] returns the forecast as it is, without a
    [seasonal_factor], unless it is given a detected seasonality that
    carries a day-of-week profile; in particular the answer of
    [detectSeasonality] adjusts a forecast only when the pattern is weekly.
    When it does adjust, it keeps the number, order and dates of the
    points; and with a flat profile (seven equal positive averages) every
    point whose date parses keeps its values and gets factor 1. *)
Theorem applySeasonality_only_weekly (forecast : list ForecastPoint) :
  let unchanged := map (fun item => mkAdjusted item None) forecast in
  (forall seasonality,
     seasonality = None \/
     (exists reason, seasonality = Some (Insufficient reason)) \/
     (exists p s d r, seasonality = Some (Analysed false p s d r)) \/
     (exists b p s r, seasonality = Some (Analysed b p s None r)) ->
     applySeasonality weekday forecast seasonality = unchanged) /\
  (forall data,
     pattern_of (detectSeasonality data) <> Some weekly ->
     applySeasonality weekday forecast (Some (detectSeasonality data))
     = unchanged) /\
  (forall seasonality,
     map (fun a => date (adjusted_point a))
         (applySeasonality weekday forecast seasonality)
     = map date forecast) /\
  (forall profile p s r c,
     0 < c -> length (averages profile) = 7%nat ->
     Forall (fun e => average e == c) (averages profile) ->
     Forall (fun item => exists d, weekday (date item) = Some d /\ (d < 7)%nat)
            forecast ->
     Forall2 (fun item a =>
                predicted (adjusted_point a) == predicted item /\
                upper_bound (adjusted_point a) == upper_bound item /\
                lower_bound (adjusted_point a) == lower_bound item /\
                exists f, seasonal_factor a = Some f /\ f == 1)
             forecast
             (applySeasonality weekday forecast
                (Some (Analysed true p s (Some profile) r)))).
Proof.
  cbv zeta. split; [|split; [|split]].
  - intros seasonality [-> | [[reason ->] | [(p & s & d & r & ->) | (b & p & s & r & ->)]]];
      try reflexivity. now destruct b.
  - intros data Hnot.
    destruct (detectSeasonality_profile_only_weekly data Hnot)
      as [[reason ->] | (b & p & s & r & ->)]; [reflexivity | now destruct b].
  - intros seasonality. unfold applySeasonality.
    destruct seasonality as [[reason | [] p s [profile|] r]|];
      rewrite map_map; reflexivity.
  - intros profile p s r c Hc Hlen Hflat Hdays. unfold applySeasonality.
    induction Hdays as [|item rest (d & Hday & Hd) _ IH]; cbn [map];
      constructor; [|exact IH].
    pose proof (flat_profile_factor (averages profile) c item d
                  Hc Hlen Hflat Hday Hd) as Hone.
    cbn [adjusted_point predicted upper_bound lower_bound seasonal_factor].
    rewrite Hone. repeat split; try ring.
    eexists. split; [reflexivity|].
    unfold JS.round2. rewrite (Math_round_eq _ (1 * 100)) by (now rewrite Hone).
    reflexivity.
Qed.

End ApplySeasonality.

Lemma applySeasonality_only_weekly_witness :
  SeasonalityUtils.applySeasonality (fun _ => Some 0%nat)
    [mkPoint "2024-01-07" 100 120 80 None None]
    (Some (SeasonalityUtils.detectSeasonality spike_series))
  = [SeasonalityUtils.mkAdjusted (mkPoint "2024-01-07" 100 120 80 None None) None].
Proof.
  apply (proj1 (proj2 (applySeasonality_only_weekly (fun _ => Some 0%nat)
                         [mkPoint "2024-01-07" 100 120 80 None None]))).
  vm_compute. discriminate.
Defined.

(** ** The stockout-risk endpoint *)
Section StockoutRisk.
Import InventoryRoutes.

Variable forecast : option (list ProductForecast).

Lemma risk_levels_partition (risks : list Risk) :
  (length (List.filter (level_is Scenarios.high) risks)
   + length (List.filter (level_is Scenarios.medium) risks)
   + length (List.filter (level_is Scenarios.low) risks)
   = length risks)%nat.
Proof.
  assert (forall f (r : Risk) rs,
            length (List.filter f (r :: rs))
            = ((if f r then 1 else 0) + length (List.filter f rs))%nat) as Hcons
    by (intros f r rs; cbn; now destruct (f r)).
  induction risks as [|r risks IH]; [reflexivity|].
  rewrite !Hcons. cbn [length].
  set (nh := length (List.filter (level_is Scenarios.high) risks)) in *.
  set (nm := length (List.filter (level_is Scenarios.medium) risks)) in *.
  set (nl := length (List.filter (level_is Scenarios.low) risks)) in *.
  unfold level_is. destruct (risk_level r); lia.
Qed.

Lemma stockout_risk_attention (product : Product) :
  (level_is Scenarios.high (stockout_risk forecast product) = true ->
   needs_attention (stockout_risk forecast product) = true) /\
  (needs_attention (stockout_risk forecast product) = true ->
   level_is Scenarios.low (stockout_risk forecast product) = false).
Proof.
  unfold level_is, stockout_risk. cbn [risk_level needs_attention].
  set (p := Qmax 0 _).
  destruct (JS.lt (7 # 10) p) eqn:H7; [apply lt_spec in H7 | apply lt_false in H7].
  - split; [intros _; apply lt_spec; lra | reflexivity].
  - destruct (JS.lt (3 # 10) p) eqn:H3;
      [apply lt_spec in H3 | apply lt_false in H3].
    + split; [discriminate | reflexivity].
    + split; [discriminate|]. intros H5. apply lt_spec in H5. lra.
Qed.

(** X21. The stockout-risk endpoint answers 400 exactly when there is no
    array of products.  Otherwise it returns one risk per product, in
    order; every reported [stockout_probability] is between 0 and 1; a
    [high] risk always needs attention and a risk that needs attention is
    never [low]; the three risk counts of the summary add up to the number
    of products, and the attention count lies between the [high] count and
    the [high] plus [medium] count.  For a product with positive daily
    demand and lead time the risk is [high] exactly when the stock is below
    the safety stock plus 30% of the lead-time demand, and [low] exactly
    when it is at least the safety stock plus 70% of it. *)
Theorem stockout_risk_levels (products : option (list Product)) :
  (post_stockout_risk products forecast = RiskStatus400 <-> products = None) /\
  (forall ps, products = Some ps ->
     exists summary,
       post_stockout_risk products forecast
       = RiskJson (map (stockout_risk forecast) ps) summary /\
       (high_risk summary + medium_risk summary + low_risk summary
        = length ps)%nat /\
       (high_risk summary <= needs_attention_count summary)%nat /\
       (needs_attention_count summary
        <= high_risk summary + medium_risk summary)%nat) /\
  (forall product,
     let risk := stockout_risk forecast product in
     0 <= stockout_probability risk /\ stockout_probability risk <= 1 /\
     (level_is Scenarios.high risk = true -> needs_attention risk = true) /\
     (needs_attention risk = true -> level_is Scenarios.low risk = false)) /\
  (forall product,
     let demand := Scenarios.or_default (daily_demand product) 10 in
     let stock := Scenarios.or_default (current_stock product) 0 in
     let lead := Scenarios.or_default (lead_time_days product) 7 in
     let safety := Scenarios.or_default (safety_stock product) 20 in
     0 < demand -> 0 < lead ->
     (risk_level (stockout_risk forecast product) = Scenarios.high <->
      stock < safety + (3 # 10) * (demand * lead)) /\
     (risk_level (stockout_risk forecast product) = Scenarios.low <->
      safety + (7 # 10) * (demand * lead) <= stock)).
Proof.
  split; [|split; [|split]].
  - destruct products; split; intros H; try discriminate H; reflexivity.
  - intros ps ->. unfold post_stockout_risk. eexists. split; [reflexivity|].
    cbn [high_risk medium_risk low_risk needs_attention_count].
    split; [now rewrite risk_levels_partition, length_map|].
    pose proof (risk_levels_partition (map (stockout_risk forecast) ps)) as Hpart.
    split.
    + rewrite !filter_map_length. apply filter_length_impl.
      intros p. apply stockout_risk_attention.
    + assert (length (List.filter needs_attention
                        (map (stockout_risk forecast) ps))
              + length (List.filter (level_is Scenarios.low)
                          (map (stockout_risk forecast) ps))
              <= length (map (stockout_risk forecast) ps))%nat; [|lia].
      clear Hpart. induction ps as [|p ps IH]; [cbn; lia|].
      cbn [map List.filter length].
      pose proof (proj2 (stockout_risk_attention p)) as Hlow.
      destruct (needs_attention (stockout_risk forecast p)).
      * rewrite (Hlow eq_refl). cbn [length]. lia.
      * destruct (level_is Scenarios.low (stockout_risk forecast p));
          cbn [length]; lia.
  - intros product. cbv zeta.
    split; [|split; [|apply stockout_risk_attention]].
    + unfold stockout_risk. cbn [stockout_probability].
      apply Q.min_glb; [discriminate | apply Q.le_max_l].
    + unfold stockout_risk. cbn [stockout_probability]. apply Q.le_min_l.
  - intros product. cbv zeta. intros Hdemand Hlead.
    unfold stockout_risk. cbn [risk_level].
    set (demand := Scenarios.or_default (daily_demand product) 10) in *.
    set (stock := Scenarios.or_default (current_stock product) 0).
    set (lead := Scenarios.or_default (lead_time_days product) 7) in *.
    set (safety := Scenarios.or_default (safety_stock product) 20).
    assert (0 < demand * lead) as Hdl by nra.
    set (ratio := (demand * lead - stock + safety) / (demand * lead)).
    assert (forall t, t < ratio <-> stock < safety + (1 - t) * (demand * lead))
      as Hratio.
    { intros t.
      assert (ratio * (demand * lead) == demand * lead - stock + safety) as Hnum
        by (unfold ratio; field; lra).
      rewrite <- (Qmult_lt_r t ratio (demand * lead) Hdl), Hnum.
      split; intros H; lra. }
    assert (forall t, 0 < t -> (t < Qmax 0 ratio <-> t < ratio)) as Hmax.
    { intros t Ht. destruct (Qlt_le_dec ratio 0) as [Hneg | Hpos].
      - rewrite Q.max_l by lra. split; intros H; lra.
      - rewrite Q.max_r by exact Hpos. tauto. }
    pose proof (Hratio (7 # 10)) as H7. pose proof (Hratio (3 # 10)) as H3.
    destruct (JS.lt (7 # 10) (Qmax 0 ratio)) eqn:Hhigh;
      [apply lt_spec, Hmax in Hhigh; [|reflexivity]
      |apply lt_false in Hhigh].
    + split; [split; [intros _; apply H7 in Hhigh; lra | reflexivity]|].
      split; [discriminate|]. intros Hlow. apply H7 in Hhigh. lra.
    + assert (~ 7 # 10 < ratio) as Hnot7
        by (intros H; apply (Hmax (7 # 10) eq_refl) in H; lra).
      destruct (JS.lt (3 # 10) (Qmax 0 ratio)) eqn:Hmed;
        [apply lt_spec, Hmax in Hmed; [|reflexivity]
        |apply lt_false in Hmed].
      * split; [split; [discriminate | intros H; apply H7 in H; contradiction]|].
        split; [discriminate|]. intros Hlow. apply H3 in Hmed. lra.
      * assert (~ 3 # 10 < ratio) as Hnot3
          by (intros H; apply (Hmax (3 # 10) eq_refl) in H; lra).
        split; [split; [discriminate | intros H; apply H7 in H; contradiction]|].
        split; [intros _|reflexivity].
        destruct (Qlt_le_dec stock (safety + (7 # 10) * (demand * lead)))
          as [Hlt | Hge]; [|exact Hge].
        exfalso. apply Hnot3, H3. lra.
Qed.

End StockoutRisk.

Lemma stockout_risk_levels_witness :
  InventoryRoutes.risk_level
    (InventoryRoutes.stockout_risk None
       (InventoryRoutes.mkProduct "P002" "Product B" (Some 5) (Some 18)
          (Some 10) (Some 10)))
  = Scenarios.high.
Proof.
  apply (proj2 (proj2 (proj2 (stockout_risk_levels None None)))
               (InventoryRoutes.mkProduct "P002" "Product B" (Some 5) (Some 18)
                  (Some 10) (Some 10))); reflexivity.
Defined.

(** ** The stock side of the demand shock *)
Section ShockStock.
Import Scenarios.




End ShockStock.

(** ** The weekend effect *)
Section WeekendEffect.
Import SeasonalityUtils.

(** X23. For a seven-day profile [calculateWeekendEffect] compares the
    mean of Sunday and Saturday with the mean of Monday to Friday: it is 0
    when the weekday mean is 0, and otherwise the relative difference
    [(weekend - weekday) / weekday]; so with a positive weekday mean it is
    positive exactly when the weekend mean is the larger, and it is 0 when
    all seven averages are equal. *)
Theorem calculateWeekendEffect_sign (sun mon tue wed thu fri sat : DayAverage) :
  let profile := [sun; mon; tue; wed; thu; fri; sat] in
  let weekdayMean :=
    (average mon + average tue + average wed + average thu + average fri) / 5 in
  let weekendMean := (average sun + average sat) / 2 in
  (weekdayMean == 0 -> calculateWeekendEffect profile = 0) /\
  (~ weekdayMean == 0 ->
   calculateWeekendEffect profile == (weekendMean - weekdayMean) / weekdayMean) /\
  (0 < weekdayMean ->
   (0 < calculateWeekendEffect profile <-> weekdayMean < weekendMean)) /\
  (forall c, Forall (fun e => average e == c) profile ->
             calculateWeekendEffect profile == 0).
Proof.
  cbv zeta. unfold calculateWeekendEffect.
  cbn [skipn firstn map lookup list_lookup fmap option_fmap option_map
       from_option length].
  unfold JS.reduce_sum. cbn [fold_left]. unfold Datatypes.id.
  change (inject_Z (Z.of_nat 5)) with 5. change (inject_Z (Z.of_nat 2)) with 2.
  set (wd := (0 + average mon + average tue + average wed + average thu
              + average fri) / 5).
  set (we := (0 + average sun + average sat) / 2).
  assert (wd == (average mon + average tue + average wed + average thu
                 + average fri) / 5) as Hwd by (unfold wd; field).
  assert (we == (average sun + average sat) / 2) as Hwe by (unfold we; field).
  rewrite <- Hwd, <- Hwe.
  assert (~ wd == 0 -> (we - wd) / wd * wd == we - wd) as Hquot
    by (intros Hnz; field; exact Hnz).
  split; [|split; [|split]].
  - intros Hz. now rewrite (proj2 (Qeq_bool_iff wd 0) Hz).
  - intros Hnz. destruct (Qeq_bool wd 0) eqn:E; [|reflexivity].
    apply Qeq_bool_iff in E. contradiction.
  - intros Hpos. destruct (Qeq_bool wd 0) eqn:E;
      [apply Qeq_bool_iff in E; lra|].
    pose proof (Hquot ltac:(lra)) as Hq.
    split; intros H.
    + assert (0 < (we - wd) / wd * wd) by (apply Qmult_lt_0_compat; assumption).
      lra.
    + apply Qlt_shift_div_l; [exact Hpos | lra].
  - intros c Hflat.
    repeat (apply Forall_cons in Hflat as [? Hflat]).
    destruct (Qeq_bool wd 0) eqn:E; [reflexivity|].
    assert (~ wd == 0) as Hnz
      by (intros Hzero; apply Qeq_bool_iff in Hzero; congruence).
    assert (we == wd) as Heq.
    { rewrite Hwd, Hwe.
      repeat match goal with H : average _ == c |- _ => rewrite H; clear H end.
      field. }
    rewrite Heq. field. exact Hnz.
Qed.

Lemma calculateWeekendEffect_sign_witness :
  0 < calculateWeekendEffect
        [mkDayAverage "Sunday" 30 0; mkDayAverage "Monday" 10 1;
         mkDayAverage "Tuesday" 10 2; mkDayAverage "Wednesday" 10 3;
         mkDayAverage "Thursday" 10 4; mkDayAverage "Friday" 10 5;
         mkDayAverage "Saturday" 30 6].
Proof.
  apply (proj1 (proj2 (proj2 (calculateWeekendEffect_sign
           (mkDayAverage "Sunday" 30 0) (mkDayAverage "Monday" 10 1)
           (mkDayAverage "Tuesday" 10 2) (mkDayAverage "Wednesday" 10 3)
           (mkDayAverage "Thursday" 10 4) (mkDayAverage "Friday" 10 5)
           (mkDayAverage "Saturday" 30 6)))));
    reflexivity.
Defined.

End WeekendEffect.

(** ** The reorder endpoint *)
Section Reorder.
Import ReorderRoute.
Local Open Scope R_scope.

Lemma leb_true (a b : R) : leb a b = true <-> a <= b.
Proof. unfold leb. destruct (Rle_dec a b); split; intros; congruence. Qed.

Lemma or_else_nonzero (x : option R) (otherwise : R) :
  otherwise <> 0 -> or_else x otherwise <> 0.
Proof.
  intros Hd. unfold or_else, InventoryCalculatorR.falsy.
  destruct x as [v|]; [|exact Hd]. destruct (Req_dec_T v 0); assumption.
Qed.

(** X24. A reorder recommendation is coherent.  The daily demand it works
    with is never 0 (the weekly demand over 7, or 10, stands in for an
    absent or zero one).  [should_reorder] holds exactly when the stock is
    at or below the reorder point [dailyDemand * leadTime + safetyStock],
    [urgent] exactly when it is at or below half of it; so with a
    non-negative reorder point every urgent product should be reordered.
    The recommended order and the days until reorder are never negative,
    and with a positive demand the days until reorder are 0 for every
    product that should be reordered. *)
Theorem reorder_recommendation_coherent (product : Product) :
  let dailyDemand :=
    or_else (daily_demand product)
            (match weekly_demand product with
             | Some w => if InventoryCalculatorR.falsy w then 10 else w / 7
             | None => 10
             end) in
  let leadTime := or_else (lead_time_days product) 7 in
  let safetyStock :=
    or_else (safety_stock product)
            (InventoryCalculatorR.calculateSafetyStock
               dailyDemand leadTime (95 / 100) 5) in
  let reorderPoint := dailyDemand * leadTime + safetyStock in
  let stock := or_else (current_stock product) 0 in
  let r := recommendation product in
  dailyDemand <> 0 /\
  (should_reorder r = true <-> stock <= reorderPoint) /\
  (urgent r = true <-> stock <= reorderPoint * (5 / 10)) /\
  (0 <= reorderPoint -> urgent r = true -> should_reorder r = true) /\
  (0 <= recommended_order r)%Z /\
  0 <= days_until_reorder r /\
  (0 < dailyDemand -> should_reorder r = true -> days_until_reorder r = 0).
Proof.
  cbv zeta. unfold recommendation, InventoryCalculatorR.calculateReorderPoint.
  cbn [should_reorder urgent recommended_order days_until_reorder].
  set (dailyDemand := or_else (daily_demand product) _).
  set (leadTime := or_else (lead_time_days product) 7).
  set (safetyStock := or_else (safety_stock product) _).
  set (stock := or_else (current_stock product) 0).
  set (reorderPoint := dailyDemand * leadTime + safetyStock).
  assert (dailyDemand <> 0) as Hdemand.
  { apply or_else_nonzero. destruct (weekly_demand product) as [w|]; [|lra].
    unfold InventoryCalculatorR.falsy. destruct (Req_dec_T w 0); lra. }
  split; [exact Hdemand|]. split; [apply leb_true|]. split; [apply leb_true|].
  split; [|split; [|split]].
  - intros Hpoint Hurgent. apply leb_true in Hurgent. apply leb_true. lra.
  - lia.
  - apply Rmult_le_pos; [|lra]. apply IZR_le.
    unfold InventoryCalculatorR.Math_round. apply Zfloor_lub.
    pose proof (Rmax_l 0 ((stock - reorderPoint) / dailyDemand)). cbn. lra.
  - intros Hpos Hreorder. apply leb_true in Hreorder.
    assert ((stock - reorderPoint) / dailyDemand <= 0) as Hneg.
    { unfold Rdiv. replace 0 with (0 * / dailyDemand) by lra.
      apply Rmult_le_compat_r; [|lra]. left. now apply Rinv_0_lt_compat. }
    rewrite Rmax_left by exact Hneg. rewrite Rmult_0_l.
    unfold InventoryCalculatorR.Math_round.
    rewrite (Zfloor_eq 0); [lra|]. cbn. lra.
Qed.

Lemma reorder_recommendation_coherent_witness :
  should_reorder
    (recommendation (mkProduct "P002" "Product B" (Some 5) None (Some 10)
                       (Some 10) (Some 18))) = true.
Proof.
  apply (proj2 (proj1 (proj2 (reorder_recommendation_coherent
           (mkProduct "P002" "Product B" (Some 5) None (Some 10) (Some 10)
              (Some 18)))))).
  unfold or_else, InventoryCalculatorR.falsy.
  cbn [daily_demand weekly_demand lead_time_days safety_stock current_stock].
  destruct (Req_dec_T 5 0); [lra|]. destruct (Req_dec_T 10 0); [lra|].
  destruct (Req_dec_T 18 0); lra.
Defined.

End Reorder.

(** ** More on the optimal order *)
Section OrderQuantities.
Import InventoryCalculator.

(** X25. The three quantities of [calculateOptimalOrder] are ordered:
    [0 <= recommended <= adjusted] and [0 <= final <= adjusted].  Nothing
    is recommended when the stock is at or above the reorder point, and
    the final order is 0 when the stock is at or above [maxStock].  For a
    reorder point that is not negative, [critical] implies [urgent]. *)
Theorem calculateOptimalOrder_ordering (forecast : list ForecastPoint)
    (currentStock reorderPoint maxStock : Q) :
  let order :=
    calculateOptimalOrder forecast currentStock reorderPoint maxStock in
  (0 <= recommended order)%Z /\
  (recommended order <= adjusted order)%Z /\
  (0 <= final order)%Z /\
  (final order <= adjusted order)%Z /\
  (reorderPoint <= currentStock -> recommended order = 0%Z) /\
  (maxStock <= currentStock -> final order = 0%Z) /\
  (0 <= reorderPoint -> critical order = true -> urgent order = true).
Proof.
  cbv zeta. unfold calculateOptimalOrder.
  cbn [recommended adjusted final urgent critical].
  set (recommendedOrder := Qmax 0 (reorderPoint - currentStock)).
  set (adjustedOrder := Qmax recommendedOrder _).
  pose proof (Q.le_max_l 0 (reorderPoint - currentStock)) as Hrec.
  fold recommendedOrder in Hrec.
  assert (recommendedOrder <= adjustedOrder) as Hadj by apply Q.le_max_l.
  split; [now apply Math_round_nonneg|]. split; [now apply Math_round_mono|].
  split; [lia|]. split; [|split; [|split]].
  - apply Z.max_lub.
    + apply Math_round_nonneg. lra.
    + apply Math_round_mono, Q.le_min_l.
  - intros Hstock. apply Math_round_zero. unfold recommendedOrder.
    apply Q.max_l. lra.
  - intros Hfull.
    assert (JS.Math_round (Qmin adjustedOrder (maxStock - currentStock)) <= 0)%Z;
      [|lia].
    apply Math_round_nonpos.
    eapply Qle_trans; [apply Q.le_min_r|]. lra.
  - intros Hpoint Hcritical. apply lt_spec in Hcritical. apply lt_spec. lra.
Qed.

Lemma calculateOptimalOrder_ordering_witness :
  final (calculateOptimalOrder [] 300 50 200) = 0%Z.
Proof.
  apply (calculateOptimalOrder_ordering [] 300 50 200). discriminate.
Defined.

End OrderQuantities.

(** ** More on the ABC classes *)
Section ABCOrder.
Import InventoryCalculator.

Local Abbreviation run a l := (fold_left (fun sum x => sum + annualValue x) l a).

Lemma run_grows (l : list Item) (a : Q) :
  Forall (fun item => 0 <= annualValue item) l -> a <= run a l.
Proof.
  intros Hpos. revert a. induction Hpos as [|x l Hx _ IH]; intros a; cbn.
  - apply Qle_refl.
  - eapply Qle_trans; [|apply IH]. lra.
Qed.

Lemma run_prefix_le (l : list Item) :
  Forall (fun item => 0 <= annualValue item) l ->
  forall i j a, (i <= j)%nat -> run a (take i l) <= run a (take j l).
Proof.
  induction 1 as [|x l Hx Hpos IH]; intros i j a Hij.
  - rewrite !take_nil. apply Qle_refl.
  - destruct i as [|i].
    + cbn [take fold_left]. apply run_grows.
      apply Forall_take. now constructor.
    + destruct j as [|j]; [lia|]. cbn [take fold_left]. apply IH. lia.
Qed.

Lemma class_of_last (total : Q) : class_of (JS.div total total) = C.
Proof.
  destruct (Qeq_dec total 0) as [Hz | Hnz].
  - apply class_of_zero_total; [exact Hz | lra].
  - rewrite (div_nonzero total total Hnz).
    apply (class_of_Finite (total / total)).
    assert (total / total == 1) as -> by (field; exact Hnz). reflexivity.
Qed.

Lemma class_of_mono (c1 c2 total : Q) :
  0 < total -> c1 <= c2 ->
  (class_of (JS.div c2 total) = A -> class_of (JS.div c1 total) = A) /\
  (class_of (JS.div c1 total) = C -> class_of (JS.div c2 total) = C).
Proof.
  intros Htotal Hle.
  rewrite !div_nonzero by lra.
  assert (c1 / total <= c2 / total) as Hfrac.
  { apply Qmult_le_compat_r; [exact Hle|].
    apply Qlt_le_weak, Qinv_lt_0_compat, Htotal. }
  destruct (class_of_Finite (c1 / total)) as (HA1 & _ & HC1).
  destruct (class_of_Finite (c2 / total)) as (HA2 & _ & HC2).
  split.
  - intros H2. apply HA1. apply HA2 in H2. lra.
  - intros H1. apply HC2. apply HC1 in H1. lra.
Qed.

(** X26. [classifyABC] always puts the last item of its output, the one
    of least value, in class C, so a single item is always C.  When no
    value is negative and the total is positive, the classes come in
    order along the output: everything before an A item is A, and
    everything after a C item is C. *)
Theorem classifyABC_classes_in_order (items : list Item) :
  let classified := classifyABC items in
  (forall item, last classified = Some item -> class item = Some C) /\
  (forall only, items = [only] ->
     classified = [set_class only C]) /\
  (Forall (fun item => 0 <= annualValue item) items ->
   0 < JS.reduce_sum annualValue items ->
   forall i j earlier later,
     (i <= j)%nat ->
     classified !! i = Some earlier -> classified !! j = Some later ->
     (class later = Some A -> class earlier = Some A) /\
     (class earlier = Some C -> class later = Some C)).
Proof.
  cbv zeta.
  set (sorted := JS.Array_sort (fun a b => annualValue b - annualValue a) items).
  assert (forall i item,
            classifyABC items !! i = Some item ->
            class item
            = Some (class_of (JS.div (run 0 (take (S i) sorted))
                                (JS.reduce_sum annualValue sorted)))) as Hclass.
  { intros i item Hi.
    destruct (classify_loop_lookup _ _ _ _ _ Hi) as (orig & _ & ->).
    reflexivity. }
  assert (length (classifyABC items) = length sorted) as Hlen
    by apply classify_loop_length.
  split; [|split].
  - intros item Hlast. rewrite last_lookup in Hlast.
    rewrite (Hclass _ _ Hlast). f_equal.
    assert (take (S (Init.Nat.pred (length (classifyABC items)))) sorted = sorted)
      as ->.
    { apply take_ge. rewrite Hlen.
      apply lookup_lt_Some in Hlast. rewrite Hlen in Hlast. lia. }
    apply class_of_last.
  - intros only ->. unfold classifyABC. cbn.
    unfold JS.reduce_sum. cbn. f_equal. f_equal.
    apply (class_of_last (0 + annualValue only)).
  - intros Hpos Htotal i j earlier later Hij Hi Hj.
    assert (Forall (fun item => 0 <= annualValue item) sorted) as Hsorted.
    { apply List.Forall_forall. intros x Hx. rewrite List.Forall_forall in Hpos.
      apply Hpos. eapply Permutation_in; [|exact Hx].
      apply Array_sort_Permutation. }
    assert (0 < JS.reduce_sum annualValue sorted) as Hsum.
    { unfold sorted. unfold JS.reduce_sum in *.
      rewrite (run_Permutation annualValue _ items); [exact Htotal|].
      apply Array_sort_Permutation. }
    rewrite (Hclass _ _ Hi), (Hclass _ _ Hj).
    pose proof (run_prefix_le sorted Hsorted (S i) (S j) 0 ltac:(lia)) as Hle.
    destruct (class_of_mono _ _ _ Hsum Hle) as [HA HC].
    split; intros [= H]; f_equal; auto.
Qed.

Lemma classifyABC_classes_in_order_witness :
  classifyABC [mkItem "P001" 2500 None] = [mkItem "P001" 2500 (Some C)] /\
  (class (mkItem "2" 30000 (Some A)) = Some A ->
   class (mkItem "1" 50000 (Some A)) = Some A).
Proof.
  split.
  - exact (proj1 (proj2 (classifyABC_classes_in_order [mkItem "P001" 2500 None]))
             (mkItem "P001" 2500 None) eq_refl).
  - refine (proj1 (proj2 (proj2 (classifyABC_classes_in_order test_items))
                     _ _ 0%nat 1%nat _ _ _ _ _)).
    + repeat constructor; apply Qle_bool_imp_le; reflexivity.
    + reflexivity.
    + lia.
    + reflexivity.
    + reflexivity.
Defined.

End ABCOrder.

(** ** The aggregated history and the chart *)
Section ChartData.
Import InventoryCalculator ForecastLogic.

Variable toISODate : string -> option string.
Variable dateTime : string -> Z.

Let by_time (a b : DayTotal) : Q :=
  inject_Z (dateTime (day_date a) - dateTime (day_date b)).
Let chronological (a b : DayTotal) : Prop :=
  (dateTime (day_date a) <= dateTime (day_date b))%Z.

Lemma insert_chronological (x : DayTotal) (l : list DayTotal) :
  StronglySorted chronological l ->
  StronglySorted chronological (JS.insert by_time x l).
Proof.
  induction 1 as [|y l Hsorted IH Hall]; cbn.
  - repeat constructor.
  - destruct (JS.lt 0 (by_time x y)) eqn:Hcmp.
    + apply lt_spec in Hcmp. unfold by_time in Hcmp.
      change 0 with (inject_Z 0) in Hcmp. rewrite <- Zlt_Qlt in Hcmp.
      constructor; [exact IH|].
      rewrite (insert_Permutation by_time x l). constructor; [|exact Hall].
      unfold chronological. lia.
    + apply lt_false in Hcmp. unfold by_time in Hcmp.
      change 0 with (inject_Z 0) in Hcmp. rewrite <- Zle_Qle in Hcmp.
      assert (chronological x y) as Hxy by (unfold chronological; lia).
      constructor; [now constructor|]. constructor; [exact Hxy|].
      eapply Forall_impl; [exact Hall|]. unfold chronological in *.
      intros z Hz. lia.
Qed.

Lemma Array_sort_chronological (l : list DayTotal) :
  StronglySorted chronological (JS.Array_sort by_time l).
Proof.
  induction l as [|x l IH]; cbn; [constructor|]. now apply insert_chronological.
Qed.

Lemma Map_get_set (key k : string) (value : Q) (m : list (string * Q)) :
  Map_get k (Map_set key value m)
  = if String.eqb key k then Some value else Map_get k m.
Proof.
  induction m as [|[k0 v0] m IH]; cbn [Map_set Map_get].
  - reflexivity.
  - destruct (String.eqb k0 key) eqn:Hk0; cbn [Map_get].
    + apply String.eqb_eq in Hk0. subst k0.
      now destruct (String.eqb key k).
    + rewrite IH. destruct (String.eqb k0 k) eqn:Hk; [|reflexivity].
      apply String.eqb_eq in Hk. subst k0. now rewrite String.eqb_sym, Hk0.
Qed.

Lemma Map_get_In (k : string) (v : Q) (m : list (string * Q)) :
  List.NoDup (map fst m) -> In (k, v) m -> Map_get k m = Some v.
Proof.
  induction m as [|[k0 v0] m IH]; intros Hnd Hin; [destruct Hin|].
  cbn [map fst] in Hnd. apply List.NoDup_cons_iff in Hnd as [Hnotin Hnd].
  cbn [Map_get]. destruct Hin as [[= -> ->] | Hin].
  - now rewrite String.eqb_refl.
  - destruct (String.eqb k0 k) eqn:Hk; [|now apply IH].
    apply String.eqb_eq in Hk. subst k0. exfalso. apply Hnotin.
    change k with (fst (k, v)). now apply in_map.
Qed.

(** What has been added up under [key] so far. *)
Let sofar (key : string) (m : list (string * Q)) : Q :=
  match Map_get key m with Some v => v | None => 0 end.

Let filed (key : string) (rows : list HistoryRow) : Q :=
  JS.reduce_sum row_value (List.filter (filed_under toISODate key) rows).

Lemma filed_cons (key : string) (row : HistoryRow) (rows : list HistoryRow) :
  filed key (row :: rows)
  == (if filed_under toISODate key row then row_value row else 0)
     + filed key rows.
Proof.
  unfold filed, JS.reduce_sum. cbn [List.filter].
  destruct (filed_under toISODate key row).
  - cbn [fold_left]. rewrite (run_acc row_value (0 + row_value row)). ring.
  - ring.
Qed.

Lemma aggregate_step_dated (row : HistoryRow) (m : list (string * Q))
    (key : string) :
  row_key toISODate row = Some key ->
  exists value,
    aggregate_step toISODate (Some m) row = Some (Map_set key value m) /\
    value == sofar key m + row_value row.
Proof.
  unfold row_key, row_dated, aggregate_step, sofar.
  destruct (no_date (row_day row)); cbn [negb]; [discriminate|].
  intros ->. destruct (Map_get key m) as [v|].
  - eexists. split; reflexivity.
  - eexists. split; [reflexivity|]. ring.
Qed.

Lemma aggregate_step_undated (row : HistoryRow) (m : list (string * Q)) :
  row_dated row = false ->
  aggregate_step toISODate (Some m) row = Some m /\
  row_key toISODate row = None.
Proof.
  unfold row_key, row_dated, aggregate_step.
  destruct (no_date (row_day row)); cbn [negb]; [auto | discriminate].
Qed.

(** The loop over rows whose dates all parse: one entry per day seen, each
    holding what the rows of that day sold. *)
Lemma aggregate_fold (data : list HistoryRow) :
  (forall row, In row data -> row_dated row = true ->
               is_Some (row_key toISODate row)) ->
  forall m, List.NoDup (map fst m) ->
  exists m',
    fold_left (aggregate_step toISODate) data (Some m) = Some m' /\
    List.NoDup (map fst m') /\
    (forall k, In k (map fst m') <->
               In k (map fst m) \/ In k (omap (row_key toISODate) data)) /\
    (forall k v, Map_get k m' = Some v -> v == sofar k m + filed k data).
Proof.
  induction data as [|row rest IH]; intros Hparse m Hnd.
  - exists m. split; [reflexivity|]. split; [exact Hnd|]. split.
    + intros k. cbn. tauto.
    + intros k v Hget. unfold sofar, filed, JS.reduce_sum. rewrite Hget.
      cbn. ring.
  - assert (forall r, In r rest -> row_dated r = true ->
                      is_Some (row_key toISODate r)) as Hrest
      by (intros r Hr; apply Hparse; now right).
    cbn [fold_left omap list_omap].
    destruct (row_dated row) eqn:Hd.
    + destruct (Hparse row (or_introl eq_refl) Hd) as [key Hkey].
      destruct (aggregate_step_dated row m key Hkey) as (value & -> & Hvalue).
      rewrite Hkey.
      destruct (IH Hrest _ (Map_set_NoDup toISODate key value m Hnd))
        as (m' & Hrun & Hnd' & Hkeys & Hsums).
      exists m'. split; [exact Hrun|]. split; [exact Hnd'|]. split.
      * intros k. rewrite Hkeys, (Map_set_keys toISODate). cbn [In]. intuition congruence.
      * intros k v Hget. rewrite (Hsums k v Hget), filed_cons.
        unfold sofar at 1. rewrite Map_get_set. unfold filed_under.
        rewrite Hkey. destruct (String.eqb key k) eqn:Hk.
        -- apply String.eqb_eq in Hk. subst k. rewrite Hvalue. ring.
        -- fold (sofar k m). ring.
    + destruct (aggregate_step_undated row m Hd) as [-> Hkey].
      rewrite Hkey.
      destruct (IH Hrest m Hnd) as (m' & Hrun & Hnd' & Hkeys & Hsums).
      exists m'. split; [exact Hrun|]. split; [exact Hnd'|]. split;
        [exact Hkeys|].
      intros k v Hget. rewrite (Hsums k v Hget), filed_cons.
      unfold filed_under. rewrite Hkey. ring.
Qed.

Lemma aggregate_fold_error (data : list HistoryRow) :
  (exists row, In row data /\ row_dated row = true /\
               row_key toISODate row = None) ->
  forall aggregated,
    fold_left (aggregate_step toISODate) data aggregated = None.
Proof.
  assert (forall l, fold_left (aggregate_step toISODate) l None = None)
    as Hnone by (induction l; [reflexivity | assumption]).
  induction data as [|row rest IH]; intros (bad & Hin & Hdate & Hkey) aggregated.
  - destruct Hin.
  - cbn [fold_left]. destruct Hin as [<- | Hin].
    + destruct aggregated as [m|]; [|apply Hnone].
      unfold row_key in Hkey. rewrite Hdate in Hkey.
      unfold row_dated in Hdate. apply negb_true_iff in Hdate.
      unfold aggregate_step. rewrite Hdate, Hkey. apply Hnone.
    + apply IH. exists bad. auto.
Qed.

(** X27. When the date of every dated row parses,
    [aggregateHistoricalData] returns one entry per distinct day of the
    dated rows, in chronological order, and the entry of a day holds the
    sum of what the rows of that day sold.  A dated row whose date does
    not parse makes the call throw. *)
Theorem aggregateHistoricalData_per_day (data : list HistoryRow) :
  ((forall row, In row data -> row_dated row = true ->
                is_Some (row_key toISODate row)) ->
   exists days,
     aggregateHistoricalData toISODate dateTime data = Some days /\
     List.NoDup (map day_date days) /\
     StronglySorted
       (fun a b => (dateTime (day_date a) <= dateTime (day_date b))%Z) days /\
     (forall key, In key (map day_date days) <->
                  In key (omap (row_key toISODate) data)) /\
     (forall day, In day days ->
        day_sales day
        == JS.reduce_sum row_value
             (List.filter (filed_under toISODate (day_date day)) data))) /\
  ((exists row, In row data /\ row_dated row = true /\
                row_key toISODate row = None) ->
   aggregateHistoricalData toISODate dateTime data = None).
Proof.
  split.
  - intros Hparse.
    destruct (aggregate_fold data Hparse [] (List.NoDup_nil _))
      as (m & Hrun & Hnd & Hkeys & Hsums).
    unfold aggregateHistoricalData. rewrite Hrun.
    set (entries := map (fun entry => mkDayTotal (fst entry) (snd entry)) m).
    fold by_time.
    pose proof (Array_sort_Permutation by_time entries) as Hperm.
    assert (map day_date entries = map fst m) as Hdates.
    { unfold entries. rewrite map_map. apply map_ext. reflexivity. }
    eexists. split; [reflexivity|]. split; [|split; [|split]].
    + apply (Permutation.Permutation_NoDup
               (l := map day_date entries)).
      * apply Permutation_map. symmetry. exact Hperm.
      * rewrite Hdates. exact Hnd.
    + apply Array_sort_chronological.
    + intros key.
      assert (In key (map day_date (JS.Array_sort by_time entries))
              <-> In key (map day_date entries)) as ->.
      { split; apply Permutation_in, Permutation_map;
          [exact Hperm | symmetry; exact Hperm]. }
      rewrite Hdates, Hkeys. cbn. tauto.
    + intros day Hday.
      apply (Permutation_in _ Hperm) in Hday. unfold entries in Hday.
      apply in_map_iff in Hday as ([k v] & <- & Hin). cbn [fst snd day_date day_sales].
      rewrite (Hsums k v (Map_get_In k v m Hnd Hin)). unfold sofar, filed.
      cbn. ring.
  - intros Hbad. unfold aggregateHistoricalData.
    now rewrite (aggregate_fold_error data Hbad).
Qed.

End ChartData.

Lemma aggregateHistoricalData_per_day_witness :
  let dateTime (key : string) : Z :=
    (if String.eqb key "2024-01-01" then 1704067200000 else 1704153600000)%Z in
  let rows :=
    [ForecastLogic.mkRow (Some "2024-01-02"%string) None None (Some 6) None None;
     ForecastLogic.mkRow None (Some "2024-01-01"%string) None None (Some 10) None;
     ForecastLogic.mkRow None None None (Some 99) None None;
     ForecastLogic.mkRow None None (Some "2024-01-01"%string) None None (Some 4)] in
  exists days,
    ForecastLogic.aggregateHistoricalData Some dateTime rows = Some days /\
    map ForecastLogic.day_date days = ["2024-01-01"; "2024-01-02"]%string /\
    forall day, In day days ->
      ForecastLogic.day_sales day
      == JS.reduce_sum ForecastLogic.row_value
           (List.filter
              (ForecastLogic.filed_under Some (ForecastLogic.day_date day))
              rows).
Proof.
  intros dateTime rows.
  destruct (proj1 (aggregateHistoricalData_per_day Some dateTime rows))
    as (days & Hrun & _ & _ & _ & Hsums).
  - intros row _ Hdated. unfold ForecastLogic.row_key.
    rewrite Hdated. eexists. reflexivity.
  - exists days. split; [exact Hrun|]. split; [|exact Hsums].
    vm_compute in Hrun. injection Hrun as <-. reflexivity.
Defined.

(** ** The chart *)
Section Chart.
Import InventoryCalculator ForecastLogic.

Variable toISODate : string -> option string.
Variable dateTime : string -> Z.

Lemma lookup_map {X Y : Type} (f : X -> Y) (l : list X) (i : nat) :
  map f l !! i = f <$> (l !! i).
Proof.
  revert i. induction l as [|x l IH]; intros [|i]; cbn; auto.
Qed.

Lemma num_or_le (given : option Q) (otherwise hi : Q) :
  otherwise <= hi -> (forall bound, given = Some bound -> bound <= hi) ->
  num_or given otherwise <= hi.
Proof.
  intros Hother Hgiven. unfold num_or.
  destruct given as [bound|]; [|exact Hother].
  destruct (JS.truthy bound); [now apply Hgiven | exact Hother].
Qed.

Lemma num_or_ge (given : option Q) (otherwise lo : Q) :
  lo <= otherwise -> (forall bound, given = Some bound -> lo <= bound) ->
  lo <= num_or given otherwise.
Proof.
  intros Hother Hgiven. unfold num_or.
  destruct given as [bound|]; [|exact Hother].
  destruct (JS.truthy bound); [now apply Hgiven | exact Hother].
Qed.

(** X28. [prepareChartData] returns whenever the history aggregates.
    Its labels are the days of the history followed by the dates of the
    forecast; the three forecast datasets are as long as the labels, with
    [null] under every day of the history and the value of the item under
    its own date, while the historical dataset stops where the forecast
    begins.  For an item that predicts no negative demand, the plotted
    bounds enclose the prediction as long as the bounds it carries do. *)
Theorem prepareChartData_aligned (forecast : option (list ForecastItem))
    (historicalData : list HistoryRow) (historical : list DayTotal) :
  aggregateHistoricalData toISODate dateTime historicalData = Some historical ->
  let items := default [] forecast in
  exists chart,
    prepareChartData toISODate dateTime forecast historicalData = Some chart /\
    length (labels chart) = (length historical + length items)%nat /\
    length (historical_sales chart) = length historical /\
    length (forecast_line chart) = length (labels chart) /\
    length (interval_upper chart) = length (labels chart) /\
    length (interval_lower chart) = length (labels chart) /\
    (forall i day, historical !! i = Some day ->
       labels chart !! i = Some (day_date day) /\
       historical_sales chart !! i = Some (day_sales day) /\
       forecast_line chart !! i = Some None /\
       interval_upper chart !! i = Some None /\
       interval_lower chart !! i = Some None) /\
    (forall i item, items !! i = Some item ->
       let place := (length historical + i)%nat in
       labels chart !! place = Some (item_date item) /\
       historical_sales chart !! place = None /\
       forecast_line chart !! place = Some (Some (item_predicted item)) /\
       exists lower upper,
         interval_lower chart !! place = Some (Some lower) /\
         interval_upper chart !! place = Some (Some upper) /\
         (0 <= item_predicted item ->
          (forall given, item_upper_bound item = Some given ->
                         item_predicted item <= given) ->
          (forall given, item_lower_bound item = Some given ->
                         given <= item_predicted item) ->
          lower <= item_predicted item <= upper)).
Proof.
  intros Hhistory items. unfold prepareChartData. rewrite Hhistory.
  fold items. eexists. split; [reflexivity|]. cbn [labels historical_sales
    forecast_line interval_upper interval_lower].
  rewrite !length_app, !length_map, !length_replicate.
  do 5 (split; [reflexivity|]). split.
  - intros i day Hday. pose proof (lookup_lt_Some _ _ _ Hday) as Hlt.
    rewrite !lookup_app_l
      by (rewrite ?length_map, ?length_replicate; exact Hlt).
    rewrite !lookup_map, Hday, (lookup_replicate_2 _ _ _ Hlt). auto.
  - intros i item Hitem.
    assert (forall (Y : Type) (front back : list Y),
              length front = length historical ->
              (front ++ back) !! (length historical + i)%nat = back !! i)
      as Hback.
    { intros Y front back <-. rewrite lookup_app_r by lia.
      f_equal. lia. }
    rewrite !Hback by (rewrite ?length_map, ?length_replicate; reflexivity).
    rewrite !lookup_map, Hitem. cbn [fmap option_fmap option_map].
    split; [reflexivity|]. split.
    { rewrite (lookup_ge_None_2 historical (length historical + i)) by lia.
      reflexivity. }
    split; [reflexivity|].
    exists (plotted_lower item), (plotted_upper item).
    split; [reflexivity|]. split; [reflexivity|].
    intros Hpos Hupper Hlower. split.
    + apply num_or_le; [lra | exact Hlower].
    + apply num_or_ge; [lra | exact Hupper].
Qed.

End Chart.

Lemma prepareChartData_aligned_witness :
  let dateTime (key : string) : Z :=
    (if String.eqb key "2024-01-01" then 1704067200000 else 1704153600000)%Z in
  let rows :=
    [ForecastLogic.mkRow (Some "2024-01-02"%string) None None (Some 6) None None;
     ForecastLogic.mkRow (Some "2024-01-01"%string) None None (Some 10) None None] in
  let item := ForecastLogic.mkForecastItem "2024-01-03" 100 None (Some 0) in
  exists chart lower upper,
    ForecastLogic.prepareChartData Some dateTime (Some [item]) rows = Some chart /\
    ForecastLogic.labels chart !! 2%nat = Some "2024-01-03"%string /\
    ForecastLogic.forecast_line chart !! 1%nat = Some None /\
    ForecastLogic.interval_lower chart !! 2%nat = Some (Some lower) /\
    ForecastLogic.interval_upper chart !! 2%nat = Some (Some upper) /\
    lower <= 100 <= upper.
Proof.
  intros dateTime rows item.
  destruct (prepareChartData_aligned Some dateTime (Some [item]) rows _ eq_refl)
    as (chart & Hchart & _ & _ & _ & _ & _ & Hdays & Hitems).
  destruct (Hitems 0%nat item eq_refl)
    as (Hlabel & _ & _ & lower & upper & Hlower & Hupper & Hbounds).
  destruct (Hdays 1%nat _ eq_refl) as (_ & _ & Hnull & _).
  exists chart, lower, upper.
  split; [exact Hchart|]. split; [exact Hlabel|]. split; [exact Hnull|].
  split; [exact Hlower|]. split; [exact Hupper|].
  apply Hbounds.
  - apply Qle_bool_imp_le. reflexivity.
  - intros given [=].
  - intros given [= <-]. apply Qle_bool_imp_le. reflexivity.
Defined.

(** ** Reading the text of a response *)
Section ResponseReading.
Import Ascii ResponseText.
Local Open Scope string_scope.

(** Once a recommendation has been mentioned, the loop collects the
    listed lines until it holds three texts. *)
Lemma recommendations_loop_listed (lines : list string) (found : list string) :
  (length found < 3)%nat ->
  recommendations_loop lines true found
  = firstn 3
      (found ++
       List.filter long_enough
         (map recommendation_of
            (List.filter
               (fun line => is_listed line && negb (mentions_recommend line))
               lines)))%list.
Proof.
  revert found. induction lines as [|line rest IH]; intros found Hfew.
  - cbn. rewrite app_nil_r. symmetry. apply firstn_all2. lia.
  - cbn [recommendations_loop List.filter]. fold (mentions_recommend line).
    destruct (mentions_recommend line) eqn:Hmention.
    + rewrite andb_false_r. now apply IH.
    + rewrite andb_true_r. cbn [andb].
      destruct (is_listed line) eqn:Hlisted; cbn [map List.filter].
      * destruct (long_enough (recommendation_of line)) eqn:Hlong.
        -- destruct (3 <=? length (found ++ [recommendation_of line]))%nat
             eqn:Hfull.
           ++ apply Nat.leb_le in Hfull. rewrite length_app in Hfull.
              cbn in Hfull.
              assert (length found = 2%nat) as Htwo by lia.
              rewrite firstn_app, Htwo, firstn_all2 by lia. reflexivity.
           ++ apply Nat.leb_gt in Hfull. rewrite (IH _ Hfull).
              now rewrite <- app_assoc.
        -- assert ((3 <=? length found)%nat = false) as ->
             by (apply Nat.leb_gt; exact Hfew).
           now apply IH.
      * assert ((3 <=? length found)%nat = false) as ->
          by (apply Nat.leb_gt; exact Hfew).
        now apply IH.
Qed.

Lemma recommendations_loop_pipeline (lines : list string) :
  recommendations_loop lines false [] = firstn 3 (listed_recommendations lines).
Proof.
  unfold listed_recommendations. induction lines as [|line rest IH].
  - reflexivity.
  - cbn [recommendations_loop after_first]. fold (mentions_recommend line).
    destruct (mentions_recommend line).
    + apply (recommendations_loop_listed rest []). cbn. lia.
    + cbn [andb length Nat.leb]. exact IH.
Qed.

Lemma filter_long_enough (texts : list string) :
  Forall (fun text => (10 < String.length text)%nat)
         (List.filter long_enough texts).
Proof.
  apply List.Forall_forall. intros text Hin.
  apply filter_In in Hin as [_ Hlong]. now apply Nat.ltb_lt in Hlong.
Qed.

Lemma Forall_firstn {X : Type} (P : X -> Prop) (n : nat) (l : list X) :
  Forall P l -> Forall P (firstn n l).
Proof.
  intros Hall. apply List.Forall_forall. intros x Hin.
  rewrite List.Forall_forall in Hall. apply Hall.
  rewrite <- (firstn_skipn n l). apply in_or_app. now left.
Qed.

(** X29. [extractRecommendations] looks at the lines after the first one
    that mentions a recommendation.  Among them it takes the listed lines
    that do not mention one themselves, cleans them, drops the ones of ten
    characters or fewer and keeps the first three; when nothing is left
    it returns its three stock recommendations.  So it returns between
    one and three texts, and either the stock ones or texts of more than
    ten characters. *)
Theorem extractRecommendations_first_three (response : string) :
  let found := firstn 3 (listed_recommendations (split response)) in
  extractRecommendations response
  = (match found with [] => default_recommendations | _ => found end) /\
  (1 <= length (extractRecommendations response) <= 3)%nat /\
  (extractRecommendations response = default_recommendations \/
   Forall (fun text => (10 < String.length text)%nat)
          (extractRecommendations response)).
Proof.
  cbv zeta. unfold extractRecommendations.
  rewrite recommendations_loop_pipeline.
  set (found := firstn 3 (listed_recommendations (split response))).
  assert (length found <= 3)%nat as Hfew by apply firstn_le_length.
  assert (Forall (fun text => (10 < String.length text)%nat) found) as Hlong
    by apply Forall_firstn, filter_long_enough.
  destruct found as [|first others]; cbn [length Nat.ltb Nat.leb].
  - split; [reflexivity|]. split; [cbn; lia | now left].
  - split; [reflexivity|]. split; [cbn [length] in *; lia | now right].
Qed.

Lemma insights_loop_marked (lines : list string) (found : list string) :
  (length found < 5)%nat ->
  insights_loop lines found
  = firstn 5 (found ++ marked_insights lines)%list.
Proof.
  unfold marked_insights.
  revert found. induction lines as [|line rest IH]; intros found Hfew.
  - cbn. rewrite app_nil_r. symmetry. apply firstn_all2. lia.
  - cbn [insights_loop List.filter].
    destruct (includes "insight" (toLowerCase line) || includes "-" line);
      cbn [map List.filter].
    + destruct (long_enough (insight_of line)) eqn:Hlong.
      * destruct (5 <=? length (found ++ [insight_of line]))%nat eqn:Hfull.
        -- apply Nat.leb_le in Hfull. rewrite length_app in Hfull.
           cbn in Hfull.
           assert (length found = 4%nat) as Hfour by lia.
           rewrite firstn_app, Hfour, firstn_all2 by lia. reflexivity.
        -- apply Nat.leb_gt in Hfull. rewrite (IH _ Hfull).
           now rewrite <- app_assoc.
      * assert ((5 <=? length found)%nat = false) as ->
          by (apply Nat.leb_gt; exact Hfew).
        now apply IH.
    + assert ((5 <=? length found)%nat = false) as ->
        by (apply Nat.leb_gt; exact Hfew).
      now apply IH.
Qed.

Lemma length_substring_le (n : nat) (s : string) :
  (String.length (substring 0 n s) <= n)%nat.
Proof.
  revert s. induction n as [|n IH]; intros [|c s]; cbn; try lia.
  specialize (IH s). lia.
Qed.

(** X30. Whenever [calculateRiskLevel] returns, [parseScenarioResponse]
    returns with that risk level and a summary of at most 200 characters.
    Its insights are the first five of the lines that mention an insight
    or hold a hyphen, cleaned and longer than ten characters, or the one
    stock insight when there is none: between one and five texts.  The
    [TypeError] of [calculateRiskLevel] is passed on. *)
Theorem parseScenarioResponse_reading (response : string)
    (scenario : Scenarios.Scenario) :
  (forall level,
     Scenarios.calculateRiskLevel scenario = Scenarios.Returned level ->
     exists reading,
       parseScenarioResponse response scenario = Scenarios.Returned reading /\
       riskLevel reading = level /\
       (String.length (summary reading) <= 200)%nat /\
       (let found := firstn 5 (marked_insights (split response)) in
        insights reading
        = match found with
          | [] => ["Scenario analyzed successfully"]
          | _ => found
          end) /\
       (1 <= length (insights reading) <= 5)%nat /\
       (insights reading = ["Scenario analyzed successfully"] \/
        Forall (fun text => (10 < String.length text)%nat)
               (insights reading))) /\
  (Scenarios.calculateRiskLevel scenario = Scenarios.TypeError ->
   parseScenarioResponse response scenario = Scenarios.TypeError).
Proof.
  unfold parseScenarioResponse. split.
  - intros level ->. eexists. split; [reflexivity|].
    cbn [riskLevel summary insights]. split; [reflexivity|].
    split; [apply length_substring_le|].
    rewrite (insights_loop_marked (split response) []) by (cbn; lia).
    cbn [app].
    set (found := firstn 5 (marked_insights (split response))).
    assert (length found <= 5)%nat as Hfew by apply firstn_le_length.
    assert (Forall (fun text => (10 < String.length text)%nat) found) as Hlong
      by apply Forall_firstn, filter_long_enough.
    destruct found as [|first others]; cbn [length Nat.ltb Nat.leb].
    + split; [reflexivity|]. split; [cbn; lia | now left].
    + split; [reflexivity|]. split; [cbn [length] in *; lia | now right].
  - now intros ->.
Qed.

End ResponseReading.

Lemma parseScenarioResponse_reading_witness :
  let response :=
    String.append "Key insights for the quarter"
      (String (Ascii.ascii_of_nat 10) "- Demand doubles in week two") in
  exists reading,
    ResponseText.parseScenarioResponse response
      (Scenarios.mkScenario "promotion" None)
    = Scenarios.Returned reading /\
    ResponseText.riskLevel reading = Scenarios.medium /\
    ResponseText.insights reading
    = ["Key insights for the quarter"; "Demand doubles in week two"]%string.
Proof.
  intros response.
  destruct (proj1 (parseScenarioResponse_reading response
                     (Scenarios.mkScenario "promotion" None))
              Scenarios.medium eq_refl)
    as (reading & Hreading & Hlevel & _ & Hinsights & _).
  exists reading. split; [exact Hreading|]. split; [exact Hlevel|].
  exact Hinsights.
Defined.
